(** * OmxVideoDecodeAccelerator: a shallow embedding and its properties

    The development follows [media/gpu/omx/omx_video_decode_accelerator.cc].
    The adapter's members become the fields of [State]; every member function
    becomes a computation in the monad [M] (state passing, with an outcome for
    a terminated process).  The OpenMAX component, the EGL driver and the
    client are outside the program: the calls made to them are appended to
    [trace], and the answers they give are read from [env_results]. *)

From stdpp Require Import gmap list strings.
From Stdlib Require Import ZArith Lia.

Local Open Scope Z_scope.

(** ** C++ integer conversions *)

(** Conversion to an unsigned integer of [w] bits. *)
Definition to_unsigned (w x : Z) : Z := x mod 2 ^ w.

(** Conversion to a signed (two's complement) integer of [w] bits. *)
Definition to_signed (w x : Z) : Z := (x + 2 ^ (w - 1)) mod 2 ^ w - 2 ^ (w - 1).

Definition in_int32 (x : Z) : Prop := - 2 ^ 31 <= x < 2 ^ 31.

(** ** Enumerations *)

(** [media::VideoDecodeAccelerator::Error]. *)
Inductive Error :=
  | ILLEGAL_STATE
  | INVALID_ARGUMENT
  | UNREADABLE_INPUT
  | PLATFORM_FAILURE.

(** [OmxVideoDecodeAccelerator::CurrentStateChange], the operation state. *)
Inductive CurrentStateChange :=
  | NO_TRANSITION
  | INITIALIZING
  | FLUSHING
  | RESETTING
  | DESTROYING
  | ERRORING.

(** [OMX_STATETYPE] of OpenMAX IL.  [client_state_] starts as [OMX_StateMax];
    [OMX_StateOther] stands for the codes the enumeration does not name, which
    [static_cast<OMX_STATETYPE>(data2)] can produce. *)
Inductive OMX_STATETYPE :=
  | OMX_StateInvalid
  | OMX_StateLoaded
  | OMX_StateIdle
  | OMX_StateExecuting
  | OMX_StatePause
  | OMX_StateWaitForResources
  | OMX_StateMax
  | OMX_StateOther (code : Z).

Definition OMX_STATETYPE_code (st : OMX_STATETYPE) : Z :=
  match st with
  | OMX_StateInvalid => 0
  | OMX_StateLoaded => 1
  | OMX_StateIdle => 2
  | OMX_StateExecuting => 3
  | OMX_StatePause => 4
  | OMX_StateWaitForResources => 5
  | OMX_StateMax => 0x7FFFFFFF
  | OMX_StateOther code => code
  end.

(** [static_cast<OMX_STATETYPE>(data2)]. *)
Definition OMX_STATETYPE_of_Z (v : Z) : OMX_STATETYPE :=
  match v with
  | 0 => OMX_StateInvalid
  | 1 => OMX_StateLoaded
  | 2 => OMX_StateIdle
  | 3 => OMX_StateExecuting
  | 4 => OMX_StatePause
  | 5 => OMX_StateWaitForResources
  | 0x7FFFFFFF => OMX_StateMax
  | _ => OMX_StateOther v
  end.

Inductive OMX_COMMANDTYPE :=
  | OMX_CommandStateSet
  | OMX_CommandFlush
  | OMX_CommandPortDisable
  | OMX_CommandPortEnable
  | OMX_CommandMarkBuffer.

Definition OMX_COMMANDTYPE_code (c : OMX_COMMANDTYPE) : Z :=
  match c with
  | OMX_CommandStateSet => 0
  | OMX_CommandFlush => 1
  | OMX_CommandPortDisable => 2
  | OMX_CommandPortEnable => 3
  | OMX_CommandMarkBuffer => 4
  end.

(** [OMX_EVENTTYPE]; [OMX_EventOther] gathers the events the adapter has no
    case for besides [OMX_EventMark]. *)
Inductive OMX_EVENTTYPE :=
  | OMX_EventCmdComplete
  | OMX_EventError
  | OMX_EventMark
  | OMX_EventPortSettingsChanged
  | OMX_EventBufferFlag
  | OMX_EventOther.

Inductive OMX_DIRTYPE := OMX_DirInput | OMX_DirOutput.

Definition OMX_IndexParamPortDefinition : Z := 0x02000001.
Definition OMX_IndexConfigCommonScale : Z := 0x07000009.
Definition OMX_IndexConfigCommonOutputCrop : Z := 0x0700000F.

Definition OMX_BUFFERFLAG_EOS : Z := 0x00000001.

(** [OMX_VIDEO_AVCPROFILETYPE]. *)
Definition OMX_VIDEO_AVCProfileBaseline : Z := 0x01.
Definition OMX_VIDEO_AVCProfileMain : Z := 0x02.
Definition OMX_VIDEO_AVCProfileExtended : Z := 0x04.
Definition OMX_VIDEO_AVCProfileHigh : Z := 0x08.
Definition OMX_VIDEO_AVCProfileHigh10 : Z := 0x10.
Definition OMX_VIDEO_AVCProfileHigh422 : Z := 0x20.
Definition OMX_VIDEO_AVCProfileHigh444 : Z := 0x40.
Definition OMX_VIDEO_AVCProfileMax : Z := 0x7FFFFFFF.

(** [media::VideoCodecProfile], by its numeric values.  The enumeration is
    declared in [media/base/video_codecs.h]; the adapter compares profiles
    with [>=] and [<=], so they are kept as integers. *)
Definition VIDEO_CODEC_PROFILE_UNKNOWN : Z := -1.
Definition H264PROFILE_MIN : Z := 0.
Definition H264PROFILE_BASELINE : Z := 0.
Definition H264PROFILE_MAIN : Z := 1.
Definition H264PROFILE_EXTENDED : Z := 2.
Definition H264PROFILE_HIGH : Z := 3.
Definition H264PROFILE_HIGH10PROFILE : Z := 4.
Definition H264PROFILE_HIGH422PROFILE : Z := 5.
Definition H264PROFILE_HIGH444PREDICTIVEPROFILE : Z := 6.
Definition H264PROFILE_SCALABLEBASELINE : Z := 7.
Definition H264PROFILE_SCALABLEHIGH : Z := 8.
Definition H264PROFILE_STEREOHIGH : Z := 9.
Definition H264PROFILE_MULTIVIEWHIGH : Z := 10.
Definition H264PROFILE_MAX : Z := 10.
Definition VP8PROFILE_MIN : Z := 11.
Definition VP8PROFILE_ANY : Z := 11.
Definition VP8PROFILE_MAX : Z := 11.

Inductive Codec := UNKNOWN | H264 | VP8.

Definition kNumPictureBuffers : Z := 8.
Definition kSyncPollDelayMs : Z := 5.

#[global] Instance Error_eq_dec : EqDecision Error.
Proof. solve_decision. Defined.
#[global] Instance CurrentStateChange_eq_dec : EqDecision CurrentStateChange.
Proof. solve_decision. Defined.
#[global] Instance OMX_STATETYPE_eq_dec : EqDecision OMX_STATETYPE.
Proof. solve_decision. Defined.
#[global] Instance OMX_COMMANDTYPE_eq_dec : EqDecision OMX_COMMANDTYPE.
Proof. solve_decision. Defined.
#[global] Instance OMX_DIRTYPE_eq_dec : EqDecision OMX_DIRTYPE.
Proof. solve_decision. Defined.
#[global] Instance Codec_eq_dec : EqDecision Codec.
Proof. solve_decision. Defined.

(** ** Buffers and pictures *)

(** [media::BitstreamBuffer]: id, shared memory handle, size. *)
Record BitstreamBuffer := mkBitstreamBuffer {
  bb_id : Z;
  bb_handle : Z;
  bb_size : Z
}.

#[global] Instance BitstreamBuffer_eq_dec : EqDecision BitstreamBuffer.
Proof. solve_decision. Defined.

(** [media::PictureBuffer], as far as the adapter reads it. *)
Record PictureBuffer := mkPictureBuffer {
  pb_id : Z;
  pb_texture_id : Z
}.

(** [media::Picture]: the record handed to [PictureReady]. *)
Record Picture := mkPicture {
  picture_buffer_id : Z;
  bitstream_buffer_id : Z
}.

#[global] Instance Picture_eq_dec : EqDecision Picture.
Proof. solve_decision. Defined.

(** [Picture::set_bitstream_buffer_id(int32_t)]. *)
Definition set_bitstream_buffer_id (v : Z) (p : Picture) : Picture :=
  mkPicture (picture_buffer_id p) (to_signed 32 v).

(** [SharedMemoryAndId]: the mapped region (by its handle) and the id. *)
Definition SharedMemoryAndId : Type := Z * Z.

(** What [pAppPrivate] points to: nothing, the details of an input buffer
    ([SharedMemoryAndId*]) or the record of an output buffer
    ([media::Picture*]). *)
Inductive AppPrivate :=
  | AppNull
  | AppInput (details : SharedMemoryAndId)
  | AppPicture (picture : Picture).

(** [OMX_BUFFERHEADERTYPE], the fields the adapter touches.  [nTimeStamp] is
    [OMX_TICKS], a signed 64-bit integer; the lengths, the flags and the port
    indices are [OMX_U32]. *)
Record OMX_BUFFERHEADERTYPE := mkHeader {
  pBuffer : Z;
  nAllocLen : Z;
  nFilledLen : Z;
  nOffset : Z;
  pAppPrivate : AppPrivate;
  nFlags : Z;
  nTimeStamp : Z;
  nOutputPortIndex : Z;
  nInputPortIndex : Z
}.

Definition hdr_set_pBuffer v (h : OMX_BUFFERHEADERTYPE) :=
  mkHeader v (nAllocLen h) (nFilledLen h) (nOffset h) (pAppPrivate h) (nFlags h)
    (nTimeStamp h) (nOutputPortIndex h) (nInputPortIndex h).
Definition hdr_set_nAllocLen v (h : OMX_BUFFERHEADERTYPE) :=
  mkHeader (pBuffer h) v (nFilledLen h) (nOffset h) (pAppPrivate h) (nFlags h)
    (nTimeStamp h) (nOutputPortIndex h) (nInputPortIndex h).
Definition hdr_set_nFilledLen v (h : OMX_BUFFERHEADERTYPE) :=
  mkHeader (pBuffer h) (nAllocLen h) v (nOffset h) (pAppPrivate h) (nFlags h)
    (nTimeStamp h) (nOutputPortIndex h) (nInputPortIndex h).
Definition hdr_set_nOffset v (h : OMX_BUFFERHEADERTYPE) :=
  mkHeader (pBuffer h) (nAllocLen h) (nFilledLen h) v (pAppPrivate h) (nFlags h)
    (nTimeStamp h) (nOutputPortIndex h) (nInputPortIndex h).
Definition hdr_set_pAppPrivate v (h : OMX_BUFFERHEADERTYPE) :=
  mkHeader (pBuffer h) (nAllocLen h) (nFilledLen h) (nOffset h) v (nFlags h)
    (nTimeStamp h) (nOutputPortIndex h) (nInputPortIndex h).
Definition hdr_set_nFlags v (h : OMX_BUFFERHEADERTYPE) :=
  mkHeader (pBuffer h) (nAllocLen h) (nFilledLen h) (nOffset h) (pAppPrivate h) v
    (nTimeStamp h) (nOutputPortIndex h) (nInputPortIndex h).
Definition hdr_set_nTimeStamp v (h : OMX_BUFFERHEADERTYPE) :=
  mkHeader (pBuffer h) (nAllocLen h) (nFilledLen h) (nOffset h) (pAppPrivate h) (nFlags h)
    v (nOutputPortIndex h) (nInputPortIndex h).
Definition hdr_set_nOutputPortIndex v (h : OMX_BUFFERHEADERTYPE) :=
  mkHeader (pBuffer h) (nAllocLen h) (nFilledLen h) (nOffset h) (pAppPrivate h) (nFlags h)
    (nTimeStamp h) v (nInputPortIndex h).
Definition hdr_set_nInputPortIndex v (h : OMX_BUFFERHEADERTYPE) :=
  mkHeader (pBuffer h) (nAllocLen h) (nFilledLen h) (nOffset h) (pAppPrivate h) (nFlags h)
    (nTimeStamp h) (nOutputPortIndex h) v.

#[global] Instance AppPrivate_eq_dec : EqDecision AppPrivate.
Proof. solve_decision. Defined.

(** [nFlags & OMX_BUFFERFLAG_EOS], [nFlags |= ...] and [nFlags &= ~...] on
    the 32-bit flag word. *)
Definition has_EOS (flags : Z) : bool := negb (Z.land flags OMX_BUFFERFLAG_EOS =? 0).
Definition set_EOS (flags : Z) : Z := Z.lor flags OMX_BUFFERFLAG_EOS.
Definition clear_EOS (flags : Z) : Z :=
  Z.land flags (to_unsigned 32 (Z.lnot OMX_BUFFERFLAG_EOS)).

(** A header as the component hands it out: zeroed. *)
Definition fresh_header : OMX_BUFFERHEADERTYPE := mkHeader 0 0 0 0 AppNull 0 0 0 0.

(** [OutputPicture]: the client's picture buffer and the component's header
    for it (null until [AllocateOutputBuffers]). *)
Record OutputPicture := mkOutputPicture {
  picture_buffer : PictureBuffer;
  omx_buffer_header : option nat
}.

(** ** The outside world *)

(** Calls into the OpenMAX core and component. *)
Inductive OmxCall :=
  | OMX_Init
  | OMX_Deinit
  | OMX_GetComponentsOfRole (role : string)
  | OMX_GetHandle
  | OMX_FreeHandle
  | OMX_GetParameter (index : string) (port : Z)
  | OMX_SetParameter (index : string) (port : Z)
  | OMX_SendCommand (cmd : OMX_COMMANDTYPE) (param : Z)
  | OMX_UseBuffer (port : Z) (buffer : nat)
  | OMX_AllocateBuffer (port : Z) (buffer : nat)
  | OMX_FreeBuffer (port : Z) (buffer : nat)
  | OMX_EmptyThisBuffer (buffer : nat) (header : OMX_BUFFERHEADERTYPE)
  | OMX_FillThisBuffer (buffer : nat).

(** Calls on [media::VideoDecodeAccelerator::Client]. *)
Inductive ClientCall :=
  | NotifyInitializationComplete (success : bool)
  | ProvidePictureBuffers (count : Z) (planes : Z) (width height : Z)
  | DismissPictureBuffer (id : Z)
  | PictureReady (picture : Picture)
  | NotifyEndOfBitstreamBuffer (id : Z)
  | NotifyFlushDone
  | NotifyResetDone
  | NotifyError (error : Error).

(** Everything else the adapter asks of its platform. *)
Inductive SysCall :=
  | InitializeStubs
  | MakeContextCurrent
  | SharedMemoryMap (handle : Z) (size : Z)
  | eglCreateSyncKHR
  | eglDestroySyncKHR
  | eglGetSyncAttribKHR
  | PostDelayedCheckPictureStatus (id : Z) (delay_ms : Z)
  | PostBusyLoopInDestroying
  | Sleep (ms : Z).

Inductive Event :=
  | EvOmx (c : OmxCall)
  | EvClient (c : ClientCall)
  | EvSys (c : SysCall).

(** What the component reports when asked for its parameters. *)
Record EngineReplies := mkEngineReplies {
  num_components : Z;
  nPorts : Z;
  nStartPortNumber : Z;
  input_eDir : OMX_DIRTYPE;
  input_nBufferCountActual : Z;
  input_nBufferSize : Z;
  output_eDir : OMX_DIRTYPE;
  output_nBufferCountMin : Z;
  output_nFrameWidth : Z;
  output_nFrameHeight : Z
}.

(** ** The adapter's state

    The members of the class keep their names.  Around them:
    [dcheck_is_on] tells whether [DCHECK] is compiled in; [env_results] holds
    the answers of the platform to the calls that can fail, in the order they
    are asked, and once it is used up every call succeeds; [headers] is the
    memory of the buffer headers, which the adapter and the component share
    by address; [posted_picture_checks_] and [busy_loop_posted_] are the tasks
    waiting on the task runner; [deleted_] is set once the object is gone. *)
Record State := mkState {
  dcheck_is_on : bool;
  env_results : list bool;
  engine : EngineReplies;
  trace : list Event;
  headers : gmap nat OMX_BUFFERHEADERTYPE;
  next_header : nat;
  pre_sandbox_init_done_ : bool;
  component_handle_ : bool;
  client_ptr_factory_ : bool;
  client_ : bool;
  init_begun_ : bool;
  client_state_ : OMX_STATETYPE;
  current_state_change_ : CurrentStateChange;
  input_buffer_count_ : Z;
  input_buffer_size_ : Z;
  input_port_ : Z;
  input_buffers_at_component_ : Z;
  output_port_ : Z;
  output_buffers_at_component_ : Z;
  free_input_buffers_ : list nat;
  queued_bitstream_buffers_ : list BitstreamBuffer;
  queued_picture_buffer_ids_ : list Z;
  pictures_ : list (Z * OutputPicture);
  fake_output_buffers_ : list nat;
  codec_ : Codec;
  h264_profile_ : Z;
  last_requested_picture_buffer_dimensions_ : Z * Z;
  egl_display_ : Z;
  posted_picture_checks_ : list Z;
  busy_loop_posted_ : bool;
  deleted_ : bool
}.

Definition set_env_results (v : list bool) (s : State) : State :=
  mkState (dcheck_is_on s) v (engine s) (trace s) (headers s) (next_header s)
    (pre_sandbox_init_done_ s) (component_handle_ s) (client_ptr_factory_ s) (client_ s)
    (init_begun_ s) (client_state_ s) (current_state_change_ s) (input_buffer_count_ s)
    (input_buffer_size_ s) (input_port_ s) (input_buffers_at_component_ s) (output_port_ s)
    (output_buffers_at_component_ s) (free_input_buffers_ s) (queued_bitstream_buffers_ s)
    (queued_picture_buffer_ids_ s) (pictures_ s) (fake_output_buffers_ s) (codec_ s)
    (h264_profile_ s) (last_requested_picture_buffer_dimensions_ s) (egl_display_ s)
    (posted_picture_checks_ s) (busy_loop_posted_ s) (deleted_ s).
Definition set_trace (v : list Event) (s : State) : State :=
  mkState (dcheck_is_on s) (env_results s) (engine s) v (headers s) (next_header s)
    (pre_sandbox_init_done_ s) (component_handle_ s) (client_ptr_factory_ s) (client_ s)
    (init_begun_ s) (client_state_ s) (current_state_change_ s) (input_buffer_count_ s)
    (input_buffer_size_ s) (input_port_ s) (input_buffers_at_component_ s) (output_port_ s)
    (output_buffers_at_component_ s) (free_input_buffers_ s) (queued_bitstream_buffers_ s)
    (queued_picture_buffer_ids_ s) (pictures_ s) (fake_output_buffers_ s) (codec_ s)
    (h264_profile_ s) (last_requested_picture_buffer_dimensions_ s) (egl_display_ s)
    (posted_picture_checks_ s) (busy_loop_posted_ s) (deleted_ s).
Definition set_headers (v : gmap nat OMX_BUFFERHEADERTYPE) (s : State) : State :=
  mkState (dcheck_is_on s) (env_results s) (engine s) (trace s) v (next_header s)
    (pre_sandbox_init_done_ s) (component_handle_ s) (client_ptr_factory_ s) (client_ s)
    (init_begun_ s) (client_state_ s) (current_state_change_ s) (input_buffer_count_ s)
    (input_buffer_size_ s) (input_port_ s) (input_buffers_at_component_ s) (output_port_ s)
    (output_buffers_at_component_ s) (free_input_buffers_ s) (queued_bitstream_buffers_ s)
    (queued_picture_buffer_ids_ s) (pictures_ s) (fake_output_buffers_ s) (codec_ s)
    (h264_profile_ s) (last_requested_picture_buffer_dimensions_ s) (egl_display_ s)
    (posted_picture_checks_ s) (busy_loop_posted_ s) (deleted_ s).
Definition set_next_header (v : nat) (s : State) : State :=
  mkState (dcheck_is_on s) (env_results s) (engine s) (trace s) (headers s) v
    (pre_sandbox_init_done_ s) (component_handle_ s) (client_ptr_factory_ s) (client_ s)
    (init_begun_ s) (client_state_ s) (current_state_change_ s) (input_buffer_count_ s)
    (input_buffer_size_ s) (input_port_ s) (input_buffers_at_component_ s) (output_port_ s)
    (output_buffers_at_component_ s) (free_input_buffers_ s) (queued_bitstream_buffers_ s)
    (queued_picture_buffer_ids_ s) (pictures_ s) (fake_output_buffers_ s) (codec_ s)
    (h264_profile_ s) (last_requested_picture_buffer_dimensions_ s) (egl_display_ s)
    (posted_picture_checks_ s) (busy_loop_posted_ s) (deleted_ s).
Definition set_pre_sandbox_init_done_ (v : bool) (s : State) : State :=
  mkState (dcheck_is_on s) (env_results s) (engine s) (trace s) (headers s) (next_header s) v
    (component_handle_ s) (client_ptr_factory_ s) (client_ s) (init_begun_ s) (client_state_ s)
    (current_state_change_ s) (input_buffer_count_ s) (input_buffer_size_ s) (input_port_ s)
    (input_buffers_at_component_ s) (output_port_ s) (output_buffers_at_component_ s)
    (free_input_buffers_ s) (queued_bitstream_buffers_ s) (queued_picture_buffer_ids_ s)
    (pictures_ s) (fake_output_buffers_ s) (codec_ s) (h264_profile_ s)
    (last_requested_picture_buffer_dimensions_ s) (egl_display_ s) (posted_picture_checks_ s)
    (busy_loop_posted_ s) (deleted_ s).
Definition set_component_handle_ (v : bool) (s : State) : State :=
  mkState (dcheck_is_on s) (env_results s) (engine s) (trace s) (headers s) (next_header s)
    (pre_sandbox_init_done_ s) v (client_ptr_factory_ s) (client_ s) (init_begun_ s)
    (client_state_ s) (current_state_change_ s) (input_buffer_count_ s) (input_buffer_size_ s)
    (input_port_ s) (input_buffers_at_component_ s) (output_port_ s)
    (output_buffers_at_component_ s) (free_input_buffers_ s) (queued_bitstream_buffers_ s)
    (queued_picture_buffer_ids_ s) (pictures_ s) (fake_output_buffers_ s) (codec_ s)
    (h264_profile_ s) (last_requested_picture_buffer_dimensions_ s) (egl_display_ s)
    (posted_picture_checks_ s) (busy_loop_posted_ s) (deleted_ s).
Definition set_client_ptr_factory_ (v : bool) (s : State) : State :=
  mkState (dcheck_is_on s) (env_results s) (engine s) (trace s) (headers s) (next_header s)
    (pre_sandbox_init_done_ s) (component_handle_ s) v (client_ s) (init_begun_ s)
    (client_state_ s) (current_state_change_ s) (input_buffer_count_ s) (input_buffer_size_ s)
    (input_port_ s) (input_buffers_at_component_ s) (output_port_ s)
    (output_buffers_at_component_ s) (free_input_buffers_ s) (queued_bitstream_buffers_ s)
    (queued_picture_buffer_ids_ s) (pictures_ s) (fake_output_buffers_ s) (codec_ s)
    (h264_profile_ s) (last_requested_picture_buffer_dimensions_ s) (egl_display_ s)
    (posted_picture_checks_ s) (busy_loop_posted_ s) (deleted_ s).
Definition set_client_ (v : bool) (s : State) : State :=
  mkState (dcheck_is_on s) (env_results s) (engine s) (trace s) (headers s) (next_header s)
    (pre_sandbox_init_done_ s) (component_handle_ s) (client_ptr_factory_ s) v (init_begun_ s)
    (client_state_ s) (current_state_change_ s) (input_buffer_count_ s) (input_buffer_size_ s)
    (input_port_ s) (input_buffers_at_component_ s) (output_port_ s)
    (output_buffers_at_component_ s) (free_input_buffers_ s) (queued_bitstream_buffers_ s)
    (queued_picture_buffer_ids_ s) (pictures_ s) (fake_output_buffers_ s) (codec_ s)
    (h264_profile_ s) (last_requested_picture_buffer_dimensions_ s) (egl_display_ s)
    (posted_picture_checks_ s) (busy_loop_posted_ s) (deleted_ s).
Definition set_init_begun_ (v : bool) (s : State) : State :=
  mkState (dcheck_is_on s) (env_results s) (engine s) (trace s) (headers s) (next_header s)
    (pre_sandbox_init_done_ s) (component_handle_ s) (client_ptr_factory_ s) (client_ s) v
    (client_state_ s) (current_state_change_ s) (input_buffer_count_ s) (input_buffer_size_ s)
    (input_port_ s) (input_buffers_at_component_ s) (output_port_ s)
    (output_buffers_at_component_ s) (free_input_buffers_ s) (queued_bitstream_buffers_ s)
    (queued_picture_buffer_ids_ s) (pictures_ s) (fake_output_buffers_ s) (codec_ s)
    (h264_profile_ s) (last_requested_picture_buffer_dimensions_ s) (egl_display_ s)
    (posted_picture_checks_ s) (busy_loop_posted_ s) (deleted_ s).
Definition set_client_state_ (v : OMX_STATETYPE) (s : State) : State :=
  mkState (dcheck_is_on s) (env_results s) (engine s) (trace s) (headers s) (next_header s)
    (pre_sandbox_init_done_ s) (component_handle_ s) (client_ptr_factory_ s) (client_ s)
    (init_begun_ s) v (current_state_change_ s) (input_buffer_count_ s) (input_buffer_size_ s)
    (input_port_ s) (input_buffers_at_component_ s) (output_port_ s)
    (output_buffers_at_component_ s) (free_input_buffers_ s) (queued_bitstream_buffers_ s)
    (queued_picture_buffer_ids_ s) (pictures_ s) (fake_output_buffers_ s) (codec_ s)
    (h264_profile_ s) (last_requested_picture_buffer_dimensions_ s) (egl_display_ s)
    (posted_picture_checks_ s) (busy_loop_posted_ s) (deleted_ s).
Definition set_current_state_change_ (v : CurrentStateChange) (s : State) : State :=
  mkState (dcheck_is_on s) (env_results s) (engine s) (trace s) (headers s) (next_header s)
    (pre_sandbox_init_done_ s) (component_handle_ s) (client_ptr_factory_ s) (client_ s)
    (init_begun_ s) (client_state_ s) v (input_buffer_count_ s) (input_buffer_size_ s)
    (input_port_ s) (input_buffers_at_component_ s) (output_port_ s)
    (output_buffers_at_component_ s) (free_input_buffers_ s) (queued_bitstream_buffers_ s)
    (queued_picture_buffer_ids_ s) (pictures_ s) (fake_output_buffers_ s) (codec_ s)
    (h264_profile_ s) (last_requested_picture_buffer_dimensions_ s) (egl_display_ s)
    (posted_picture_checks_ s) (busy_loop_posted_ s) (deleted_ s).
Definition set_input_buffer_count_ (v : Z) (s : State) : State :=
  mkState (dcheck_is_on s) (env_results s) (engine s) (trace s) (headers s) (next_header s)
    (pre_sandbox_init_done_ s) (component_handle_ s) (client_ptr_factory_ s) (client_ s)
    (init_begun_ s) (client_state_ s) (current_state_change_ s) v (input_buffer_size_ s)
    (input_port_ s) (input_buffers_at_component_ s) (output_port_ s)
    (output_buffers_at_component_ s) (free_input_buffers_ s) (queued_bitstream_buffers_ s)
    (queued_picture_buffer_ids_ s) (pictures_ s) (fake_output_buffers_ s) (codec_ s)
    (h264_profile_ s) (last_requested_picture_buffer_dimensions_ s) (egl_display_ s)
    (posted_picture_checks_ s) (busy_loop_posted_ s) (deleted_ s).
Definition set_input_buffer_size_ (v : Z) (s : State) : State :=
  mkState (dcheck_is_on s) (env_results s) (engine s) (trace s) (headers s) (next_header s)
    (pre_sandbox_init_done_ s) (component_handle_ s) (client_ptr_factory_ s) (client_ s)
    (init_begun_ s) (client_state_ s) (current_state_change_ s) (input_buffer_count_ s) v
    (input_port_ s) (input_buffers_at_component_ s) (output_port_ s)
    (output_buffers_at_component_ s) (free_input_buffers_ s) (queued_bitstream_buffers_ s)
    (queued_picture_buffer_ids_ s) (pictures_ s) (fake_output_buffers_ s) (codec_ s)
    (h264_profile_ s) (last_requested_picture_buffer_dimensions_ s) (egl_display_ s)
    (posted_picture_checks_ s) (busy_loop_posted_ s) (deleted_ s).
Definition set_input_port_ (v : Z) (s : State) : State :=
  mkState (dcheck_is_on s) (env_results s) (engine s) (trace s) (headers s) (next_header s)
    (pre_sandbox_init_done_ s) (component_handle_ s) (client_ptr_factory_ s) (client_ s)
    (init_begun_ s) (client_state_ s) (current_state_change_ s) (input_buffer_count_ s)
    (input_buffer_size_ s) v (input_buffers_at_component_ s) (output_port_ s)
    (output_buffers_at_component_ s) (free_input_buffers_ s) (queued_bitstream_buffers_ s)
    (queued_picture_buffer_ids_ s) (pictures_ s) (fake_output_buffers_ s) (codec_ s)
    (h264_profile_ s) (last_requested_picture_buffer_dimensions_ s) (egl_display_ s)
    (posted_picture_checks_ s) (busy_loop_posted_ s) (deleted_ s).
Definition set_input_buffers_at_component_ (v : Z) (s : State) : State :=
  mkState (dcheck_is_on s) (env_results s) (engine s) (trace s) (headers s) (next_header s)
    (pre_sandbox_init_done_ s) (component_handle_ s) (client_ptr_factory_ s) (client_ s)
    (init_begun_ s) (client_state_ s) (current_state_change_ s) (input_buffer_count_ s)
    (input_buffer_size_ s) (input_port_ s) v (output_port_ s) (output_buffers_at_component_ s)
    (free_input_buffers_ s) (queued_bitstream_buffers_ s) (queued_picture_buffer_ids_ s)
    (pictures_ s) (fake_output_buffers_ s) (codec_ s) (h264_profile_ s)
    (last_requested_picture_buffer_dimensions_ s) (egl_display_ s) (posted_picture_checks_ s)
    (busy_loop_posted_ s) (deleted_ s).
Definition set_output_port_ (v : Z) (s : State) : State :=
  mkState (dcheck_is_on s) (env_results s) (engine s) (trace s) (headers s) (next_header s)
    (pre_sandbox_init_done_ s) (component_handle_ s) (client_ptr_factory_ s) (client_ s)
    (init_begun_ s) (client_state_ s) (current_state_change_ s) (input_buffer_count_ s)
    (input_buffer_size_ s) (input_port_ s) (input_buffers_at_component_ s) v
    (output_buffers_at_component_ s) (free_input_buffers_ s) (queued_bitstream_buffers_ s)
    (queued_picture_buffer_ids_ s) (pictures_ s) (fake_output_buffers_ s) (codec_ s)
    (h264_profile_ s) (last_requested_picture_buffer_dimensions_ s) (egl_display_ s)
    (posted_picture_checks_ s) (busy_loop_posted_ s) (deleted_ s).
Definition set_output_buffers_at_component_ (v : Z) (s : State) : State :=
  mkState (dcheck_is_on s) (env_results s) (engine s) (trace s) (headers s) (next_header s)
    (pre_sandbox_init_done_ s) (component_handle_ s) (client_ptr_factory_ s) (client_ s)
    (init_begun_ s) (client_state_ s) (current_state_change_ s) (input_buffer_count_ s)
    (input_buffer_size_ s) (input_port_ s) (input_buffers_at_component_ s) (output_port_ s) v
    (free_input_buffers_ s) (queued_bitstream_buffers_ s) (queued_picture_buffer_ids_ s)
    (pictures_ s) (fake_output_buffers_ s) (codec_ s) (h264_profile_ s)
    (last_requested_picture_buffer_dimensions_ s) (egl_display_ s) (posted_picture_checks_ s)
    (busy_loop_posted_ s) (deleted_ s).
Definition set_free_input_buffers_ (v : list nat) (s : State) : State :=
  mkState (dcheck_is_on s) (env_results s) (engine s) (trace s) (headers s) (next_header s)
    (pre_sandbox_init_done_ s) (component_handle_ s) (client_ptr_factory_ s) (client_ s)
    (init_begun_ s) (client_state_ s) (current_state_change_ s) (input_buffer_count_ s)
    (input_buffer_size_ s) (input_port_ s) (input_buffers_at_component_ s) (output_port_ s)
    (output_buffers_at_component_ s) v (queued_bitstream_buffers_ s) (queued_picture_buffer_ids_
    s) (pictures_ s) (fake_output_buffers_ s) (codec_ s) (h264_profile_ s)
    (last_requested_picture_buffer_dimensions_ s) (egl_display_ s) (posted_picture_checks_ s)
    (busy_loop_posted_ s) (deleted_ s).
Definition set_queued_bitstream_buffers_ (v : list BitstreamBuffer) (s : State) : State :=
  mkState (dcheck_is_on s) (env_results s) (engine s) (trace s) (headers s) (next_header s)
    (pre_sandbox_init_done_ s) (component_handle_ s) (client_ptr_factory_ s) (client_ s)
    (init_begun_ s) (client_state_ s) (current_state_change_ s) (input_buffer_count_ s)
    (input_buffer_size_ s) (input_port_ s) (input_buffers_at_component_ s) (output_port_ s)
    (output_buffers_at_component_ s) (free_input_buffers_ s) v (queued_picture_buffer_ids_ s)
    (pictures_ s) (fake_output_buffers_ s) (codec_ s) (h264_profile_ s)
    (last_requested_picture_buffer_dimensions_ s) (egl_display_ s) (posted_picture_checks_ s)
    (busy_loop_posted_ s) (deleted_ s).
Definition set_queued_picture_buffer_ids_ (v : list Z) (s : State) : State :=
  mkState (dcheck_is_on s) (env_results s) (engine s) (trace s) (headers s) (next_header s)
    (pre_sandbox_init_done_ s) (component_handle_ s) (client_ptr_factory_ s) (client_ s)
    (init_begun_ s) (client_state_ s) (current_state_change_ s) (input_buffer_count_ s)
    (input_buffer_size_ s) (input_port_ s) (input_buffers_at_component_ s) (output_port_ s)
    (output_buffers_at_component_ s) (free_input_buffers_ s) (queued_bitstream_buffers_ s) v
    (pictures_ s) (fake_output_buffers_ s) (codec_ s) (h264_profile_ s)
    (last_requested_picture_buffer_dimensions_ s) (egl_display_ s) (posted_picture_checks_ s)
    (busy_loop_posted_ s) (deleted_ s).
Definition set_pictures_ (v : list (Z * OutputPicture)) (s : State) : State :=
  mkState (dcheck_is_on s) (env_results s) (engine s) (trace s) (headers s) (next_header s)
    (pre_sandbox_init_done_ s) (component_handle_ s) (client_ptr_factory_ s) (client_ s)
    (init_begun_ s) (client_state_ s) (current_state_change_ s) (input_buffer_count_ s)
    (input_buffer_size_ s) (input_port_ s) (input_buffers_at_component_ s) (output_port_ s)
    (output_buffers_at_component_ s) (free_input_buffers_ s) (queued_bitstream_buffers_ s)
    (queued_picture_buffer_ids_ s) v (fake_output_buffers_ s) (codec_ s) (h264_profile_ s)
    (last_requested_picture_buffer_dimensions_ s) (egl_display_ s) (posted_picture_checks_ s)
    (busy_loop_posted_ s) (deleted_ s).
Definition set_fake_output_buffers_ (v : list nat) (s : State) : State :=
  mkState (dcheck_is_on s) (env_results s) (engine s) (trace s) (headers s) (next_header s)
    (pre_sandbox_init_done_ s) (component_handle_ s) (client_ptr_factory_ s) (client_ s)
    (init_begun_ s) (client_state_ s) (current_state_change_ s) (input_buffer_count_ s)
    (input_buffer_size_ s) (input_port_ s) (input_buffers_at_component_ s) (output_port_ s)
    (output_buffers_at_component_ s) (free_input_buffers_ s) (queued_bitstream_buffers_ s)
    (queued_picture_buffer_ids_ s) (pictures_ s) v (codec_ s) (h264_profile_ s)
    (last_requested_picture_buffer_dimensions_ s) (egl_display_ s) (posted_picture_checks_ s)
    (busy_loop_posted_ s) (deleted_ s).
Definition set_codec_ (v : Codec) (s : State) : State :=
  mkState (dcheck_is_on s) (env_results s) (engine s) (trace s) (headers s) (next_header s)
    (pre_sandbox_init_done_ s) (component_handle_ s) (client_ptr_factory_ s) (client_ s)
    (init_begun_ s) (client_state_ s) (current_state_change_ s) (input_buffer_count_ s)
    (input_buffer_size_ s) (input_port_ s) (input_buffers_at_component_ s) (output_port_ s)
    (output_buffers_at_component_ s) (free_input_buffers_ s) (queued_bitstream_buffers_ s)
    (queued_picture_buffer_ids_ s) (pictures_ s) (fake_output_buffers_ s) v (h264_profile_ s)
    (last_requested_picture_buffer_dimensions_ s) (egl_display_ s) (posted_picture_checks_ s)
    (busy_loop_posted_ s) (deleted_ s).
Definition set_h264_profile_ (v : Z) (s : State) : State :=
  mkState (dcheck_is_on s) (env_results s) (engine s) (trace s) (headers s) (next_header s)
    (pre_sandbox_init_done_ s) (component_handle_ s) (client_ptr_factory_ s) (client_ s)
    (init_begun_ s) (client_state_ s) (current_state_change_ s) (input_buffer_count_ s)
    (input_buffer_size_ s) (input_port_ s) (input_buffers_at_component_ s) (output_port_ s)
    (output_buffers_at_component_ s) (free_input_buffers_ s) (queued_bitstream_buffers_ s)
    (queued_picture_buffer_ids_ s) (pictures_ s) (fake_output_buffers_ s) (codec_ s) v
    (last_requested_picture_buffer_dimensions_ s) (egl_display_ s) (posted_picture_checks_ s)
    (busy_loop_posted_ s) (deleted_ s).
Definition set_last_requested_picture_buffer_dimensions_ (v : Z * Z) (s : State) : State :=
  mkState (dcheck_is_on s) (env_results s) (engine s) (trace s) (headers s) (next_header s)
    (pre_sandbox_init_done_ s) (component_handle_ s) (client_ptr_factory_ s) (client_ s)
    (init_begun_ s) (client_state_ s) (current_state_change_ s) (input_buffer_count_ s)
    (input_buffer_size_ s) (input_port_ s) (input_buffers_at_component_ s) (output_port_ s)
    (output_buffers_at_component_ s) (free_input_buffers_ s) (queued_bitstream_buffers_ s)
    (queued_picture_buffer_ids_ s) (pictures_ s) (fake_output_buffers_ s) (codec_ s)
    (h264_profile_ s) v (egl_display_ s) (posted_picture_checks_ s) (busy_loop_posted_ s)
    (deleted_ s).
Definition set_posted_picture_checks_ (v : list Z) (s : State) : State :=
  mkState (dcheck_is_on s) (env_results s) (engine s) (trace s) (headers s) (next_header s)
    (pre_sandbox_init_done_ s) (component_handle_ s) (client_ptr_factory_ s) (client_ s)
    (init_begun_ s) (client_state_ s) (current_state_change_ s) (input_buffer_count_ s)
    (input_buffer_size_ s) (input_port_ s) (input_buffers_at_component_ s) (output_port_ s)
    (output_buffers_at_component_ s) (free_input_buffers_ s) (queued_bitstream_buffers_ s)
    (queued_picture_buffer_ids_ s) (pictures_ s) (fake_output_buffers_ s) (codec_ s)
    (h264_profile_ s) (last_requested_picture_buffer_dimensions_ s) (egl_display_ s) v
    (busy_loop_posted_ s) (deleted_ s).
Definition set_busy_loop_posted_ (v : bool) (s : State) : State :=
  mkState (dcheck_is_on s) (env_results s) (engine s) (trace s) (headers s) (next_header s)
    (pre_sandbox_init_done_ s) (component_handle_ s) (client_ptr_factory_ s) (client_ s)
    (init_begun_ s) (client_state_ s) (current_state_change_ s) (input_buffer_count_ s)
    (input_buffer_size_ s) (input_port_ s) (input_buffers_at_component_ s) (output_port_ s)
    (output_buffers_at_component_ s) (free_input_buffers_ s) (queued_bitstream_buffers_ s)
    (queued_picture_buffer_ids_ s) (pictures_ s) (fake_output_buffers_ s) (codec_ s)
    (h264_profile_ s) (last_requested_picture_buffer_dimensions_ s) (egl_display_ s)
    (posted_picture_checks_ s) v (deleted_ s).
Definition set_deleted_ (v : bool) (s : State) : State :=
  mkState (dcheck_is_on s) (env_results s) (engine s) (trace s) (headers s) (next_header s)
    (pre_sandbox_init_done_ s) (component_handle_ s) (client_ptr_factory_ s) (client_ s)
    (init_begun_ s) (client_state_ s) (current_state_change_ s) (input_buffer_count_ s)
    (input_buffer_size_ s) (input_port_ s) (input_buffers_at_component_ s) (output_port_ s)
    (output_buffers_at_component_ s) (free_input_buffers_ s) (queued_bitstream_buffers_ s)
    (queued_picture_buffer_ids_ s) (pictures_ s) (fake_output_buffers_ s) (codec_ s)
    (h264_profile_ s) (last_requested_picture_buffer_dimensions_ s) (egl_display_ s)
    (posted_picture_checks_ s) (busy_loop_posted_ s) v.

(** The state right after the member initialisers of the constructor. *)
Definition initial_state (dcheck : bool) (answers : list bool) (eng : EngineReplies)
    (egl_display : Z) (pre_sandbox_init_done : bool) : State :=
  {| dcheck_is_on := dcheck;
     env_results := answers;
     engine := eng;
     trace := [];
     headers := ∅;
     next_header := 1%nat;
     pre_sandbox_init_done_ := pre_sandbox_init_done;
     component_handle_ := false;
     client_ptr_factory_ := false;
     client_ := false;
     init_begun_ := false;
     client_state_ := OMX_StateMax;
     current_state_change_ := NO_TRANSITION;
     input_buffer_count_ := 0;
     input_buffer_size_ := 0;
     input_port_ := 0;
     input_buffers_at_component_ := 0;
     output_port_ := 0;
     output_buffers_at_component_ := 0;
     free_input_buffers_ := [];
     queued_bitstream_buffers_ := [];
     queued_picture_buffer_ids_ := [];
     pictures_ := [];
     fake_output_buffers_ := [];
     codec_ := UNKNOWN;
     h264_profile_ := OMX_VIDEO_AVCProfileMax;
     last_requested_picture_buffer_dimensions_ := (0, 0);
     egl_display_ := egl_display;
     posted_picture_checks_ := [];
     busy_loop_posted_ := false;
     deleted_ := false |}.

(** ** The monad of member functions

    A member function either returns ([Ok], with its value and the new state)
    or the process stops inside it ([Crash], with the state at that point): a
    failed [DCHECK] or [CHECK], a null or dangling pointer dereferenced. *)

Inductive Res (A : Type) : Type :=
  | Ok (a : A) (s : State)
  | Crash (s : State).
Arguments Ok {A} a s.
Arguments Crash {A} s.

Definition M (A : Type) : Type := State -> Res A.

Definition ret {A} (a : A) : M A := fun s => Ok a s.

Definition bind {A B} (m : M A) (k : A -> M B) : M B :=
  fun s => match m s with
           | Ok a s' => k a s'
           | Crash s' => Crash s'
           end.

Notation "x <- m ;; k" := (bind m (fun x => k))
  (at level 100, m at next level, right associativity).
Notation "m ;; k" := (bind m (fun _ => k))
  (at level 100, right associativity).

Definition get : M State := fun s => Ok s s.
Definition modify (f : State -> State) : M unit := fun s => Ok tt (f s).
Definition crash {A} : M A := fun s => Crash s.

(** The state a computation ends in, whichever way it ends. *)
Definition final {A} (r : Res A) : State :=
  match r with Ok _ s => s | Crash s => s end.

Definition when (c : bool) (m : M unit) : M unit := if c then m else ret tt.

Definition emit (e : Event) : M unit :=
  modify (fun s => set_trace (trace s ++ [e]) s).

(** The next answer of the platform: [true] for success. *)
Definition ask : M bool :=
  fun s => match env_results s with
           | [] => Ok true s
           | r :: rest => Ok r (set_env_results rest s)
           end.

(** An OpenMAX call; [true] stands for [OMX_ErrorNone]. *)
Definition omx (c : OmxCall) : M bool := emit (EvOmx c) ;; ask.

Definition sys (c : SysCall) : M bool := emit (EvSys c) ;; ask.

(** [DCHECK(c)]: nothing unless the checks are compiled in. *)
Definition DCHECK (c : bool) : M unit :=
  s <- get ;; if dcheck_is_on s && negb c then crash else ret tt.

Definition NOTREACHED : M unit := DCHECK false.

Definition CHECK (c : bool) : M unit := if c then ret tt else crash.

(** [client_->f(...)]: the weak pointer is dereferenced, which needs it valid. *)
Definition client_call (c : ClientCall) : M unit :=
  s <- get ;; if client_ s then emit (EvClient c) else crash.

(** [if (client_) client_->f(...)]. *)
Definition notify (c : ClientCall) : M unit :=
  s <- get ;; when (client_ s) (client_call c).

(** [client_ptr_factory_->InvalidateWeakPtrs()]; the factory is created by
    [Initialize] and null before. *)
Definition InvalidateWeakPtrs : M unit :=
  s <- get ;;
  if client_ptr_factory_ s then modify (set_client_ false) else crash.

(** [*buffer]: the header at an address. *)
Definition header_at (buffer : nat) : M OMX_BUFFERHEADERTYPE :=
  s <- get ;;
  match headers s !! buffer with
  | Some h => ret h
  | None => crash
  end.

Definition update_header (buffer : nat) (f : OMX_BUFFERHEADERTYPE -> OMX_BUFFERHEADERTYPE)
    : M unit :=
  h <- header_at buffer ;;
  modify (fun s => set_headers (<[buffer := f h]> (headers s)) s).

(** A loop over a list whose body may return from the enclosing function:
    [Some v] is [return v], [None] goes on. *)
Fixpoint for_each {A R} (l : list A) (body : A -> M (option R)) : M (option R) :=
  match l with
  | [] => ret None
  | x :: l' =>
      r <- body x ;;
      match r with
      | Some v => ret (Some v)
      | None => for_each l' body
      end
  end.

(** A loop that carries a local variable. *)
Fixpoint fold_each {A B} (l : list A) (body : B -> A -> M B) (b : B) : M B :=
  match l with
  | [] => ret b
  | x :: l' => b' <- body b x ;; fold_each l' body b'
  end.

(** [std::set<OMX_BUFFERHEADERTYPE*>]: kept in the order of the addresses. *)
Fixpoint set_insert (x : nat) (l : list nat) : list nat * bool :=
  match l with
  | [] => ([x], true)
  | y :: l' =>
      if (x <? y)%nat then (x :: y :: l', true)
      else if (x =? y)%nat then (l, false)
      else let '(r, b) := set_insert x l' in (y :: r, b)
  end.

Definition set_count (x : nat) (l : list nat) : bool := bool_decide (x ∈ l).

Definition set_erase (x : nat) (l : list nat) : list nat :=
  filter (fun y => y ≠ x) l.

(** [std::map<int32_t, OutputPicture>::find]. *)
Fixpoint pictures_find (id : Z) (m : list (Z * OutputPicture)) : option OutputPicture :=
  match m with
  | [] => None
  | (k, v) :: m' => if k =? id then Some v else pictures_find id m'
  end.

(** ** The member functions *)

Definition csc_is (c : CurrentStateChange) (s : State) : bool :=
  bool_decide (current_state_change_ s = c).

Definition cs_is (c : OMX_STATETYPE) (s : State) : bool :=
  bool_decide (client_state_ s = c).

(** [MapH264ProfileToOMXAVCProfile]. *)
Definition MapH264ProfileToOMXAVCProfile (profile : Z) : M Z :=
  if profile =? H264PROFILE_BASELINE then ret OMX_VIDEO_AVCProfileBaseline
  else if profile =? H264PROFILE_MAIN then ret OMX_VIDEO_AVCProfileMain
  else if profile =? H264PROFILE_EXTENDED then ret OMX_VIDEO_AVCProfileExtended
  else if profile =? H264PROFILE_HIGH then ret OMX_VIDEO_AVCProfileHigh
  else if profile =? H264PROFILE_HIGH10PROFILE then ret OMX_VIDEO_AVCProfileHigh10
  else if profile =? H264PROFILE_HIGH422PROFILE then ret OMX_VIDEO_AVCProfileHigh422
  else if profile =? H264PROFILE_HIGH444PREDICTIVEPROFILE then ret OMX_VIDEO_AVCProfileHigh444
  else if (profile =? H264PROFILE_SCALABLEBASELINE) || (profile =? H264PROFILE_SCALABLEHIGH)
          || (profile =? H264PROFILE_STEREOHIGH) || (profile =? H264PROFILE_MULTIVIEWHIGH)
       then ret OMX_VIDEO_AVCProfileHigh444
  else NOTREACHED ;; ret OMX_VIDEO_AVCProfileMax.

(** [kSupportedProfiles] and [GetSupportedProfiles]. *)
Definition kSupportedProfiles : list Z :=
  [H264PROFILE_BASELINE; H264PROFILE_MAIN; H264PROFILE_HIGH; VP8PROFILE_ANY].

Record SupportedProfile := mkSupportedProfile {
  sp_profile : Z;
  sp_min_resolution : Z * Z;
  sp_max_resolution : Z * Z;
  sp_encrypted_only : bool
}.

Definition GetSupportedProfiles : list SupportedProfile :=
  map (fun profile => mkSupportedProfile profile (16, 16) (1920, 1080) false)
      kSupportedProfiles.

(** *** BeginTransitionToState and StopOnError

    The two functions call each other: [BeginTransitionToState] reports a
    failed [OMX_SendCommand] through [StopOnError], which asks for the
    transition to [OMX_StateInvalid] again.  Each level of that recursion has
    used up one failing answer of the platform, so the answers left bound its
    depth; [StopOnError_rec] takes that bound as [fuel]. *)

Definition BeginTransitionToState_with (stop : Error -> M unit) (new_state : OMX_STATETYPE)
    : M unit :=
  s <- get ;;
  when (negb (bool_decide (new_state = OMX_StateInvalid)))
       (DCHECK (negb (csc_is NO_TRANSITION s))) ;;
  if csc_is ERRORING s then ret tt
  else
    result <- omx (OMX_SendCommand OMX_CommandStateSet (OMX_STATETYPE_code new_state)) ;;
    if result then ret tt else stop PLATFORM_FAILURE.

Definition StopOnError_body (begin_transition : OMX_STATETYPE -> M unit) (error : Error)
    : M unit :=
  s <- get ;;
  if csc_is ERRORING s then ret tt
  else
    when (client_ s && init_begun_ s) (client_call (NotifyError error)) ;;
    InvalidateWeakPtrs ;;
    s <- get ;;
    if cs_is OMX_StateInvalid s || cs_is OMX_StateMax s then ret tt
    else
      begin_transition OMX_StateInvalid ;;
      modify (set_current_state_change_ ERRORING).

Fixpoint StopOnError_rec (fuel : nat) (error : Error) : M unit :=
  match fuel with
  | O => crash
  | S fuel' =>
      StopOnError_body (BeginTransitionToState_with (StopOnError_rec fuel')) error
  end.

Definition StopOnError (error : Error) : M unit :=
  fun s => StopOnError_rec (S (length (env_results s))) error s.

Definition BeginTransitionToState (new_state : OMX_STATETYPE) : M unit :=
  BeginTransitionToState_with StopOnError new_state.

(** [RETURN_ON_FAILURE(result, log, error, ret_val)] followed by [rest]. *)
Definition RETURN_ON_FAILURE {A} (result : bool) (error : Error) (ret_val : A) (rest : M A)
    : M A :=
  if result then rest else StopOnError error ;; ret ret_val.

(** [RETURN_ON_OMX_FAILURE]: the result is compared with [OMX_ErrorNone]. *)
Definition RETURN_ON_OMX_FAILURE {A} (omx_result : bool) (error : Error) (ret_val : A)
    (rest : M A) : M A :=
  RETURN_ON_FAILURE omx_result error ret_val rest.

(** *** Construction *)

Definition PostSandboxInitialization : M bool :=
  s <- get ;;
  if negb (pre_sandbox_init_done_ s) then ret false else sys InitializeStubs.

Definition Constructor : M unit :=
  omx_functions_initialized <- PostSandboxInitialization ;;
  RETURN_ON_FAILURE omx_functions_initialized PLATFORM_FAILURE tt (
    result <- omx OMX_Init ;;
    RETURN_ON_OMX_FAILURE result PLATFORM_FAILURE tt (ret tt)).

(** [~OmxVideoDecodeAccelerator], run by [delete this]. *)
Definition Destructor : M unit :=
  s <- get ;;
  DCHECK (bool_decide (free_input_buffers_ s = [])) ;;
  DCHECK (input_buffers_at_component_ s =? 0) ;;
  DCHECK (output_buffers_at_component_ s =? 0) ;;
  DCHECK (bool_decide (length (pictures_ s) = 0%nat)) ;;
  modify (set_deleted_ true).

(** *** Small helpers of the class *)

Definition CanFillBuffer : M bool :=
  s <- get ;;
  ret (negb (csc_is DESTROYING s) && negb (csc_is ERRORING s) && negb (csc_is RESETTING s)
       && (cs_is OMX_StateIdle s || cs_is OMX_StateExecuting s || cs_is OMX_StatePause s)).

Definition SendCommandToPort (cmd : OMX_COMMANDTYPE) (port_index : Z) : M bool :=
  result <- omx (OMX_SendCommand cmd port_index) ;;
  RETURN_ON_OMX_FAILURE result PLATFORM_FAILURE false (ret true).

Definition ShutdownComponent : M unit :=
  omx OMX_FreeHandle ;;
  modify (set_client_state_ OMX_StateMax) ;;
  omx OMX_Deinit ;;
  modify (set_component_handle_ false).

(** [OMX_UseBuffer] and [OMX_AllocateBuffer] hand out a new header. *)
Definition new_header (call : nat -> OmxCall) : M (option nat) :=
  s <- get ;;
  let buffer := next_header s in
  result <- omx (call buffer) ;;
  if result then
    modify (fun s => set_next_header (S buffer)
                       (set_headers (<[buffer := fresh_header]> (headers s)) s)) ;;
    ret (Some buffer)
  else ret None.

(** [OMX_FreeBuffer]: the header is gone when the call succeeds. *)
Definition free_header (port : Z) (buffer : nat) : M bool :=
  result <- omx (OMX_FreeBuffer port buffer) ;;
  when result (modify (fun s => set_headers (delete buffer (headers s)) s)) ;;
  ret result.

(** *** Initialize *)

Definition CreateComponent : M bool :=
  s <- get ;;
  let role_name : string :=
    if bool_decide (codec_ s = H264) then "video_decoder.avc" else "video_decoder.vpx" in
  result <- omx (OMX_GetComponentsOfRole role_name) ;;
  RETURN_ON_OMX_FAILURE result PLATFORM_FAILURE false (
  RETURN_ON_FAILURE (num_components (engine s) =? 1) PLATFORM_FAILURE false (
  result <- omx OMX_GetHandle ;;
  when result (modify (set_component_handle_ true)) ;;
  RETURN_ON_OMX_FAILURE result PLATFORM_FAILURE false (
  modify (set_client_state_ OMX_StateLoaded) ;;
  result <- omx (OMX_GetParameter "OMX_IndexParamVideoInit" 0) ;;
  RETURN_ON_FAILURE (result && (nPorts (engine s) =? 2)) PLATFORM_FAILURE false (
  modify (set_input_port_ (nStartPortNumber (engine s))) ;;
  modify (set_output_port_ (to_unsigned 32 (nStartPortNumber (engine s) + 1))) ;;
  result <- omx (OMX_SetParameter "OMX_IndexParamStandardComponentRole" 0) ;;
  RETURN_ON_OMX_FAILURE result PLATFORM_FAILURE false (
  result <- omx (OMX_GetParameter "OMX_IndexParamPortDefinition"
                   (nStartPortNumber (engine s))) ;;
  RETURN_ON_OMX_FAILURE result PLATFORM_FAILURE false (
  RETURN_ON_FAILURE (bool_decide (OMX_DirInput = input_eDir (engine s)))
    PLATFORM_FAILURE false (
  modify (set_input_buffer_count_ (to_signed 32 (input_nBufferCountActual (engine s)))) ;;
  modify (set_input_buffer_size_ (to_signed 32 (input_nBufferSize (engine s)))) ;;
  s1 <- get ;;
  result <- omx (OMX_GetParameter "OMX_IndexParamPortDefinition" (output_port_ s1)) ;;
  RETURN_ON_OMX_FAILURE result PLATFORM_FAILURE false (
  RETURN_ON_FAILURE (bool_decide (OMX_DirOutput = output_eDir (engine s)))
    PLATFORM_FAILURE false (
  result <- omx (OMX_SetParameter "OMX_IndexParamPortDefinition" (output_port_ s1)) ;;
  RETURN_ON_OMX_FAILURE result PLATFORM_FAILURE false (
  ret true)))))))))).

Definition AllocateInputBuffers : M bool :=
  s <- get ;;
  r <- for_each (seq 0 (Z.to_nat (input_buffer_count_ s))) (fun _ =>
         buffer <- new_header (OMX_UseBuffer (input_port_ s)) ;;
         match buffer with
         | None => StopOnError PLATFORM_FAILURE ;; ret (Some false)
         | Some buffer =>
             update_header buffer (fun h =>
               hdr_set_nFlags 0 (hdr_set_nOffset 0
                 (hdr_set_nInputPortIndex (input_port_ s) h))) ;;
             modify (fun s => set_free_input_buffers_ (free_input_buffers_ s ++ [buffer]) s) ;;
             ret None
         end) ;;
  match r with
  | Some v => ret v
  | None => ret true
  end.

Definition AllocateFakeOutputBuffers : M bool :=
  s <- get ;;
  r <- for_each (seq 0 (Z.to_nat kNumPictureBuffers)) (fun _ =>
         buffer <- new_header (OMX_AllocateBuffer (output_port_ s)) ;;
         match buffer with
         | None => StopOnError PLATFORM_FAILURE ;; ret (Some false)
         | Some buffer =>
             update_header buffer (fun h =>
               hdr_set_nOutputPortIndex (output_port_ s)
                 (hdr_set_nTimeStamp (-1) (hdr_set_pAppPrivate AppNull h))) ;;
             s' <- get ;;
             let '(set', inserted) := set_insert buffer (fake_output_buffers_ s') in
             CHECK inserted ;;
             modify (set_fake_output_buffers_ set') ;;
             ret None
         end) ;;
  match r with
  | Some v => ret v
  | None => ret true
  end.

(** The if/else chain on the profile that opens [Initialize]; [false] means
    that [Initialize] has returned [false] from inside it. *)
Definition Initialize_profile (profile : Z) : M bool :=
  if (H264PROFILE_MIN <=? profile) && (profile <=? H264PROFILE_MAX) then
    modify (set_codec_ H264) ;;
    h264_profile <- MapH264ProfileToOMXAVCProfile profile ;;
    modify (set_h264_profile_ h264_profile) ;;
    RETURN_ON_FAILURE (negb (h264_profile =? OMX_VIDEO_AVCProfileMax))
      INVALID_ARGUMENT false (ret true)
  else if (VP8PROFILE_MIN <=? profile) && (profile <=? VP8PROFILE_MAX) then
    modify (set_codec_ VP8) ;; ret true
  else
    RETURN_ON_FAILURE false INVALID_ARGUMENT false (ret true).

(** What [Initialize] does once it holds the weak pointer to the client. *)
Definition Initialize_component : M bool :=
  created <- CreateComponent ;;
  if negb created then ret false
  else
    s <- get ;;
    DCHECK (csc_is NO_TRANSITION s) ;;
    modify (set_current_state_change_ INITIALIZING) ;;
    BeginTransitionToState OMX_StateIdle ;;
    allocated <- AllocateInputBuffers ;;
    if negb allocated then ret false
    else
      allocated <- AllocateFakeOutputBuffers ;;
      if negb allocated then ret false
      else modify (set_init_begun_ true) ;; ret true.

(** What [Initialize] does once the profile is accepted.  [client] tells
    whether the client pointer is non-null. *)
Definition Initialize_rest (client : bool) : M bool :=
  context_ok <- sys MakeContextCurrent ;;
  RETURN_ON_FAILURE context_ok PLATFORM_FAILURE false (
    modify (set_client_ptr_factory_ true) ;;
    modify (set_client_ client) ;;
    Initialize_component).

Definition Initialize (profile : Z) (client : bool) : M bool :=
  accepted <- Initialize_profile profile ;;
  if accepted then Initialize_rest client else ret false.

(** *** Decode *)

Definition Decode (bitstream_buffer : BitstreamBuffer) : M unit :=
  s <- get ;;
  if csc_is RESETTING s || csc_is INITIALIZING s
     || negb (bool_decide (queued_bitstream_buffers_ s = []))
     || bool_decide (free_input_buffers_ s = [])
  then
    modify (set_queued_bitstream_buffers_ (queued_bitstream_buffers_ s ++ [bitstream_buffer]))
  else
    RETURN_ON_FAILURE
      ((csc_is NO_TRANSITION s || csc_is FLUSHING s)
       && (cs_is OMX_StateIdle s || cs_is OMX_StateExecuting s))
      ILLEGAL_STATE tt (
    match free_input_buffers_ s with
    | [] => crash
    | omx_buffer :: rest =>
        modify (set_free_input_buffers_ rest) ;;
        if (bb_id bitstream_buffer =? -1) && (bb_size bitstream_buffer =? 0) then
          update_header omx_buffer (fun h =>
            hdr_set_nTimeStamp (-2) (hdr_set_nFlags (set_EOS (nFlags h))
              (hdr_set_nAllocLen 0 (hdr_set_nFilledLen 0 h)))) ;;
          h <- header_at omx_buffer ;;
          result <- omx (OMX_EmptyThisBuffer omx_buffer h) ;;
          RETURN_ON_OMX_FAILURE result PLATFORM_FAILURE tt (
            modify (fun s => set_input_buffers_at_component_
                               (input_buffers_at_component_ s + 1) s))
        else
          mapped <- sys (SharedMemoryMap (bb_handle bitstream_buffer)
                           (bb_size bitstream_buffer)) ;;
          RETURN_ON_FAILURE mapped UNREADABLE_INPUT tt (
            h <- header_at omx_buffer ;;
            DCHECK (bool_decide (pAppPrivate h = AppNull)) ;;
            let filled := to_unsigned 32 (bb_size bitstream_buffer) in
            update_header omx_buffer (fun h =>
              hdr_set_nTimeStamp (bb_id bitstream_buffer)
                (hdr_set_nFlags (clear_EOS (nFlags h))
                  (hdr_set_nAllocLen filled (hdr_set_nFilledLen filled
                    (hdr_set_pBuffer (bb_handle bitstream_buffer)
                      (hdr_set_pAppPrivate
                        (AppInput (bb_handle bitstream_buffer, bb_id bitstream_buffer))
                        h)))))) ;;
            h <- header_at omx_buffer ;;
            result <- omx (OMX_EmptyThisBuffer omx_buffer h) ;;
            RETURN_ON_OMX_FAILURE result PLATFORM_FAILURE tt (
              modify (fun s => set_input_buffers_at_component_
                                 (input_buffers_at_component_ s + 1) s)))
    end).

(** The end-of-stream sentinel [BitstreamBuffer(-1, SharedMemoryHandle(), 0)]. *)
Definition EOS_sentinel : BitstreamBuffer := mkBitstreamBuffer (-1) 0 0.

Definition Flush : M unit :=
  s <- get ;;
  DCHECK (csc_is NO_TRANSITION s) ;;
  DCHECK (cs_is OMX_StateExecuting s) ;;
  modify (set_current_state_change_ FLUSHING) ;;
  Decode EOS_sentinel.

Definition OnReachedEOSInFlushing : M unit :=
  s <- get ;;
  DCHECK (cs_is OMX_StateExecuting s) ;;
  modify (set_current_state_change_ NO_TRANSITION) ;;
  notify NotifyFlushDone.

Definition DecodeQueuedBitstreamBuffers : M unit :=
  s <- get ;;
  let buffers := queued_bitstream_buffers_ s in
  modify (set_queued_bitstream_buffers_ []) ;;
  if csc_is DESTROYING s || csc_is ERRORING s then ret tt
  else fold_each buffers (fun _ b => Decode b) tt.

(** *** Picture buffers *)

(** [AllocateOutputBuffers]: one header for every entry of [pictures_], each
    given a [media::Picture] with a garbage bitstream buffer id. *)
Definition AllocateOutputBuffers : M bool :=
  s <- get ;;
  DCHECK (negb (bool_decide (length (pictures_ s) = 0%nat))) ;;
  r <- for_each (seq 0 (length (pictures_ s))) (fun i =>
         s <- get ;;
         match pictures_ s !! i with
         | None => crash
         | Some (id, output_picture) =>
             DCHECK (bool_decide (omx_buffer_header output_picture = None)) ;;
             buffer <- new_header (OMX_UseBuffer (output_port_ s)) ;;
             match buffer with
             | None => StopOnError PLATFORM_FAILURE ;; ret (Some false)
             | Some buffer =>
                 modify (fun s => set_pictures_
                   (<[i := (id, mkOutputPicture (picture_buffer output_picture) (Some buffer))]>
                      (pictures_ s)) s) ;;
                 let garbage_bitstream_buffer_id := -1 in
                 update_header buffer (hdr_set_pAppPrivate
                   (AppPicture (mkPicture (pb_id (picture_buffer output_picture))
                                  garbage_bitstream_buffer_id))) ;;
                 ret None
             end
         end) ;;
  match r with
  | Some v => ret v
  | None => ret true
  end.

(** [AssignPictureBuffers].  The loop that would fill [pictures_] has an
    empty body in this source: its statements are commented out. *)
Definition AssignPictureBuffers (buffers : list PictureBuffer) : M unit :=
  s <- get ;;
  if csc_is RESETTING s || csc_is DESTROYING s || csc_is ERRORING s then ret tt
  else
    can_fill <- CanFillBuffer ;;
    RETURN_ON_FAILURE can_fill ILLEGAL_STATE tt (
    RETURN_ON_FAILURE (kNumPictureBuffers =? Z.of_nat (length buffers)) INVALID_ARGUMENT tt (
      DCHECK (output_buffers_at_component_ s =? 0) ;;
      DCHECK (bool_decide (length (fake_output_buffers_ s) = 0%nat)) ;;
      DCHECK (bool_decide (length (pictures_ s) = 0%nat)) ;;
      context_ok <- sys MakeContextCurrent ;;
      if negb context_ok then ret tt
      else
        allocated <- AllocateOutputBuffers ;;
        if negb allocated then ret tt
        else
          SendCommandToPort OMX_CommandPortEnable (output_port_ s) ;;
          ret tt)).

Definition QueuePictureBuffer (picture_buffer_id : Z) : M unit :=
  s <- get ;;
  if csc_is RESETTING s then
    modify (set_queued_picture_buffer_ids_ (queued_picture_buffer_ids_ s ++ [picture_buffer_id]))
  else
    can_fill <- CanFillBuffer ;;
    if negb can_fill then ret tt
    else
      match pictures_find picture_buffer_id (pictures_ s) with
      | None => StopOnError INVALID_ARGUMENT
      | Some output_picture =>
          modify (fun s => set_output_buffers_at_component_
                             (output_buffers_at_component_ s + 1) s) ;;
          match omx_buffer_header output_picture with
          | None => crash
          | Some buffer =>
              result <- omx (OMX_FillThisBuffer buffer) ;;
              RETURN_ON_OMX_FAILURE result PLATFORM_FAILURE tt (ret tt)
          end
      end.

(** [PictureSyncObject::IsSynced]. *)
Definition IsSynced : M bool :=
  got <- sys eglGetSyncAttribKHR ;;
  signaled <- (if got then ask else ret false) ;;
  DCHECK got ;;
  ret signaled.

(** [CheckPictureStatus]; the sync object dies with the call unless it is
    passed on to the task posted for the next poll. *)
Definition CheckPictureStatus (picture_buffer_id : Z) : M unit :=
  synced <- IsSynced ;;
  if negb synced then
    emit (EvSys (PostDelayedCheckPictureStatus picture_buffer_id kSyncPollDelayMs)) ;;
    modify (fun s => set_posted_picture_checks_
                       (posted_picture_checks_ s ++ [picture_buffer_id]) s)
  else
    QueuePictureBuffer picture_buffer_id ;;
    emit (EvSys eglDestroySyncKHR).

Definition EGL_NO_DISPLAY : Z := 0.

Definition ReusePictureBuffer (picture_buffer_id : Z) : M unit :=
  s <- get ;;
  DCHECK (negb (egl_display_ s =? EGL_NO_DISPLAY)) ;;
  created <- sys eglCreateSyncKHR ;;
  DCHECK created ;;
  CheckPictureStatus picture_buffer_id.

(** *** Reset *)

Definition FlushIOPorts : M unit :=
  s <- get ;; SendCommandToPort OMX_CommandFlush (input_port_ s) ;; ret tt.

Definition InputPortFlushDone : M unit :=
  s <- get ;;
  DCHECK (input_buffers_at_component_ s =? 0) ;;
  SendCommandToPort OMX_CommandFlush (output_port_ s) ;; ret tt.

Definition OutputPortFlushDone : M unit :=
  s <- get ;;
  DCHECK (output_buffers_at_component_ s =? 0) ;;
  BeginTransitionToState OMX_StateExecuting.

Definition Reset : M unit :=
  s <- get ;;
  DCHECK (csc_is NO_TRANSITION s) ;;
  DCHECK (cs_is OMX_StateExecuting s) ;;
  modify (set_current_state_change_ RESETTING) ;;
  BeginTransitionToState OMX_StatePause.

(** *** Freeing the buffers *)

Definition FreeOMXBuffers : M unit :=
  s <- get ;;
  failure_seen <- fold_each (free_input_buffers_ s) (fun failure_seen omx_buffer =>
      modify (fun s => set_free_input_buffers_ (tail (free_input_buffers_ s)) s) ;;
      freed <- free_header (input_port_ s) omx_buffer ;;
      ret (failure_seen || negb freed)) false ;;
  s <- get ;;
  failure_seen <- fold_each (pictures_ s) (fun failure_seen '(id, output_picture) =>
      match omx_buffer_header output_picture with
      | None => DCHECK false ;; crash
      | Some omx_buffer =>
          update_header omx_buffer (hdr_set_pAppPrivate AppNull) ;;
          freed <- free_header (output_port_ s) omx_buffer ;;
          notify (DismissPictureBuffer id) ;;
          ret (failure_seen || negb freed)
      end) failure_seen ;;
  modify (set_pictures_ []) ;;
  s <- get ;;
  failure_seen <- fold_each (fake_output_buffers_ s) (fun failure_seen buffer =>
      freed <- free_header (output_port_ s) buffer ;;
      ret (failure_seen || negb freed)) failure_seen ;;
  modify (set_fake_output_buffers_ []) ;;
  s <- get ;;
  when (client_ s)
    (fold_each (queued_picture_buffer_ids_ s) (fun _ id =>
       client_call (DismissPictureBuffer id)) tt) ;;
  modify (set_queued_picture_buffer_ids_ []) ;;
  RETURN_ON_FAILURE (negb failure_seen) PLATFORM_FAILURE tt (ret tt).

(** *** Destroy *)

(** [BusyLoopInDestroying(self)]: [self] owns the adapter, so returning
    without posting the task again deletes it. *)
Definition BusyLoopInDestroying : M unit :=
  s <- get ;;
  if negb (component_handle_ s) then Destructor
  else
    emit (EvSys (Sleep 5)) ;;
    emit (EvSys PostBusyLoopInDestroying) ;;
    modify (set_busy_loop_posted_ true).

(** [Destroy]: [deleter] owns the adapter and deletes it on every return
    that comes before it is moved into [BusyLoopInDestroying]. *)
Definition Destroy : M unit :=
  InvalidateWeakPtrs ;;
  s <- get ;;
  if csc_is ERRORING s || csc_is DESTROYING s then Destructor
  else
    DCHECK (csc_is NO_TRANSITION s || csc_is FLUSHING s || csc_is RESETTING s) ;;
    if cs_is OMX_StateMax s then Destructor
    else if cs_is OMX_StateInvalid s || cs_is OMX_StateLoaded s then
      ShutdownComponent ;; Destructor
    else
      DCHECK (cs_is OMX_StateExecuting s || cs_is OMX_StateIdle s || cs_is OMX_StatePause s) ;;
      modify (set_current_state_change_ DESTROYING) ;;
      BeginTransitionToState OMX_StateIdle ;;
      BusyLoopInDestroying.

(** *** Reached states *)

Definition OnReachedIdleInInitializing : M unit :=
  s <- get ;;
  DCHECK (cs_is OMX_StateLoaded s) ;;
  modify (set_client_state_ OMX_StateIdle) ;;
  BeginTransitionToState OMX_StateExecuting.

Definition OnReachedExecutingInInitializing : M unit :=
  s <- get ;;
  DCHECK (cs_is OMX_StateIdle s) ;;
  modify (set_client_state_ OMX_StateExecuting) ;;
  modify (set_current_state_change_ NO_TRANSITION) ;;
  r <- for_each (fake_output_buffers_ s) (fun buffer =>
         result <- omx (OMX_FillThisBuffer buffer) ;;
         if result then
           modify (fun s => set_output_buffers_at_component_
                              (output_buffers_at_component_ s + 1) s) ;;
           ret None
         else StopOnError PLATFORM_FAILURE ;; ret (Some tt)) ;;
  match r with
  | Some _ => ret tt
  | None => notify (NotifyInitializationComplete true)
  end.

Definition OnReachedPauseInResetting : M unit :=
  s <- get ;;
  DCHECK (cs_is OMX_StateExecuting s) ;;
  modify (set_client_state_ OMX_StatePause) ;;
  FlushIOPorts.

(** The loop [for (i = 0; i < queued_picture_buffer_ids_.size(); ++i)] of
    [OnReachedExecutingInResetting]: the vector is read again at every turn.
    [turns] bounds the number of turns; it is the size at the start, which
    is enough as the loop runs outside RESETTING and so never grows the
    vector (see [reuse_queued_from_snapshot]). *)
Fixpoint reuse_queued_from (turns : nat) (i : nat) : M unit :=
  s <- get ;;
  match queued_picture_buffer_ids_ s !! i with
  | None => ret tt
  | Some id =>
      match turns with
      | O => crash
      | S turns' => ReusePictureBuffer id ;; reuse_queued_from turns' (S i)
      end
  end.

Definition OnReachedExecutingInResetting : M unit :=
  s <- get ;;
  DCHECK (cs_is OMX_StatePause s) ;;
  modify (set_client_state_ OMX_StateExecuting) ;;
  modify (set_current_state_change_ NO_TRANSITION) ;;
  if negb (client_ s) then ret tt
  else
    DecodeQueuedBitstreamBuffers ;;
    s <- get ;;
    reuse_queued_from (length (queued_picture_buffer_ids_ s)) 0 ;;
    modify (set_queued_picture_buffer_ids_ []) ;;
    client_call NotifyResetDone.

Definition OnReachedIdleInDestroying : M unit :=
  s <- get ;;
  DCHECK (cs_is OMX_StateExecuting s || cs_is OMX_StateIdle s || cs_is OMX_StatePause s) ;;
  modify (set_client_state_ OMX_StateIdle) ;;
  BeginTransitionToState OMX_StateLoaded ;;
  FreeOMXBuffers.

Definition OnReachedLoadedInDestroying : M unit :=
  s <- get ;;
  DCHECK (cs_is OMX_StateIdle s) ;;
  modify (set_client_state_ OMX_StateLoaded) ;;
  modify (set_current_state_change_ NO_TRANSITION) ;;
  ShutdownComponent.

Definition OnReachedInvalidInErroring : M unit :=
  modify (set_client_state_ OMX_StateInvalid) ;;
  FreeOMXBuffers ;;
  ShutdownComponent.

(** *** Output port settings *)

Definition OnOutputPortDisabled : M unit :=
  s <- get ;;
  result <- omx (OMX_GetParameter "OMX_IndexParamPortDefinition" (output_port_ s)) ;;
  RETURN_ON_OMX_FAILURE result PLATFORM_FAILURE tt (
    DCHECK (output_nBufferCountMin (engine s) <=? kNumPictureBuffers) ;;
    let width := Z.max 0 (to_signed 32 (output_nFrameWidth (engine s))) in
    let height := Z.max 0 (to_signed 32 (output_nFrameHeight (engine s))) in
    modify (set_last_requested_picture_buffer_dimensions_ (width, height)) ;;
    notify (ProvidePictureBuffers kNumPictureBuffers 1 width height)).

Definition OnOutputPortEnabled : M unit :=
  s <- get ;;
  if csc_is RESETTING s then
    modify (set_queued_picture_buffer_ids_
              (queued_picture_buffer_ids_ s ++ map fst (pictures_ s)))
  else
    can_fill <- CanFillBuffer ;;
    if negb can_fill then StopOnError ILLEGAL_STATE
    else
      for_each (pictures_ s) (fun '(_, output_picture) =>
        match omx_buffer_header output_picture with
        | None => DCHECK false ;; crash
        | Some omx_buffer =>
            update_header omx_buffer (fun h =>
              hdr_set_nOutputPortIndex (output_port_ s)
                (hdr_set_nFlags (clear_EOS (nFlags h)) h)) ;;
            modify (fun s => set_output_buffers_at_component_
                               (output_buffers_at_component_ s + 1) s) ;;
            result <- omx (OMX_FillThisBuffer omx_buffer) ;;
            if result then ret None
            else StopOnError PLATFORM_FAILURE ;; ret (Some tt)
        end) ;;
      ret tt.

(** *** Buffers coming back from the component *)

(** [FillBufferDoneTask], once it has read the header [h] at [buffer]. *)
Definition FillBufferDoneTask_on (buffer : nat) (h : OMX_BUFFERHEADERTYPE) : M unit :=
  picture <- match pAppPrivate h with
             | AppNull => ret None
             | AppPicture p => ret (Some p)
             | AppInput _ => crash
             end ;;
  let picture_buffer_id :=
    match picture with Some p => picture_buffer_id p | None => -1 end in
  s <- get ;;
  DCHECK (0 <? output_buffers_at_component_ s) ;;
  modify (set_output_buffers_at_component_ (output_buffers_at_component_ s - 1)) ;;
  if csc_is DESTROYING s || csc_is ERRORING s then ret tt
  else if negb (bool_decide (length (fake_output_buffers_ s) = 0%nat))
          && set_count buffer (fake_output_buffers_ s) then
    modify (set_fake_output_buffers_ (set_erase buffer (fake_output_buffers_ s))) ;;
    freed <- free_header (output_port_ s) buffer ;;
    RETURN_ON_OMX_FAILURE freed PLATFORM_FAILURE tt (ret tt)
  else
    DCHECK (bool_decide (length (fake_output_buffers_ s) = 0%nat)) ;;
    if has_EOS (nFlags h) then
      update_header buffer (fun h => hdr_set_nFlags (clear_EOS (nFlags h)) h) ;;
      OnReachedEOSInFlushing ;;
      ReusePictureBuffer picture_buffer_id
    else if csc_is RESETTING s then
      modify (set_queued_picture_buffer_ids_
                (queued_picture_buffer_ids_ s ++ [picture_buffer_id]))
    else
      DCHECK (bool_decide (is_Some picture)) ;;
      match picture with
      | None => crash
      | Some p =>
          let p' := set_bitstream_buffer_id (nTimeStamp h) p in
          update_header buffer (hdr_set_pAppPrivate (AppPicture p')) ;;
          notify (PictureReady p')
      end.

Definition FillBufferDoneTask (buffer : nat) : M unit :=
  h <- header_at buffer ;; FillBufferDoneTask_on buffer h.

Definition EmptyBufferDoneTask (buffer : nat) : M unit :=
  s <- get ;;
  DCHECK (0 <? input_buffers_at_component_ s) ;;
  modify (set_free_input_buffers_ (free_input_buffers_ s ++ [buffer])) ;;
  modify (set_input_buffers_at_component_ (input_buffers_at_component_ s - 1)) ;;
  h <- header_at buffer ;;
  if has_EOS (nFlags h) then ret tt
  else
    input_buffer_details <- match pAppPrivate h with
                            | AppNull => ret None
                            | AppInput d => ret (Some d)
                            | AppPicture _ => crash
                            end ;;
    DCHECK (bool_decide (is_Some input_buffer_details)) ;;
    update_header buffer (hdr_set_pAppPrivate AppNull) ;;
    when (client_ s)
      match input_buffer_details with
      | None => crash
      | Some d => client_call (NotifyEndOfBitstreamBuffer (snd d))
      end ;;
    DecodeQueuedBitstreamBuffers.

(** *** Events of the component *)

Definition DispatchStateReached (reached : OMX_STATETYPE) : M unit :=
  s <- get ;;
  match current_state_change_ s with
  | INITIALIZING =>
      match reached with
      | OMX_StateIdle => OnReachedIdleInInitializing
      | OMX_StateExecuting => OnReachedExecutingInInitializing
      | _ => NOTREACHED
      end
  | RESETTING =>
      match reached with
      | OMX_StatePause => OnReachedPauseInResetting
      | OMX_StateExecuting => OnReachedExecutingInResetting
      | _ => NOTREACHED
      end
  | DESTROYING =>
      match reached with
      | OMX_StatePause | OMX_StateExecuting => ret tt
      | OMX_StateIdle => OnReachedIdleInDestroying
      | OMX_StateLoaded => OnReachedLoadedInDestroying
      | _ => NOTREACHED
      end
  | ERRORING =>
      match reached with
      | OMX_StateInvalid => OnReachedInvalidInErroring
      | _ => NOTREACHED
      end
  | _ => NOTREACHED
  end.

Definition EventHandlerCompleteTask (event : OMX_EVENTTYPE) (data1 data2 : Z) : M unit :=
  s <- get ;;
  match event with
  | OMX_EventCmdComplete =>
      if data1 =? OMX_COMMANDTYPE_code OMX_CommandPortDisable then
        DCHECK (data2 =? output_port_ s) ;; OnOutputPortDisabled
      else if data1 =? OMX_COMMANDTYPE_code OMX_CommandPortEnable then
        DCHECK (data2 =? output_port_ s) ;; OnOutputPortEnabled
      else if data1 =? OMX_COMMANDTYPE_code OMX_CommandStateSet then
        DispatchStateReached (OMX_STATETYPE_of_Z data2)
      else if data1 =? OMX_COMMANDTYPE_code OMX_CommandFlush then
        if csc_is DESTROYING s || csc_is ERRORING s then ret tt
        else
          DCHECK (csc_is RESETTING s) ;;
          if data2 =? input_port_ s then InputPortFlushDone
          else if data2 =? output_port_ s then OutputPortFlushDone
          else NOTREACHED
      else RETURN_ON_FAILURE false PLATFORM_FAILURE tt (ret tt)
  | OMX_EventError =>
      if negb (csc_is DESTROYING s) && negb (csc_is ERRORING s) then
        RETURN_ON_FAILURE false PLATFORM_FAILURE tt (ret tt)
      else ret tt
  | OMX_EventPortSettingsChanged =>
      if (data1 =? output_port_ s) && (data2 =? OMX_IndexParamPortDefinition) then
        SendCommandToPort OMX_CommandPortDisable (output_port_ s) ;; ret tt
      else if (data1 =? output_port_ s) && (data2 =? OMX_IndexConfigCommonOutputCrop) then
        ret tt
      else if (data1 =? output_port_ s) && (data2 =? OMX_IndexConfigCommonScale) then
        ret tt
      else RETURN_ON_FAILURE false PLATFORM_FAILURE tt (ret tt)
  | OMX_EventBufferFlag =>
      if data1 =? output_port_ s then
        if csc_is DESTROYING s then ret tt
        else DCHECK (csc_is FLUSHING s)
      else RETURN_ON_FAILURE false PLATFORM_FAILURE tt (ret tt)
  | _ => RETURN_ON_FAILURE false PLATFORM_FAILURE tt (ret tt)
  end.

(** ** Runs of the adapter

    After construction the adapter is driven by the calls of the client and
    by the tasks that reach the client thread: the three callbacks of the
    component, which post their task with the adapter's weak pointer, the
    polls of [CheckPictureStatus] and the busy loop of [Destroy].  The
    component writes the flags and the time stamp of an output header before
    it gives the header back. *)

Inductive Op :=
  | CallDecode (bitstream_buffer : BitstreamBuffer)
  | CallAssignPictureBuffers (buffers : list PictureBuffer)
  | CallReusePictureBuffer (picture_buffer_id : Z)
  | CallFlush
  | CallReset
  | CallDestroy
  | TaskEventHandlerComplete (event : OMX_EVENTTYPE) (data1 data2 : Z)
  | TaskFillBufferDone (buffer : nat) (flags : Z) (time_stamp : Z)
  | TaskEmptyBufferDone (buffer : nat)
  | TaskCheckPictureStatus (n : nat)
  | TaskBusyLoopInDestroying.

Definition is_call (op : Op) : bool :=
  match op with
  | CallDecode _ | CallAssignPictureBuffers _ | CallReusePictureBuffer _
  | CallFlush | CallReset | CallDestroy => true
  | _ => false
  end.

(** The component's write into an output header it hands back. *)
Definition engine_fills (buffer : nat) (flags time_stamp : Z) : M unit :=
  modify (fun s =>
    match headers s !! buffer with
    | Some h =>
        set_headers (<[buffer := hdr_set_nTimeStamp time_stamp (hdr_set_nFlags flags h)]>
                       (headers s)) s
    | None => s
    end).

Definition run_op (op : Op) : M unit :=
  match op with
  | CallDecode b => Decode b
  | CallAssignPictureBuffers buffers => AssignPictureBuffers buffers
  | CallReusePictureBuffer id => ReusePictureBuffer id
  | CallFlush => Flush
  | CallReset => Reset
  | CallDestroy => Destroy
  | TaskEventHandlerComplete event data1 data2 => EventHandlerCompleteTask event data1 data2
  | TaskFillBufferDone buffer flags time_stamp =>
      engine_fills buffer flags time_stamp ;; FillBufferDoneTask buffer
  | TaskEmptyBufferDone buffer => EmptyBufferDoneTask buffer
  | TaskCheckPictureStatus n =>
      s <- get ;;
      match posted_picture_checks_ s !! n with
      | None => ret tt
      | Some id =>
          modify (set_posted_picture_checks_ (delete n (posted_picture_checks_ s))) ;;
          CheckPictureStatus id
      end
  | TaskBusyLoopInDestroying =>
      s <- get ;;
      if busy_loop_posted_ s then
        modify (set_busy_loop_posted_ false) ;; BusyLoopInDestroying
      else ret tt
  end.

(** One operation.  Once the adapter is deleted the tasks bound to its weak
    pointer do nothing, and a call of the client would use freed memory. *)
Definition step (op : Op) : M unit :=
  s <- get ;;
  if deleted_ s then
    (if is_call op then crash else ret tt)
  else run_op op.

Fixpoint run (ops : list Op) : M unit :=
  match ops with
  | [] => ret tt
  | op :: ops' => step op ;; run ops'
  end.

(** The states the adapter can be in: freshly constructed, after
    [Initialize] called first, and after any operation from there. *)
Inductive reachable : State -> Prop :=
  | reach_Constructor dcheck answers eng egl_display pre s :
      Constructor (initial_state dcheck answers eng egl_display pre) = Ok tt s ->
      reachable s
  | reach_Initialize dcheck answers eng egl_display pre profile client s0 b s :
      Constructor (initial_state dcheck answers eng egl_display pre) = Ok tt s0 ->
      Initialize profile client s0 = Ok b s ->
      reachable s
  | reach_step s op s' :
      reachable s ->
      step op s = Ok tt s' ->
      reachable s'.

(** ** Definitions for the statements *)

(** The number of failing answers at the head of the list. *)
Fixpoint failures (l : list bool) : nat :=
  match l with
  | false :: l' => S (failures l')
  | _ => O
  end.

(** The request [StopOnError] sends: the transition to [OMX_StateInvalid]. *)
Definition invalid_request : Event :=
  EvOmx (OMX_SendCommand OMX_CommandStateSet (OMX_STATETYPE_code OMX_StateInvalid)).

(** What [StopOnError] tells the client. *)
Definition stop_events (error : Error) (s : State) : list Event :=
  if client_ s && init_begun_ s then [EvClient (NotifyError error)] else [].

(** The outcome of [StopOnError], without recursion: the request is sent
    again for every failing answer, and once more. *)
Definition StopOnError_outcome (error : Error) (s : State) : Res unit :=
  if csc_is ERRORING s then Ok tt s
  else
    let s1 := set_trace (trace s ++ stop_events error s) s in
    if negb (client_ptr_factory_ s) then Crash s1
    else
      let s2 := set_client_ false s1 in
      if cs_is OMX_StateInvalid s || cs_is OMX_StateMax s then Ok tt s2
      else
        let n := S (failures (env_results s)) in
        Ok tt (set_current_state_change_ ERRORING
                 (set_env_results (drop n (env_results s))
                    (set_trace (trace s2 ++ replicate n invalid_request) s2))).

(** The member functions are unfolded by name in the proofs, not by [simpl]. *)
#[global] Arguments StopOnError : simpl never.
#[global] Arguments StopOnError_rec : simpl never.
#[global] Arguments BeginTransitionToState : simpl never.
#[global] Arguments Decode : simpl never.
#[global] Arguments DecodeQueuedBitstreamBuffers : simpl never.
#[global] Arguments ReusePictureBuffer : simpl never.
#[global] Arguments CheckPictureStatus : simpl never.
#[global] Arguments QueuePictureBuffer : simpl never.
#[global] Arguments FreeOMXBuffers : simpl never.
#[global] Arguments ShutdownComponent : simpl never.
#[global] Arguments SendCommandToPort : simpl never.
#[global] Arguments Destructor : simpl never.
#[global] Arguments to_signed : simpl never.
#[global] Arguments to_unsigned : simpl never.

(** The states in which [Decode] only queues the buffer. *)
Definition Decode_queues (s : State) : Prop :=
  current_state_change_ s = RESETTING \/ current_state_change_ s = INITIALIZING \/
  queued_bitstream_buffers_ s <> [] \/ free_input_buffers_ s = [].

(** The states in which [Decode] may hand a buffer to the component. *)
Definition Decode_legal (s : State) : Prop :=
  (current_state_change_ s = NO_TRANSITION \/ current_state_change_ s = FLUSHING) /\
  (client_state_ s = OMX_StateIdle \/ client_state_ s = OMX_StateExecuting).

(** Events that hand a buffer to the component. *)
Definition hands_buffer (e : Event) : Prop :=
  match e with
  | EvOmx (OMX_EmptyThisBuffer _ _) | EvOmx (OMX_FillThisBuffer _) => True
  | _ => False
  end.

(** The events a computation adds to the trace. *)
Definition added {A} (m : M A) (s : State) : list Event :=
  drop (length (trace s)) (trace (final (m s))).

(** The state a computation leaves. *)
Definition after {A} (m : M A) (s : State) : State := final (m s).

(** The precondition [Flush] and [Reset] assert. *)
Definition Flush_precondition (s : State) : Prop :=
  current_state_change_ s = NO_TRANSITION /\ client_state_ s = OMX_StateExecuting.

(** An input buffer given to the component with the EOS flag. *)
Definition feeds_EOS (e : Event) : Prop :=
  match e with
  | EvOmx (OMX_EmptyThisBuffer _ h) => has_EOS (nFlags h) = true
  | _ => False
  end.

(** C1 as the specification has it: a [Flush] outside its precondition is
    [StopOnError(ILLEGAL_STATE)], feeds no EOS buffer and does not enter
    FLUSHING. *)
Definition Flush_rejects_illegal_state (s : State) : Prop :=
  ~ Flush_precondition s ->
  Flush s = StopOnError ILLEGAL_STATE s /\
  Forall (fun e => ~ feeds_EOS e) (added Flush s) /\
  current_state_change_ (after Flush s) <> FLUSHING.

(** *** A component and some runs, for the examples

    The component has one decoder for the role, two ports starting at 0 and
    two input buffers of 64 KiB; the display is valid and the sandbox set up. *)
Definition demo_engine : EngineReplies :=
  mkEngineReplies 1 2 0 OMX_DirInput 2 65536 OMX_DirOutput 2 640 480.

Definition demo_start (dcheck : bool) (answers : list bool) : State :=
  initial_state dcheck answers demo_engine 1 true.

(** Constructed and initialised for H264 Main: INITIALIZING, [OMX_StateLoaded]. *)
Definition demo_initialized (dcheck : bool) (answers : list bool) : State :=
  after (Initialize H264PROFILE_MAIN true) (after Constructor (demo_start dcheck answers)).

(** The component has acknowledged [OMX_StateIdle]: INITIALIZING, idle. *)
Definition demo_idle (dcheck : bool) (answers : list bool) : State :=
  after (step (TaskEventHandlerComplete OMX_EventCmdComplete 0 2))
    (demo_initialized dcheck answers).

(** The component has acknowledged [OMX_StateExecuting]: no transition. *)
Definition demo_executing (dcheck : bool) (answers : list bool) : State :=
  after (step (TaskEventHandlerComplete OMX_EventCmdComplete 0 3))
    (demo_idle dcheck answers).

(** [Reset] has been called. *)
Definition demo_resetting (dcheck : bool) (answers : list bool) : State :=
  after (step CallReset) (demo_executing dcheck answers).

(** The calls made to the client, in order. *)
Fixpoint client_calls (t : list Event) : list ClientCall :=
  match t with
  | [] => []
  | EvClient c :: t' => c :: client_calls t'
  | _ :: t' => client_calls t'
  end.

(** How many times [NotifyError] has been called. *)
Fixpoint errors_notified (t : list Event) : nat :=
  match t with
  | [] => O
  | EvClient (NotifyError _) :: t' => S (errors_notified t')
  | _ :: t' => errors_notified t'
  end.

(** The client is gone and has not been called since the trace was [t0]. *)
Definition silenced (t0 : list Event) (s : State) : Prop :=
  client_ s = false /\ exists t, trace s = t0 ++ t /\ client_calls t = [].

(** [NotifyError] has been called at most once, and not at all while the
    client is still there (which needs the factory of its weak pointers). *)
Definition error_once (s : State) : Prop :=
  (errors_notified (trace s) <= 1)%nat /\
  (client_ s = true ->
   errors_notified (trace s) = O /\ client_ptr_factory_ s = true).

(** Every picture given to the client since the trace was [t0] satisfies [P]. *)
Definition pictures_ready (P : Picture -> Prop) (t0 : list Event) (s : State) : Prop :=
  exists t, trace s = t0 ++ t /\
            Forall (fun e => forall p, e = EvClient (PictureReady p) -> P p) t.

(** The weakest precondition of a computation: [Q] for the value and the
    state it returns, [C] for the state in which the process stops. *)
Definition wp {A} (m : M A) (Q : A -> State -> Prop) (C : State -> Prop) (s : State)
    : Prop :=
  match m s with
  | Ok a s' => Q a s'
  | Crash s' => C s'
  end.
#[global] Arguments wp : simpl never.

(** Since the trace was [t0], only events satisfying [ok] have been added. *)
Definition events_since (ok : Event -> Prop) (t0 : list Event) (s : State) : Prop :=
  exists t, trace s = t0 ++ t /\ Forall ok t.

(** A computation keeps a property of the state, however it ends. *)
Definition preserves (I : State -> Prop) {A} (m : M A) : Prop :=
  forall s, I s -> I (final (m s)).

(** The events of [Decode]: apart from the mapping of the shared memory and
    what [StopOnError] does, one input buffer given to the component, with
    the id of the bitstream buffer as its time stamp (-2 for the sentinel). *)
Definition Decode_event (b : BitstreamBuffer) (e : Event) : Prop :=
  match e with
  | EvOmx (OMX_EmptyThisBuffer _ h) =>
      (bb_id b = -1 /\ bb_size b = 0 /\ nTimeStamp h = -2) \/
      (nTimeStamp h = bb_id b /\ pAppPrivate h = AppInput (bb_handle b, bb_id b))
  | _ => True
  end.

(** The header at [buffer] as the component hands it back: with the flags
    and the time stamp it wrote. *)
Definition filled_header (buffer : nat) (flags time_stamp : Z) (s : State)
    : option OMX_BUFFERHEADERTYPE :=
  headers (final (engine_fills buffer flags time_stamp s)) !! buffer.

(** Executing, with the output header at address 9 bound to picture buffer 4
    and given to the component, and no fake output buffer left. *)
Definition demo_bound (dcheck : bool) : State :=
  let s := demo_executing dcheck [] in
  set_headers (<[9%nat := mkHeader 0 0 0 0 (AppPicture (mkPicture 4 0)) 0 0 1 0]> (headers s))
    (set_fake_output_buffers_ []
       (set_output_buffers_at_component_ 1 s)).

(** The adapter has been stopped on an error. *)
Definition erroring (s : State) : Prop := current_state_change_ s = ERRORING.

(** The component has reported an error while executing. *)
Definition demo_failed (dcheck : bool) : State :=
  after (step (TaskEventHandlerComplete OMX_EventError 0 0)) (demo_executing dcheck []).

(** [Flush] called after that error, in a build without the assertions. *)
Definition demo_flushed_after_error : State :=
  after (step CallFlush) (demo_failed false).

(** What completes the teardown [Destroy] has begun: the component
    acknowledges [OMX_StateIdle], then [OMX_StateLoaded], and the posted
    busy loop runs once more. *)
Definition teardown_ops : list Op :=
  [ TaskEventHandlerComplete OMX_EventCmdComplete
      (OMX_COMMANDTYPE_code OMX_CommandStateSet) (OMX_STATETYPE_code OMX_StateIdle);
    TaskEventHandlerComplete OMX_EventCmdComplete
      (OMX_COMMANDTYPE_code OMX_CommandStateSet) (OMX_STATETYPE_code OMX_StateLoaded);
    TaskBusyLoopInDestroying ].

(** [Flush] has been called: FLUSHING, the end-of-stream buffer is with the
    component. *)
Definition demo_flushing (dcheck : bool) : State :=
  after (step CallFlush) (demo_executing dcheck []).

(** The component gives back the input buffer and the eight output buffers
    it holds, then the teardown goes on. *)
Definition demo_returns_and_teardown : list Op :=
  TaskEmptyBufferDone 1 ::
  map (fun buffer => TaskFillBufferDone buffer 0 0)
      [3%nat; 4%nat; 5%nat; 6%nat; 7%nat; 8%nat; 9%nat; 10%nat] ++
  teardown_ops.

(** The state once [EmptyBufferDoneTask] has put [buffer] back among the
    free input buffers. *)
Definition returned (buffer : nat) (s : State) : State :=
  set_input_buffers_at_component_ (input_buffers_at_component_ s - 1)
    (set_free_input_buffers_ (free_input_buffers_ s ++ [buffer]) s).

(** The state in which [EmptyBufferDoneTask] calls
    [DecodeQueuedBitstreamBuffers]: the header at [buffer], which was [h]
    with the details [d], has lost them, and the client, when there is one,
    has been told. *)
Definition completed (buffer : nat) (h : OMX_BUFFERHEADERTYPE) (d : Z * Z) (s : State)
    : State :=
  let s' := set_headers (<[buffer := hdr_set_pAppPrivate AppNull h]> (headers s))
              (returned buffer s) in
  if client_ s then
    set_trace (trace s ++ [EvClient (NotifyEndOfBitstreamBuffer (snd d))]) s'
  else s'.

(** [Decode] called on each buffer of a list, first to last. *)
Fixpoint decode_in_order (l : list BitstreamBuffer) : M unit :=
  match l with
  | [] => ret tt
  | b :: l' => Decode b ;; decode_in_order l'
  end.

(** A bitstream buffer is being decoded. *)
Definition demo_decoding (dcheck : bool) : State :=
  after (step (CallDecode (mkBitstreamBuffer 7 3 100))) (demo_executing dcheck []).

(** [Destroy] has been called while it was. *)
Definition demo_destroying (dcheck : bool) : State :=
  after (step CallDestroy) (demo_decoding dcheck).

(** Three bitstream buffers given to an adapter with two input buffers
    (the third is queued), then [Destroy]. *)
Definition demo_queued_destroying (dcheck : bool) : State :=
  after (run [CallDecode (mkBitstreamBuffer 7 3 100);
              CallDecode (mkBitstreamBuffer 8 3 100);
              CallDecode (mkBitstreamBuffer 9 3 100);
              CallDestroy])
    (demo_executing dcheck []).

(** [ReusePictureBuffer] called on each id of a list, first to last. *)
Fixpoint reuse_in_order (l : list Z) : M unit :=
  match l with
  | [] => ret tt
  | id :: l' => ReusePictureBuffer id ;; reuse_in_order l'
  end.

(** Not RESETTING, with [l] the picture buffer ids held back. *)
Definition holding (l : list Z) (s : State) : Prop :=
  current_state_change_ s <> RESETTING /\ queued_picture_buffer_ids_ s = l.

(** The state in which [OnReachedExecutingInResetting] starts to drain the
    queues, or returns when there is no client. *)
Definition reset_reached (s : State) : State :=
  set_current_state_change_ NO_TRANSITION (set_client_state_ OMX_StateExecuting s).

(** The two drains of [OnReachedExecutingInResetting], the second over the
    picture buffer ids queued when it begins. *)
Definition drain_queues : M unit :=
  DecodeQueuedBitstreamBuffers ;;
  s <- get ;;
  reuse_in_order (queued_picture_buffer_ids_ s) ;;
  modify (set_queued_picture_buffer_ids_ []).

(** A reset up to the last acknowledgement: [Reset], a [Decode] that is
    queued, the component pausing, giving back its eight output buffers and
    flushing both ports. *)
Definition demo_reset_ops : list Op :=
  [ CallReset; CallDecode (mkBitstreamBuffer 7 3 100);
    TaskEventHandlerComplete OMX_EventCmdComplete
      (OMX_COMMANDTYPE_code OMX_CommandStateSet) (OMX_STATETYPE_code OMX_StatePause) ] ++
  map (fun buffer => TaskFillBufferDone buffer 0 0)
      [3%nat; 4%nat; 5%nat; 6%nat; 7%nat; 8%nat; 9%nat; 10%nat] ++
  [ TaskEventHandlerComplete OMX_EventCmdComplete (OMX_COMMANDTYPE_code OMX_CommandFlush) 0;
    TaskEventHandlerComplete OMX_EventCmdComplete (OMX_COMMANDTYPE_code OMX_CommandFlush) 1 ].

Definition demo_reset_ready (dcheck : bool) (answers : list bool) : State :=
  after (run demo_reset_ops) (demo_executing dcheck answers).

(** The platform accepts 43 calls, then refuses one: the
    [OMX_EmptyThisBuffer] of the queued [Decode]. *)
Definition demo_refusal : list bool := replicate 43 true ++ [false].

(** The component acknowledges [OMX_StateExecuting]. *)
Definition executing_reached : Op :=
  TaskEventHandlerComplete OMX_EventCmdComplete
    (OMX_COMMANDTYPE_code OMX_CommandStateSet) (OMX_STATETYPE_code OMX_StateExecuting).

(** The free input buffers and those at the component are all the input
    buffers. *)
Definition input_balanced (s : State) : Prop :=
  Z.of_nat (length (free_input_buffers_ s)) + input_buffers_at_component_ s =
  input_buffer_count_ s.

(** The adapter is being destroyed or stopped, or holds no component. *)
Definition winding_down (s : State) : Prop :=
  current_state_change_ s = DESTROYING \/ current_state_change_ s = ERRORING \/
  client_state_ s = OMX_StateMax \/ client_state_ s = OMX_StateInvalid.

Definition inputs_accounted (s : State) : Prop := winding_down s \/ input_balanced s.

(** The same in a build with the assertions. *)
Definition checked_accounted (s : State) : Prop :=
  dcheck_is_on s = true /\ inputs_accounted s.

(** Being destroyed or stopped, in a build with the assertions. *)
Definition checked_stopping (s : State) : Prop :=
  dcheck_is_on s = true /\
  (current_state_change_ s = DESTROYING \/ current_state_change_ s = ERRORING).

(** No input buffer yet, in a build with the assertions. *)
Definition unallocated (s : State) : Prop :=
  dcheck_is_on s = true /\ free_input_buffers_ s = [] /\
  input_buffers_at_component_ s = 0.

(** The input buffers are allocated and free, as many as the loop of
    [AllocateInputBuffers] has turns, unless the adapter is stopped. *)
Definition allocated (s : State) : Prop :=
  dcheck_is_on s = true /\
  (winding_down s \/
   (Z.of_nat (length (free_input_buffers_ s)) = Z.of_nat (Z.to_nat (input_buffer_count_ s)) /\
    input_buffers_at_component_ s = 0)).

(** As the constructor leaves the adapter, in a build with the assertions. *)
Definition pristine (s : State) : Prop :=
  unallocated s /\ client_state_ s = OMX_StateMax.

(** The platform accepts 30 calls, then refuses one: the mapping of the
    shared memory of the first [Decode]. *)
Definition demo_unmapped : list bool := replicate 30 true ++ [false].

(** That [Decode], then [Reset], in a build without the assertions. *)
Definition demo_reset_after_error : State :=
  after (run [CallDecode (mkBitstreamBuffer 7 3 100); CallReset])
    (demo_executing false demo_unmapped).

(** ** Definitions for the further properties *)

(** The component reports that it has reached a state: the task its
    [EventHandler] callback posts on the completion of [OMX_CommandStateSet]. *)
Definition state_reached (st : OMX_STATETYPE) : Op :=
  TaskEventHandlerComplete OMX_EventCmdComplete
    (OMX_COMMANDTYPE_code OMX_CommandStateSet) (OMX_STATETYPE_code st).

(** The request for the transition to a state. *)
Definition state_request (st : OMX_STATETYPE) : Event :=
  EvOmx (OMX_SendCommand OMX_CommandStateSet (OMX_STATETYPE_code st)).

(** The picture buffer id [FillBufferDoneTask] reads from a header: that of
    the [media::Picture] in [pAppPrivate], or -1 when there is none. *)
Definition picture_id_of (h : OMX_BUFFERHEADERTYPE) : Z :=
  match pAppPrivate h with
  | AppPicture p => picture_buffer_id p
  | _ => -1
  end.

(** The state in which [FillBufferDoneTask] decides what to do with the
    buffer: the buffer is counted out. *)
Definition filled (s : State) : State :=
  set_output_buffers_at_component_ (output_buffers_at_component_ s - 1) s.

(** The component reports that it has flushed a port. *)
Definition flush_done (port : Z) : Op :=
  TaskEventHandlerComplete OMX_EventCmdComplete (OMX_COMMANDTYPE_code OMX_CommandFlush) port.

(** The request to flush a port. *)
Definition flush_request (port : Z) : Event := EvOmx (OMX_SendCommand OMX_CommandFlush port).

(** The calls that free a list of buffers on a port, in order. *)
Definition frees (port : Z) (l : list nat) : list Event :=
  map (fun b => EvOmx (OMX_FreeBuffer port b)) l.

(** The calls that dismiss a list of picture buffers, in order. *)
Definition dismissals (l : list Z) : list Event :=
  map (fun id => EvClient (DismissPictureBuffer id)) l.

(** The headers left when those at the addresses of a list are gone. *)
Definition without (l : list nat) (m : gmap nat OMX_BUFFERHEADERTYPE)
    : gmap nat OMX_BUFFERHEADERTYPE :=
  foldl (fun m b => delete b m) m l.

(** The component is idle, executing or paused: the states in which
    [CanFillBuffer] can hold. *)
Definition component_running (s : State) : Prop :=
  client_state_ s = OMX_StateIdle \/ client_state_ s = OMX_StateExecuting \/
  client_state_ s = OMX_StatePause.

(** The sync objects the trace shows created, and those it shows destroyed. *)
Fixpoint syncs_created (t : list Event) : nat :=
  match t with
  | [] => O
  | EvSys eglCreateSyncKHR :: t' => S (syncs_created t')
  | _ :: t' => syncs_created t'
  end.

Fixpoint syncs_destroyed (t : list Event) : nat :=
  match t with
  | [] => O
  | EvSys eglDestroySyncKHR :: t' => S (syncs_destroyed t')
  | _ :: t' => syncs_destroyed t'
  end.

(** Every sync object created has been destroyed, is held by a poll that
    waits on the task runner, or is one of the [held] ones of the function
    that runs. *)
Definition syncs_balanced (held : nat) (s : State) : Prop :=
  syncs_created (trace s) =
  (syncs_destroyed (trace s) + length (posted_picture_checks_ s) + held)%nat.

(** No picture buffer is registered: [pictures_] is empty and no header
    carries a [media::Picture]. *)
Definition unbound (s : State) : Prop :=
  pictures_ s = [] /\
  forall b h p, headers s !! b = Some h -> pAppPrivate h <> AppPicture p.

(** An event other than the delivery of a picture. *)
Definition not_picture (e : Event) : Prop := forall p, e <> EvClient (PictureReady p).

(** What every run of the adapter keeps. *)
Definition sound (held : nat) (s : State) : Prop :=
  unbound s /\ syncs_balanced held s /\ Forall not_picture (trace s).

(** Every answer of the platform is a success up to the first poll of a
    sync object, which finds it not signalled. *)
Definition demo_unsignalled : list bool := replicate 32 true ++ [false].

(** A picture buffer has come back from the client and the poll of its sync
    object waits on the task runner. *)
Definition demo_polling : State :=
  after (step (CallReusePictureBuffer 5)) (demo_executing true demo_unsignalled).


(** * Properties *)

(** ** Reasoning about computations *)

(** The primitives of the monad, unfolded. *)
Ltac unfold_prims :=
  unfold NOTREACHED, notify, omx, sys in *;
  unfold when, client_call, DCHECK, CHECK, InvalidateWeakPtrs, emit in *;
  unfold ask, modify, get, crash, ret, bind in *.

(** Case analysis on the innermost test of the goal. *)
Ltac inner_case :=
  match goal with
  | |- context [if ?b then _ else _] =>
      lazymatch b with
      | context [if _ then _ else _] => fail
      | context [match _ with _ => _ end] => fail
      | _ => destruct b eqn:?
      end
  | |- context [match ?b with _ => _ end] =>
      lazymatch b with
      | context [if _ then _ else _] => fail
      | context [match _ with _ => _ end] => fail
      | _ => destruct b eqn:?
      end
  end.

Lemma bind_Ok {A B} (m : M A) (k : A -> M B) s a s' :
  m s = Ok a s' -> bind m k s = k a s'.
Proof. unfold bind. intros ->. reflexivity. Qed.

Lemma bind_Crash {A B} (m : M A) (k : A -> M B) s s' :
  m s = Crash s' -> bind m k s = Crash s'.
Proof. unfold bind. intros ->. reflexivity. Qed.

Lemma bind_get {B} (k : State -> M B) s : bind get k s = k s s.
Proof. reflexivity. Qed.

Lemma bind_modify {B} f (k : unit -> M B) s : bind (modify f) k s = k tt (f s).
Proof. reflexivity. Qed.

Lemma bind_ret {A B} (a : A) (k : A -> M B) s : bind (ret a) k s = k a s.
Proof. reflexivity. Qed.

Lemma bind_assoc {A B C} (m : M A) (k1 : A -> M B) (k2 : B -> M C) s :
  bind (bind m k1) k2 s = bind m (fun a => bind (k1 a) k2) s.
Proof. unfold bind. destruct (m s); reflexivity. Qed.

Lemma bind_ext_at {A B} (m : M A) (k1 k2 : A -> M B) s :
  (forall a s', m s = Ok a s' -> k1 a s' = k2 a s') -> bind m k1 s = bind m k2 s.
Proof. intros H. unfold bind. destruct (m s) as [a s'|s']; [apply H|]; reflexivity. Qed.

Lemma bind_DCHECK {B} c (k : unit -> M B) s :
  dcheck_is_on s = false \/ c = true -> bind (DCHECK c) k s = k tt s.
Proof.
  intros H. unfold DCHECK, bind, get.
  destruct H as [-> | ->]; [reflexivity|]. rewrite andb_false_r. reflexivity.
Qed.

Lemma bind_header_at {B} buffer (k : OMX_BUFFERHEADERTYPE -> M B) s h :
  headers s !! buffer = Some h -> bind (header_at buffer) k s = k h s.
Proof. intros H. unfold header_at, bind, get. rewrite H. reflexivity. Qed.

Lemma bind_update_header {B} buffer f (k : unit -> M B) s h :
  headers s !! buffer = Some h ->
  bind (update_header buffer f) k s =
    k tt (set_headers (<[buffer := f h]> (headers s)) s).
Proof. intros H. unfold update_header, header_at, bind, get, modify. rewrite H. reflexivity. Qed.

Lemma bind_client_call {B} c (k : unit -> M B) s :
  client_ s = true ->
  bind (client_call c) k s = k tt (set_trace (trace s ++ [EvClient c]) s).
Proof. intros H. unfold client_call, bind, get, emit, modify. rewrite H. reflexivity. Qed.

Lemma final_bind {A B} (m : M A) (k : A -> M B) s :
  final (bind m k s) = match m s with Ok a s' => final (k a s') | Crash s' => s' end.
Proof. unfold bind. destruct (m s); reflexivity. Qed.

(** Two states with the same fields are equal. *)
Lemma state_ext (s s' : State) :
  dcheck_is_on s = dcheck_is_on s' ->
  env_results s = env_results s' ->
  engine s = engine s' ->
  trace s = trace s' ->
  headers s = headers s' ->
  next_header s = next_header s' ->
  pre_sandbox_init_done_ s = pre_sandbox_init_done_ s' ->
  component_handle_ s = component_handle_ s' ->
  client_ptr_factory_ s = client_ptr_factory_ s' ->
  client_ s = client_ s' ->
  init_begun_ s = init_begun_ s' ->
  client_state_ s = client_state_ s' ->
  current_state_change_ s = current_state_change_ s' ->
  input_buffer_count_ s = input_buffer_count_ s' ->
  input_buffer_size_ s = input_buffer_size_ s' ->
  input_port_ s = input_port_ s' ->
  input_buffers_at_component_ s = input_buffers_at_component_ s' ->
  output_port_ s = output_port_ s' ->
  output_buffers_at_component_ s = output_buffers_at_component_ s' ->
  free_input_buffers_ s = free_input_buffers_ s' ->
  queued_bitstream_buffers_ s = queued_bitstream_buffers_ s' ->
  queued_picture_buffer_ids_ s = queued_picture_buffer_ids_ s' ->
  pictures_ s = pictures_ s' ->
  fake_output_buffers_ s = fake_output_buffers_ s' ->
  codec_ s = codec_ s' ->
  h264_profile_ s = h264_profile_ s' ->
  last_requested_picture_buffer_dimensions_ s = last_requested_picture_buffer_dimensions_ s' ->
  egl_display_ s = egl_display_ s' ->
  posted_picture_checks_ s = posted_picture_checks_ s' ->
  busy_loop_posted_ s = busy_loop_posted_ s' ->
  deleted_ s = deleted_ s' ->
  s = s'.
Proof. destruct s, s'; simpl; intros; subst; reflexivity. Qed.

(** States are compared field by field. *)
Ltac state_eq := apply state_ext; simpl; try reflexivity; try congruence.

Lemma state_eta (s : State) :
  s = mkState (dcheck_is_on s) (env_results s) (engine s) (trace s) (headers s)
        (next_header s) (pre_sandbox_init_done_ s) (component_handle_ s)
        (client_ptr_factory_ s) (client_ s) (init_begun_ s) (client_state_ s)
        (current_state_change_ s) (input_buffer_count_ s) (input_buffer_size_ s)
        (input_port_ s) (input_buffers_at_component_ s) (output_port_ s)
        (output_buffers_at_component_ s) (free_input_buffers_ s)
        (queued_bitstream_buffers_ s) (queued_picture_buffer_ids_ s) (pictures_ s)
        (fake_output_buffers_ s) (codec_ s) (h264_profile_ s)
        (last_requested_picture_buffer_dimensions_ s) (egl_display_ s)
        (posted_picture_checks_ s) (busy_loop_posted_ s) (deleted_ s).
Proof. destruct s; reflexivity. Qed.

Lemma set_client_false_id s : client_ s = false -> set_client_ false s = s.
Proof. destruct s; cbn; intros ->; reflexivity. Qed.

Lemma set_trace_nil_id s : set_trace (trace s ++ []) s = s.
Proof. rewrite app_nil_r. destruct s; reflexivity. Qed.

Lemma csc_is_true c s : csc_is c s = true <-> current_state_change_ s = c.
Proof. unfold csc_is. apply bool_decide_eq_true. Qed.

Lemma csc_is_false c s : csc_is c s = false <-> current_state_change_ s <> c.
Proof. unfold csc_is. apply bool_decide_eq_false. Qed.

Lemma cs_is_true c s : cs_is c s = true <-> client_state_ s = c.
Proof. unfold cs_is. apply bool_decide_eq_true. Qed.

Lemma cs_is_false c s : cs_is c s = false <-> client_state_ s <> c.
Proof. unfold cs_is. apply bool_decide_eq_false. Qed.

Lemma not_true_false b : b <> true -> b = false.
Proof. destruct b; congruence. Qed.


(** ** StopOnError without recursion

    [StopOnError] and [BeginTransitionToState] call each other; the fuel of
    [StopOnError_rec] is enough for every answer the platform can give, and
    the outcome has a closed form. *)

Lemma StopOnError_body_ext (stop1 stop2 : Error -> M unit) error s :
  (forall e s', (length (env_results s') < length (env_results s))%nat ->
                stop1 e s' = stop2 e s') ->
  StopOnError_body (BeginTransitionToState_with stop1) error s =
  StopOnError_body (BeginTransitionToState_with stop2) error s.
Proof.
  intros Hstop.
  unfold StopOnError_body, BeginTransitionToState_with. unfold_prims. cbn.
  repeat (first [ rewrite Hstop by (cbn; lia) | inner_case ]; cbn; try reflexivity).
Qed.

Lemma StopOnError_rec_fuel n : forall m error s,
  (length (env_results s) < n)%nat -> (length (env_results s) < m)%nat ->
  StopOnError_rec n error s = StopOnError_rec m error s.
Proof.
  induction n as [|n IH]; intros m error s Hn Hm; [lia|].
  destruct m as [|m]; [lia|].
  cbn [StopOnError_rec]. apply StopOnError_body_ext.
  intros e s' Hlt. apply IH; lia.
Qed.

(** [StopOnError] as the source writes it. *)
Lemma StopOnError_unfold error s :
  StopOnError error s = StopOnError_body BeginTransitionToState error s.
Proof.
  unfold StopOnError at 1. cbn [StopOnError_rec].
  apply StopOnError_body_ext. intros e s' Hlt.
  unfold StopOnError. apply StopOnError_rec_fuel; lia.
Qed.

(** The requests for [OMX_StateInvalid], from a state in which the client
    has been told: one per failing answer, and the one that is accepted. *)
Lemma invalid_requests l : forall s,
  env_results s = l ->
  current_state_change_ s <> ERRORING ->
  client_ptr_factory_ s = true ->
  client_ s = false ->
  cs_is OMX_StateInvalid s || cs_is OMX_StateMax s = false ->
  exists s',
    BeginTransitionToState OMX_StateInvalid s = Ok tt s' /\
    set_current_state_change_ ERRORING s' =
    set_current_state_change_ ERRORING
      (set_env_results (drop (S (failures l)) l)
         (set_trace (trace s ++ replicate (S (failures l)) invalid_request) s)).
Proof.
  induction l as [|[] l IH]; intros s Henv Hcsc Hf Hc Hcs;
    unfold BeginTransitionToState, BeginTransitionToState_with, csc_is;
    unfold_prims; simpl; rewrite (bool_decide_eq_false_2 _ Hcsc); simpl; rewrite Henv; simpl.
  - eexists; split; [reflexivity|]. rewrite <- Henv. destruct s; reflexivity.
  - eexists; split; [reflexivity|]. reflexivity.
  - rewrite StopOnError_unfold. unfold StopOnError_body, csc_is, cs_is in *.
    unfold_prims; simpl. rewrite (bool_decide_eq_false_2 _ Hcsc); simpl. rewrite Hc; simpl. rewrite Hf; simpl. rewrite Hcs; simpl.
    edestruct (IH (set_client_ false (set_env_results l
                 (set_trace (trace s ++ [invalid_request]) s)))) as (s' & Hs' & Heq);
      [reflexivity | assumption | assumption | reflexivity | exact Hcs |].
    unfold invalid_request in *. simpl OMX_STATETYPE_code in *. rewrite Hs'.
    eexists; split; [reflexivity|].
    change (set_current_state_change_ ERRORING (set_current_state_change_ ERRORING s'))
      with (set_current_state_change_ ERRORING s').
    rewrite Heq. state_eq. rewrite <- app_assoc. reflexivity.
Qed.

Lemma StopOnError_closed_form error s :
  StopOnError error s = StopOnError_outcome error s.
Proof.
  rewrite StopOnError_unfold.
  unfold StopOnError_body, StopOnError_outcome, stop_events.
  unfold_prims. simpl.
  destruct (csc_is ERRORING s) eqn:Hcsc; [reflexivity|].
  assert (Hne : current_state_change_ s <> ERRORING)
    by (apply csc_is_false; exact Hcsc).
  assert (Hgo : forall s1 : State,
    client_ptr_factory_ s1 = true -> client_ s1 = false ->
    current_state_change_ s1 = current_state_change_ s ->
    client_state_ s1 = client_state_ s ->
    env_results s1 = env_results s ->
    cs_is OMX_StateInvalid s || cs_is OMX_StateMax s = false ->
    match BeginTransitionToState OMX_StateInvalid s1 with
    | Ok _ s' => Ok tt (set_current_state_change_ ERRORING s')
    | Crash s' => Crash s'
    end =
    Ok tt (set_current_state_change_ ERRORING
             (set_env_results (drop (S (failures (env_results s))) (env_results s))
                (set_trace (trace s1 ++ replicate (S (failures (env_results s)))
                                          invalid_request) s1)))).
  { intros s1 Hf1 Hc1 Hcsc1 Hcs1 Henv1 Hcs.
    destruct (invalid_requests (env_results s) s1) as (s' & -> & ->); auto.
    - congruence.
    - unfold cs_is in *. rewrite Hcs1. exact Hcs. }
  destruct (client_ptr_factory_ s) eqn:Hf;
    destruct (client_ s) eqn:Hc; simpl; [destruct (init_begun_ s) eqn:Hi; simpl | |
      destruct (init_begun_ s) eqn:Hi; simpl | ];
    rewrite ?Hc, ?Hf; simpl; rewrite ?Hf; simpl;
    rewrite ?set_trace_nil_id; try reflexivity;
    unfold cs_is in *; simpl;
    destruct (bool_decide (client_state_ s = OMX_StateInvalid)
              || bool_decide (client_state_ s = OMX_StateMax)) eqn:Hcs;
    simpl; try (f_equal; state_eq; rewrite ?app_nil_r; reflexivity);
    rewrite Hgo by (simpl; auto); simpl; f_equal; state_eq; rewrite ?app_nil_r; reflexivity.
Qed.

(** What [StopOnError] adds to the trace. *)
Lemma StopOnError_trace error s :
  exists n,
    trace (final (StopOnError error s)) =
    trace s ++ (if csc_is ERRORING s then [] else stop_events error s)
            ++ replicate n invalid_request.
Proof.
  rewrite StopOnError_closed_form. unfold StopOnError_outcome.
  destruct (csc_is ERRORING s); [exists O; simpl; rewrite app_nil_r; reflexivity|].
  destruct (negb (client_ptr_factory_ s)); [exists O; simpl; rewrite app_nil_r; reflexivity|].
  destruct (cs_is OMX_StateInvalid s || cs_is OMX_StateMax s).
  - exists O. simpl. rewrite app_nil_r. reflexivity.
  - exists (S (failures (env_results s))). simpl. rewrite <- app_assoc. reflexivity.
Qed.

(** [StopOnError] while ERRORING does nothing. *)
Lemma StopOnError_while_ERRORING error s :
  current_state_change_ s = ERRORING -> StopOnError error s = Ok tt s.
Proof.
  intros H. rewrite StopOnError_closed_form. unfold StopOnError_outcome.
  rewrite (proj2 (csc_is_true ERRORING s) H). reflexivity.
Qed.

Lemma StopOnError_keeps (P : State -> Prop) :
  (forall s t, P s -> P (set_trace t s)) ->
  (forall s, P s -> P (set_client_ false s)) ->
  (forall s r, P s -> P (set_env_results r s)) ->
  (forall s, P s -> P (set_current_state_change_ ERRORING s)) ->
  forall error s, P s -> P (final (StopOnError error s)).
Proof.
  intros Ht Hc He Hs error s HP. rewrite StopOnError_closed_form.
  unfold StopOnError_outcome.
  destruct (csc_is ERRORING s); [exact HP|]. cbv zeta.
  destruct (negb (client_ptr_factory_ s)); [|
    destruct (cs_is OMX_StateInvalid s || cs_is OMX_StateMax s)];
  unfold final;
  repeat first [ apply Hs | apply He | apply Ht | apply Hc ]; exact HP.
Qed.


(** ** Weakest preconditions *)

Lemma wp_ret {A} (a : A) Q C s : Q a s -> wp (ret a) Q C s.
Proof. intros H. exact H. Qed.

Lemma wp_crash {A} (Q : A -> State -> Prop) C s : C s -> wp crash Q C s.
Proof. intros H. exact H. Qed.

Lemma wp_bind {A B} (m : M A) (k : A -> M B) Q C s :
  wp m (fun a s' => wp (k a) Q C s') C s -> wp (bind m k) Q C s.
Proof. unfold wp, bind. destruct (m s); auto. Qed.

Lemma wp_get Q C s : Q s s -> wp get Q C s.
Proof. intros H. exact H. Qed.

Lemma wp_modify f Q C s : Q tt (f s) -> wp (modify f) Q C s.
Proof. intros H. exact H. Qed.

Lemma wp_emit e Q C s : Q tt (set_trace (trace s ++ [e]) s) -> wp (emit e) Q C s.
Proof. intros H. exact H. Qed.

Lemma wp_ask Q C s :
  (env_results s = [] -> Q true s) ->
  (forall r rest, env_results s = r :: rest -> Q r (set_env_results rest s)) ->
  wp ask Q C s.
Proof. intros H1 H2. unfold wp, ask. destruct (env_results s); auto. Qed.

Lemma wp_DCHECK c Q C s :
  (dcheck_is_on s = true -> c = false -> C s) ->
  (dcheck_is_on s = false \/ c = true -> Q tt s) ->
  wp (DCHECK c) Q C s.
Proof.
  intros H1 H2. unfold wp, DCHECK, bind, get.
  destruct (dcheck_is_on s), c; simpl; auto.
Qed.

Lemma wp_CHECK c Q C s :
  (c = false -> C s) -> (c = true -> Q tt s) -> wp (CHECK c) Q C s.
Proof. intros H1 H2. unfold wp, CHECK. destruct c; simpl; auto. Qed.

Lemma wp_header_at buffer Q C s :
  (forall h, headers s !! buffer = Some h -> Q h s) ->
  (headers s !! buffer = None -> C s) ->
  wp (header_at buffer) Q C s.
Proof.
  intros H1 H2. unfold wp, header_at, bind, get.
  destruct (headers s !! buffer) eqn:E; simpl; auto.
Qed.

Lemma wp_mono {A} (m : M A) (Q Q' : A -> State -> Prop) (C C' : State -> Prop) s :
  wp m Q C s -> (forall a s', Q a s' -> Q' a s') -> (forall s', C s' -> C' s') ->
  wp m Q' C' s.
Proof. unfold wp. destruct (m s); auto. Qed.

Lemma wp_StopOnError error Q C s :
  wp (fun s => StopOnError_outcome error s) Q C s -> wp (StopOnError error) Q C s.
Proof. unfold wp. rewrite StopOnError_closed_form. auto. Qed.

Lemma wp_final {A} (m : M A) (P : State -> Prop) s :
  wp m (fun _ => P) P s <-> P (final (m s)).
Proof. unfold wp. destruct (m s); reflexivity. Qed.

Lemma wp_of_final {A} (m : M A) (P : State -> Prop) s :
  P (final (m s)) -> wp m (fun _ => P) (fun _ => True) s.
Proof. unfold wp. destruct (m s); simpl; auto. Qed.

Lemma wp_Ok {A} (m : M A) Q s :
  wp m Q (fun _ => False) s -> exists a s', m s = Ok a s' /\ Q a s'.
Proof. unfold wp. destruct (m s) as [a s'|s']; [eauto | tauto]. Qed.

Lemma wp_of_Ok {A} (m : M A) (Q : A -> State -> Prop) C s a s' :
  m s = Ok a s' -> Q a s' -> wp m Q C s.
Proof. unfold wp. intros ->. auto. Qed.

Lemma wp_fold_each {A B} (J : list A -> B -> State -> Prop) (C : State -> Prop)
    (body : B -> A -> M B) (l : list A) :
  (forall x rest b s, J (x :: rest) b s -> wp (body b x) (J rest) C s) ->
  forall b s, J l b s -> wp (fold_each l body b) (J []) C s.
Proof.
  intros Hbody. induction l as [|x l IH]; intros b s HJ; simpl.
  - exact HJ.
  - apply wp_bind. eapply wp_mono; [apply Hbody; exact HJ | | auto].
    intros b' s' HJ'. apply IH. exact HJ'.
Qed.

Lemma wp_run_fold_each {A} (P : State -> Prop) (body : A -> M unit) (l : list A) :
  (forall x s, P s -> wp (body x) (fun _ => P) (fun _ => True) s) ->
  forall s, P s -> wp (fold_each l (fun _ x => body x) tt) (fun _ => P) (fun _ => True) s.
Proof.
  intros Hb. induction l as [|x l IH]; intros s H; simpl; [exact H|].
  apply wp_bind. eapply wp_mono; [apply Hb; exact H | | auto].
  intros [] s' H'. apply IH. exact H'.
Qed.

Lemma wp_run_for_each {A R} (P : State -> Prop) (body : A -> M (option R)) (l : list A) :
  (forall x s, P s -> wp (body x) (fun _ => P) (fun _ => True) s) ->
  forall s, P s -> wp (for_each l body) (fun _ => P) (fun _ => True) s.
Proof.
  intros Hb. induction l as [|x l IH]; intros s H; simpl; [exact H|].
  apply wp_bind. eapply wp_mono; [apply Hb; exact H | | auto].
  intros [r|] s' H'; [exact H' | apply IH; exact H'].
Qed.

Lemma wp_for_each_list {A R} (J : list A -> State -> Prop) (E : R -> State -> Prop)
    (body : A -> M (option R)) (l : list A) :
  (forall x rest s, J (x :: rest) s ->
     wp (body x) (fun r s' => match r with Some v => E v s' | None => J rest s' end)
        (fun _ => True) s) ->
  forall s, J l s ->
    wp (for_each l body)
       (fun r s' => match r with Some v => E v s' | None => J [] s' end)
       (fun _ => True) s.
Proof.
  intros Hb. induction l as [|x l IH]; intros s H; simpl; [exact H|].
  apply wp_bind. eapply wp_mono; [apply Hb; exact H | | auto].
  intros [v|] s' H'; [exact H' | apply IH; exact H'].
Qed.

(** One step of symbolic execution. *)
Ltac wp_step :=
  lazymatch goal with
  | |- wp (ret _) _ _ _ => apply wp_ret
  | |- wp crash _ _ _ => apply wp_crash
  | |- wp (bind _ _) _ _ _ => apply wp_bind
  | |- wp get _ _ _ => apply wp_get
  | |- wp (modify _) _ _ _ => apply wp_modify
  | |- wp (emit _) _ _ _ => apply wp_emit
  | |- wp ask _ _ _ => apply wp_ask; [intros ? | intros ? ? ?]
  | |- wp (omx _) _ _ _ => unfold omx
  | |- wp (sys _) _ _ _ => unfold sys
  | |- wp (DCHECK _) _ _ _ => apply wp_DCHECK; [intros ? ? | intros ?]
  | |- wp NOTREACHED _ _ _ => unfold NOTREACHED
  | |- wp (CHECK _) _ _ _ => apply wp_CHECK; intros ?
  | |- wp (when _ _) _ _ _ => unfold when
  | |- wp (notify _) _ _ _ => unfold notify
  | |- wp (client_call _) _ _ _ => unfold client_call
  | |- wp InvalidateWeakPtrs _ _ _ => unfold InvalidateWeakPtrs
  | |- wp (header_at _) _ _ _ => apply wp_header_at; [intros ? ? | intros ?]
  | |- wp (update_header _ _) _ _ _ => unfold update_header
  | |- wp (RETURN_ON_FAILURE _ _ _ _) _ _ _ => unfold RETURN_ON_FAILURE
  | |- wp (RETURN_ON_OMX_FAILURE _ _ _ _) _ _ _ =>
      unfold RETURN_ON_OMX_FAILURE, RETURN_ON_FAILURE
  | |- wp (let _ := _ in _) _ _ _ => cbv zeta
  | |- wp (if ?b then _ else _) _ _ _ => destruct b eqn:?
  | |- wp (match ?x with _ => _ end) _ _ _ => destruct x eqn:?
  end.


(** ** Traces *)

Lemma client_calls_app t1 t2 : client_calls (t1 ++ t2) = client_calls t1 ++ client_calls t2.
Proof.
  induction t1 as [|[| |] t1 IH]; simpl; rewrite ?IH; reflexivity.
Qed.

Lemma errors_notified_app t1 t2 :
  errors_notified (t1 ++ t2) = (errors_notified t1 + errors_notified t2)%nat.
Proof.
  induction t1 as [|[|[]|] t1 IH]; simpl; rewrite ?IH; reflexivity.
Qed.

Lemma client_calls_none t : client_calls t = [] -> forall c, EvClient c ∉ t.
Proof.
  induction t as [|e t IH]; intros H c Hin; [inversion Hin|].
  apply elem_of_cons in Hin. destruct e; simpl in H; try discriminate.
  - destruct Hin as [Hin|Hin]; [discriminate | exact (IH H c Hin)].
  - destruct Hin as [Hin|Hin]; [discriminate | exact (IH H c Hin)].
Qed.

Lemma added_same_trace {A} (m : M A) s s' r :
  trace s = trace s' -> m s = r -> added m s = drop (length (trace s')) (trace (final r)).
Proof. intros Ht <-. unfold added. rewrite Ht. reflexivity. Qed.

Lemma added_nil {A} (m : M A) s : trace (final (m s)) = trace s -> added m s = [].
Proof. intros H. unfold added. rewrite H. apply drop_all. Qed.

Lemma added_of_events_since {A} ok (m : M A) s :
  events_since ok (trace s) (final (m s)) -> Forall ok (added m s).
Proof.
  intros (t & Ht & Hall). unfold added. rewrite Ht, drop_app_length. exact Hall.
Qed.

Lemma events_since_start ok s : events_since ok (trace s) s.
Proof. exists []. rewrite app_nil_r. split; [reflexivity|constructor]. Qed.

Lemma events_since_same ok t0 s s' :
  trace s' = trace s -> events_since ok t0 s -> events_since ok t0 s'.
Proof. unfold events_since. intros ->. auto. Qed.

Lemma events_since_emit ok t0 s s' e :
  trace s' = trace s ++ [e] -> ok e -> events_since ok t0 s -> events_since ok t0 s'.
Proof.
  unfold events_since. intros Hs He (t & Ht & Hall). exists (t ++ [e]).
  rewrite Hs, Ht, app_assoc. split; [reflexivity|].
  apply Forall_app. split; [exact Hall | repeat constructor; exact He].
Qed.

Lemma events_since_StopOnError (ok : Event -> Prop) t0 error s :
  ok (EvClient (NotifyError error)) -> ok invalid_request ->
  events_since ok t0 s ->
  events_since ok t0 (final (StopOnError error s)).
Proof.
  intros H1 H2 (t & Ht & Hall). destruct (StopOnError_trace error s) as [n Hn].
  eexists. rewrite Hn, Ht, <- app_assoc. split; [reflexivity|].
  repeat (apply Forall_app; split); [exact Hall | |].
  - unfold stop_events. destruct (csc_is ERRORING s); [constructor|].
    destruct (client_ s && init_begun_ s); repeat constructor. exact H1.
  - apply Forall_forall. intros e He. apply elem_of_replicate in He as [-> _]. exact H2.
Qed.

Lemma wp_StopOnError_events (ok : Event -> Prop) t0 error s :
  ok (EvClient (NotifyError error)) -> ok invalid_request ->
  events_since ok t0 s ->
  wp (StopOnError error) (fun _ => events_since ok t0) (events_since ok t0) s.
Proof. intros. apply wp_final. apply events_since_StopOnError; assumption. Qed.


(** ** Runs *)

Lemma reachable_after op s :
  reachable s -> step op s = Ok tt (after (step op) s) -> reachable (after (step op) s).
Proof. intros Hr Hs. exact (reach_step s op _ Hr Hs). Qed.

Lemma reachable_run ops :
  forall s s', reachable s -> run ops s = Ok tt s' -> reachable s'.
Proof.
  induction ops as [|op ops IH]; intros s s' Hr Hrun; simpl in Hrun.
  - injection Hrun as <-. exact Hr.
  - unfold bind in Hrun. destruct (step op s) as [[] s1|s1] eqn:Hs; [|discriminate].
    exact (IH s1 s' (reach_step s op s1 Hr Hs) Hrun).
Qed.

Ltac reach_demo_executing d a :=
  apply reachable_run
    with (ops := [TaskEventHandlerComplete OMX_EventCmdComplete 0 2;
                  TaskEventHandlerComplete OMX_EventCmdComplete 0 3])
         (s := demo_initialized d a);
    [|vm_compute; reflexivity];
  apply reach_Initialize with (dcheck := d) (answers := a) (eng := demo_engine)
    (egl_display := 1) (pre := true) (profile := H264PROFILE_MAIN) (client := true)
    (b := true) (s0 := after Constructor (demo_start d a));
    vm_compute; reflexivity.

Lemma reachable_demo_initialized dcheck : reachable (demo_initialized dcheck []).
Proof.
  destruct dcheck.
  - apply reach_Initialize with (dcheck := true) (answers := []) (eng := demo_engine)
      (egl_display := 1) (pre := true) (profile := H264PROFILE_MAIN) (client := true)
      (b := true) (s0 := after Constructor (demo_start true []));
      vm_compute; reflexivity.
  - apply reach_Initialize with (dcheck := false) (answers := []) (eng := demo_engine)
      (egl_display := 1) (pre := true) (profile := H264PROFILE_MAIN) (client := true)
      (b := true) (s0 := after Constructor (demo_start false []));
      vm_compute; reflexivity.
Qed.

Lemma reachable_demo_executing dcheck : reachable (demo_executing dcheck []).
Proof.
  destruct dcheck;
    (apply reachable_after; [apply reachable_after; [apply reachable_demo_initialized|]|]);
    vm_compute; reflexivity.
Qed.

Lemma reachable_demo_failed dcheck : reachable (demo_failed dcheck).
Proof.
  destruct dcheck;
    (apply reachable_after; [apply reachable_demo_executing|]); vm_compute; reflexivity.
Qed.

Lemma reachable_demo_decoding : reachable (demo_decoding true).
Proof.
  apply reachable_after; [apply reachable_demo_executing | vm_compute; reflexivity].
Qed.

Lemma reachable_demo_refused : reachable (demo_reset_ready true demo_refusal).
Proof.
  apply reachable_run with (ops := demo_reset_ops) (s := demo_executing true demo_refusal);
    [|vm_compute; reflexivity].
  apply reachable_run
    with (ops := [TaskEventHandlerComplete OMX_EventCmdComplete 0 2;
                  TaskEventHandlerComplete OMX_EventCmdComplete 0 3])
         (s := demo_initialized true demo_refusal);
    [|vm_compute; reflexivity].
  apply reach_Initialize with (dcheck := true) (answers := demo_refusal) (eng := demo_engine)
    (egl_display := 1) (pre := true) (profile := H264PROFILE_MAIN) (client := true)
    (b := true) (s0 := after Constructor (demo_start true demo_refusal));
    vm_compute; reflexivity.
Qed.

Lemma reachable_demo_reset_after_error : reachable demo_reset_after_error.
Proof.
  apply reachable_run
    with (ops := [CallDecode (mkBitstreamBuffer 7 3 100); CallReset])
         (s := demo_executing false demo_unmapped);
    [|vm_compute; reflexivity].
  reach_demo_executing false demo_unmapped.
Qed.


(** ** Decode *)

Lemma Decode_queues_test s :
  csc_is RESETTING s || csc_is INITIALIZING s
  || negb (bool_decide (queued_bitstream_buffers_ s = []))
  || bool_decide (free_input_buffers_ s = []) = true <-> Decode_queues s.
Proof.
  unfold Decode_queues, csc_is.
  rewrite !orb_true_iff, negb_true_iff, !bool_decide_eq_true, bool_decide_eq_false.
  tauto.
Qed.

Lemma Decode_legal_test s :
  (csc_is NO_TRANSITION s || csc_is FLUSHING s)
  && (cs_is OMX_StateIdle s || cs_is OMX_StateExecuting s) = true <-> Decode_legal s.
Proof.
  unfold Decode_legal, csc_is, cs_is.
  rewrite andb_true_iff, !orb_true_iff, !bool_decide_eq_true. tauto.
Qed.

Lemma Decode_when_queueing b s :
  Decode_queues s ->
  Decode b s = Ok tt (set_queued_bitstream_buffers_ (queued_bitstream_buffers_ s ++ [b]) s).
Proof.
  intros H. apply Decode_queues_test in H.
  unfold Decode. unfold_prims. simpl. rewrite H. reflexivity.
Qed.

Lemma Decode_when_illegal b s :
  ~ Decode_queues s -> ~ Decode_legal s ->
  Decode b s = StopOnError ILLEGAL_STATE s.
Proof.
  intros Hq Hl. rewrite <- Decode_queues_test in Hq. rewrite <- Decode_legal_test in Hl.
  apply not_true_false in Hq, Hl.
  unfold Decode, RETURN_ON_FAILURE. unfold_prims. simpl. rewrite Hq, Hl.
  destruct (StopOnError ILLEGAL_STATE s) as [[] ?|?]; reflexivity.
Qed.

(** C2: [Decode] queues the buffer, leaving the component alone, when a
    transition is under way, buffers are already queued or no input buffer
    is free; otherwise, in a state that is not legal for decoding, it is
    [StopOnError(ILLEGAL_STATE)] and hands no buffer to the component. *)
Theorem Decode_queues_or_rejects (b : BitstreamBuffer) (s : State) :
  (Decode_queues s ->
     exists s',
       Decode b s = Ok tt s' /\
       queued_bitstream_buffers_ s' = queued_bitstream_buffers_ s ++ [b] /\
       trace s' = trace s /\
       headers s' = headers s /\
       free_input_buffers_ s' = free_input_buffers_ s /\
       input_buffers_at_component_ s' = input_buffers_at_component_ s) /\
  (~ Decode_queues s -> ~ Decode_legal s ->
     Decode b s = StopOnError ILLEGAL_STATE s /\
     exists t,
       trace (final (Decode b s)) = trace s ++ t /\
       Forall (fun e => ~ hands_buffer e) t /\
       free_input_buffers_ (final (Decode b s)) = free_input_buffers_ s /\
       input_buffers_at_component_ (final (Decode b s)) = input_buffers_at_component_ s).
Proof.
  split.
  - intros H. eexists. split; [apply Decode_when_queueing; exact H|].
    repeat split; reflexivity.
  - intros Hq Hl. split; [apply Decode_when_illegal; assumption|].
    rewrite (Decode_when_illegal b s Hq Hl).
    destruct (StopOnError_trace ILLEGAL_STATE s) as [n Hn].
    eexists. split; [exact Hn|]. split.
    + apply Forall_app. split.
      * unfold stop_events. destruct (csc_is ERRORING s); [constructor|].
        destruct (client_ s && init_begun_ s); repeat constructor. simpl. tauto.
      * apply Forall_forall. intros e He. apply elem_of_replicate in He as [-> _].
        simpl. tauto.
    + rewrite StopOnError_closed_form. unfold StopOnError_outcome.
      repeat inner_case; simpl; split; reflexivity.
Qed.


(** ** Flush *)

Lemma Flush_unchecked_unfold s :
  dcheck_is_on s = false ->
  Flush s = Decode EOS_sentinel (set_current_state_change_ FLUSHING s).
Proof.
  intros Hd. unfold Flush. unfold_prims. simpl. repeat (rewrite Hd; simpl). reflexivity.
Qed.

Lemma Flush_checked_stops s :
  dcheck_is_on s = true -> ~ Flush_precondition s -> Flush s = Crash s.
Proof.
  intros Hd Hpre. unfold Flush. unfold_prims. simpl. rewrite Hd. simpl.
  destruct (csc_is NO_TRANSITION s) eqn:H1; simpl; [|reflexivity].
  rewrite Hd.
  destruct (cs_is OMX_StateExecuting s) eqn:H2; simpl; [|reflexivity].
  exfalso. apply Hpre. split; [apply csc_is_true | apply cs_is_true]; assumption.
Qed.

(** [Decode] on the end-of-stream sentinel, in a state that lets it through:
    the first free input buffer is given to the component, flagged EOS and
    stamped -2. *)
Lemma Decode_EOS_fed s buffer rest h :
  ~ Decode_queues s -> Decode_legal s ->
  free_input_buffers_ s = buffer :: rest ->
  headers s !! buffer = Some h ->
  exists t,
    added (Decode EOS_sentinel) s =
    EvOmx (OMX_EmptyThisBuffer buffer
             (hdr_set_nTimeStamp (-2) (hdr_set_nFlags (set_EOS (nFlags h))
                (hdr_set_nAllocLen 0 (hdr_set_nFilledLen 0 h))))) :: t.
Proof.
  intros Hq Hl Hfree Hh.
  rewrite <- Decode_queues_test in Hq. rewrite <- Decode_legal_test in Hl.
  apply not_true_false in Hq.
  unfold added, Decode, RETURN_ON_OMX_FAILURE, RETURN_ON_FAILURE, update_header, header_at.
  unfold_prims. simpl. rewrite Hq, Hl, Hfree. simpl. rewrite Hh. simpl.
  rewrite lookup_insert_eq. simpl.
  destruct (env_results s) as [|[] l] eqn:Henv; simpl.
  - rewrite drop_app_length. eexists; reflexivity.
  - rewrite drop_app_length. eexists; reflexivity.
  - match goal with
    | |- context [StopOnError ?e ?st] =>
        destruct (StopOnError_trace e st) as [n Hn];
        destruct (StopOnError e st) as [[] s'|s']; simpl in *;
        rewrite Hn, <- app_assoc, drop_app_length; eexists; reflexivity
    end.
Qed.

Lemma has_EOS_set_EOS flags : 0 <= flags -> has_EOS (set_EOS flags) = true.
Proof.
  intros Hf. unfold has_EOS, set_EOS, OMX_BUFFERFLAG_EOS.
  apply negb_true_iff, Z.eqb_neq. intros H.
  assert (Hb : Z.testbit (Z.land (Z.lor flags 1) 1) 0 = true).
  { rewrite Z.land_spec, Z.lor_spec. simpl. rewrite orb_true_r. reflexivity. }
  rewrite H in Hb. simpl in Hb. discriminate.
Qed.

(** C1 (amended): [Flush] guards its precondition with [DCHECK] only.  With
    the checks compiled in, a call outside the precondition stops the
    process.  Without them [Flush] always enters FLUSHING and runs [Decode]
    on the end-of-stream sentinel: [StopOnError(ILLEGAL_STATE)] is reached
    through the test of [Decode] alone, when nothing is queued, an input
    buffer is free and the component is neither idle nor executing, and then
    no buffer is handed over; when the component is idle or executing the
    EOS buffer is fed whatever the operation state was. *)
Theorem Flush_unguarded (s : State) :
  (dcheck_is_on s = true -> ~ Flush_precondition s -> Flush s = Crash s) /\
  (dcheck_is_on s = false ->
     Flush s = Decode EOS_sentinel (set_current_state_change_ FLUSHING s) /\
     (queued_bitstream_buffers_ s = [] -> free_input_buffers_ s <> [] ->
      client_state_ s <> OMX_StateIdle -> client_state_ s <> OMX_StateExecuting ->
        Flush s = StopOnError ILLEGAL_STATE (set_current_state_change_ FLUSHING s) /\
        Forall (fun e => ~ hands_buffer e) (added Flush s)) /\
     (forall buffer rest h,
        queued_bitstream_buffers_ s = [] -> free_input_buffers_ s = buffer :: rest ->
        headers s !! buffer = Some h -> 0 <= nFlags h ->
        client_state_ s = OMX_StateIdle \/ client_state_ s = OMX_StateExecuting ->
        exists e t, added Flush s = e :: t /\ feeds_EOS e)).
Proof.
  split; [apply Flush_checked_stops|].
  intros Hd. pose proof (Flush_unchecked_unfold s Hd) as HF.
  split; [exact HF|]. split.
  - intros Hq Hfree Hidle Hexec.
    set (s1 := set_current_state_change_ FLUSHING s) in *.
    assert (Hnq : ~ Decode_queues s1).
    { unfold Decode_queues, s1; simpl. intros [H|[H|[H|H]]]; congruence. }
    assert (Hnl : ~ Decode_legal s1).
    { unfold Decode_legal, s1; simpl. intros [_ [H|H]]; congruence. }
    destruct (Decode_queues_or_rejects EOS_sentinel s1) as [_ Hrej].
    destruct (Hrej Hnq Hnl) as (Heq & t & Ht & Hall & _).
    split; [rewrite HF; exact Heq|].
    rewrite (added_same_trace Flush s s1 _ eq_refl HF), Ht, drop_app_length. exact Hall.
  - intros buffer rest h Hq Hfree Hh Hflags Hcs.
    set (s1 := set_current_state_change_ FLUSHING s) in *.
    assert (Hnq : ~ Decode_queues s1).
    { unfold Decode_queues, s1; simpl. intros [H|[H|[H|H]]]; congruence. }
    assert (Hl : Decode_legal s1).
    { unfold Decode_legal, s1; simpl. split; [right; reflexivity | exact Hcs]. }
    destruct (Decode_EOS_fed s1 buffer rest h Hnq Hl Hfree Hh) as [t Ht].
    eexists _, t. split.
    + rewrite (added_same_trace Flush s s1 _ eq_refl HF). exact Ht.
    + simpl. apply has_EOS_set_EOS. exact Hflags.
Qed.

Lemma Flush_unguarded_witness :
  Flush (demo_idle true []) = Crash (demo_idle true []) /\
  Flush (demo_initialized false []) =
    StopOnError ILLEGAL_STATE (set_current_state_change_ FLUSHING (demo_initialized false [])) /\
  (exists e t, added Flush (demo_idle false []) = e :: t /\ feeds_EOS e).
Proof.
  split; [|split].
  - apply (proj1 (Flush_unguarded (demo_idle true []))); [reflexivity|].
    intros [H _]. vm_compute in H. discriminate.
  - apply (proj2 (Flush_unguarded (demo_initialized false [])) eq_refl).
    + reflexivity.
    + vm_compute. discriminate.
    + vm_compute. discriminate.
    + vm_compute. discriminate.
  - apply (proj2 (proj2 (proj2 (Flush_unguarded (demo_idle false [])) eq_refl))
             1%nat [2%nat] (mkHeader 0 0 0 0 AppNull 0 0 0 0)).
    + reflexivity.
    + reflexivity.
    + vm_compute. reflexivity.
    + simpl. lia.
    + left. reflexivity.
Defined.

(** C1 fails as stated: called while the adapter is still initialising (the
    component is idle), in a build without [DCHECK], [Flush] enters FLUSHING
    and feeds the EOS buffer. *)
Lemma Flush_attempted_while_initializing :
  ~ Flush_precondition (demo_idle false []) /\
  current_state_change_ (after Flush (demo_idle false [])) = FLUSHING /\
  Exists feeds_EOS (added Flush (demo_idle false [])) /\
  ~ Flush_rejects_illegal_state (demo_idle false []).
Proof.
  assert (Hpre : ~ Flush_precondition (demo_idle false [])).
  { intros [H _]. vm_compute in H. discriminate. }
  split; [exact Hpre|]. split; [vm_compute; reflexivity|]. split.
  - vm_compute. apply Exists_cons_hd. reflexivity.
  - intros H. destruct (H Hpre) as (_ & _ & Hne). apply Hne. vm_compute. reflexivity.
Qed.


(** ** AssignPictureBuffers *)

(** C9: during RESETTING, DESTROYING or ERRORING [AssignPictureBuffers]
    returns at once and changes nothing, whatever buffers it is given: no
    picture is registered, no command is sent, no error is raised. *)
Theorem AssignPictureBuffers_ignored (buffers : list PictureBuffer) (s : State) :
  current_state_change_ s = RESETTING \/ current_state_change_ s = DESTROYING \/
  current_state_change_ s = ERRORING ->
  AssignPictureBuffers buffers s = Ok tt s /\
  added (AssignPictureBuffers buffers) s = [] /\
  pictures_ (after (AssignPictureBuffers buffers) s) = pictures_ s.
Proof.
  intros H.
  assert (Heq : AssignPictureBuffers buffers s = Ok tt s).
  { unfold AssignPictureBuffers. unfold_prims. simpl.
    replace (csc_is RESETTING s || csc_is DESTROYING s || csc_is ERRORING s) with true;
      [reflexivity|].
    symmetry. rewrite !orb_true_iff, !csc_is_true. tauto. }
  split; [exact Heq|]. unfold added, after. rewrite Heq. simpl.
  split; [apply drop_all | reflexivity].
Qed.

Lemma AssignPictureBuffers_ignored_witness :
  AssignPictureBuffers (replicate 7 (mkPictureBuffer 0 0)) (demo_resetting false []) =
    Ok tt (demo_resetting false []) /\
  added (AssignPictureBuffers (replicate 7 (mkPictureBuffer 0 0))) (demo_resetting false []) = [] /\
  pictures_ (after (AssignPictureBuffers (replicate 7 (mkPictureBuffer 0 0)))
               (demo_resetting false [])) = pictures_ (demo_resetting false []).
Proof.
  apply (AssignPictureBuffers_ignored (replicate 7 (mkPictureBuffer 0 0))
           (demo_resetting false [])).
  left. reflexivity.
Defined.


(** ** The profiles Initialize accepts *)

Lemma MapH264Profile_in_range profile s :
  H264PROFILE_MIN <= profile <= H264PROFILE_MAX ->
  exists avc,
    MapH264ProfileToOMXAVCProfile profile s = Ok avc s /\
    avc <> OMX_VIDEO_AVCProfileMax.
Proof.
  unfold H264PROFILE_MIN, H264PROFILE_MAX. intros H.
  assert (Hc : profile = 0 \/ profile = 1 \/ profile = 2 \/ profile = 3 \/ profile = 4 \/
               profile = 5 \/ profile = 6 \/ profile = 7 \/ profile = 8 \/ profile = 9 \/
               profile = 10) by lia.
  decompose [or] Hc; subst profile; eexists; (split; [reflexivity | discriminate]).
Qed.

(** C10: [Initialize] lets every profile of the H264 range through its
    profile check, the extended, high-bit-depth, scalable, stereo and
    multiview ones included: the codec is set to H264, the profile is mapped
    to a value other than [OMX_VIDEO_AVCProfileMax], [StopOnError] is not
    called and [Initialize] goes on with the rest of its work.  Yet the
    profiles [GetSupportedProfiles] reports are Baseline, Main, High and VP8
    only. *)
Theorem Initialize_accepts_H264_range (profile : Z) (client : bool) (s : State) :
  H264PROFILE_MIN <= profile <= H264PROFILE_MAX ->
  (exists avc,
     avc <> OMX_VIDEO_AVCProfileMax /\
     Initialize_profile profile s = Ok true (set_h264_profile_ avc (set_codec_ H264 s)) /\
     Initialize profile client s =
       Initialize_rest client (set_h264_profile_ avc (set_codec_ H264 s))) /\
  map sp_profile GetSupportedProfiles =
    [H264PROFILE_BASELINE; H264PROFILE_MAIN; H264PROFILE_HIGH; VP8PROFILE_ANY] /\
  (profile <> H264PROFILE_BASELINE -> profile <> H264PROFILE_MAIN ->
   profile <> H264PROFILE_HIGH -> profile ∉ map sp_profile GetSupportedProfiles).
Proof.
  intros Hr. split; [|split].
  - destruct (MapH264Profile_in_range profile (set_codec_ H264 s) Hr) as (avc & Hmap & Hne).
    exists avc. split; [exact Hne|].
    assert (Hp : Initialize_profile profile s =
                 Ok true (set_h264_profile_ avc (set_codec_ H264 s))).
    { unfold Initialize_profile, RETURN_ON_FAILURE.
      replace ((H264PROFILE_MIN <=? profile) && (profile <=? H264PROFILE_MAX)) with true
        by (symmetry; apply andb_true_iff; split; apply Z.leb_le; lia).
      unfold_prims. simpl. rewrite Hmap. simpl.
      replace (avc =? OMX_VIDEO_AVCProfileMax) with false
        by (symmetry; apply Z.eqb_neq; exact Hne).
      reflexivity. }
    split; [exact Hp|].
    unfold Initialize. rewrite (bind_Ok _ _ _ _ _ Hp). reflexivity.
  - reflexivity.
  - intros H1 H2 H3 Hin. simpl in Hin.
    unfold H264PROFILE_MIN, H264PROFILE_MAX, H264PROFILE_BASELINE, H264PROFILE_MAIN,
      H264PROFILE_HIGH, VP8PROFILE_ANY in *.
    rewrite !elem_of_cons, elem_of_nil in Hin. lia.
Qed.

Lemma Initialize_accepts_H264_range_witness :
  (exists avc,
     avc <> OMX_VIDEO_AVCProfileMax /\
     Initialize_profile H264PROFILE_STEREOHIGH (demo_start false []) =
       Ok true (set_h264_profile_ avc (set_codec_ H264 (demo_start false []))) /\
     Initialize H264PROFILE_STEREOHIGH true (demo_start false []) =
       Initialize_rest true (set_h264_profile_ avc (set_codec_ H264 (demo_start false [])))) /\
  H264PROFILE_STEREOHIGH ∉ map sp_profile GetSupportedProfiles.
Proof.
  destruct (Initialize_accepts_H264_range H264PROFILE_STEREOHIGH true (demo_start false []))
    as (H1 & _ & H3).
  - unfold H264PROFILE_MIN, H264PROFILE_STEREOHIGH, H264PROFILE_MAX. lia.
  - split; [exact H1|]. apply H3; discriminate.
Defined.


(** ** Properties kept by every member function

    [I] is a property of the state that looks at the trace, at [client_] and
    at [client_ptr_factory_] only.  If it tolerates the events that do not
    go to the client, the client calls in [allowed] while the client is
    there, and the way [StopOnError] tells the client and drops it, then
    every member function keeps it, also when the process stops inside. *)
Create HintDb pres.

Section Preservation.

Variable I : State -> Prop.
Variable allowed : ClientCall -> Prop.

Hypothesis I_fields : forall s s',
  trace s' = trace s -> client_ s' = client_ s ->
  client_ptr_factory_ s' = client_ptr_factory_ s ->
  dcheck_is_on s' = dcheck_is_on s ->
  current_state_change_ s' = current_state_change_ s ->
  client_state_ s' = client_state_ s ->
  free_input_buffers_ s' = free_input_buffers_ s ->
  input_buffers_at_component_ s' = input_buffers_at_component_ s ->
  input_buffer_count_ s' = input_buffer_count_ s ->
  I s -> I s'.
Hypothesis I_erroring : forall s, I s -> I (set_current_state_change_ ERRORING s).
Hypothesis I_quiet : forall s e,
  (forall c, e <> EvClient c) -> I s -> I (set_trace (trace s ++ [e]) s).
Hypothesis I_call : forall s c,
  allowed c -> client_ s = true -> I s -> I (set_trace (trace s ++ [EvClient c]) s).
Hypothesis I_invalidate : forall s,
  client_ptr_factory_ s = true -> I s -> I (set_client_ false s).
Hypothesis I_error : forall s e,
  client_ s = true -> client_ptr_factory_ s = true -> I s ->
  I (set_client_ false (set_trace (trace s ++ [EvClient (NotifyError e)]) s)).
Hypothesis I_error_crash : forall s e,
  client_ s = true -> client_ptr_factory_ s = false -> I s ->
  I (set_trace (trace s ++ [EvClient (NotifyError e)]) s).
Hypothesis allowed_other : forall c,
  (forall p, c <> PictureReady p) -> (forall e, c <> NotifyError e) -> allowed c.


Lemma I_same s s' :
  I s -> trace s' = trace s -> client_ s' = client_ s ->
  client_ptr_factory_ s' = client_ptr_factory_ s ->
  dcheck_is_on s' = dcheck_is_on s ->
  current_state_change_ s' = current_state_change_ s ->
  client_state_ s' = client_state_ s ->
  free_input_buffers_ s' = free_input_buffers_ s ->
  input_buffers_at_component_ s' = input_buffers_at_component_ s ->
  input_buffer_count_ s' = input_buffer_count_ s -> I s'.
Proof. eauto. Qed.

Lemma preserves_ret {A} (a : A) : preserves I (ret a).
Proof. intros s H. exact H. Qed.

Lemma preserves_crash {A} : preserves I (@crash A).
Proof. intros s H. exact H. Qed.

Lemma preserves_bind {A B} (m : M A) (k : A -> M B) :
  preserves I m -> (forall a, preserves I (k a)) -> preserves I (bind m k).
Proof.
  intros Hm Hk s H. unfold bind. specialize (Hm s H).
  destruct (m s) as [a s'|s']; simpl in *; [apply Hk; exact Hm | exact Hm].
Qed.

Lemma preserves_get : preserves I get.
Proof. intros s H. exact H. Qed.

Lemma preserves_modify (f : State -> State) :
  (forall s, I s -> I (f s)) -> preserves I (modify f).
Proof. intros Hf s H. simpl. auto. Qed.

Lemma preserves_emit e : (forall c, e <> EvClient c) -> preserves I (emit e).
Proof. intros He s H. simpl. apply I_quiet; assumption. Qed.

Lemma preserves_ask : preserves I ask.
Proof.
  intros s H. unfold ask. destruct (env_results s); simpl; [exact H|].
  apply (I_same s); [exact H|reflexivity..].
Qed.

Lemma preserves_omx c : preserves I (omx c).
Proof.
  apply preserves_bind; [apply preserves_emit; discriminate | intros; apply preserves_ask].
Qed.

Lemma preserves_sys c : preserves I (sys c).
Proof.
  apply preserves_bind; [apply preserves_emit; discriminate | intros; apply preserves_ask].
Qed.

Lemma preserves_DCHECK c : preserves I (DCHECK c).
Proof. intros s H. unfold DCHECK, bind, get. destruct (_ && _); exact H. Qed.

Lemma preserves_CHECK c : preserves I (CHECK c).
Proof. intros s H. unfold CHECK. destruct c; exact H. Qed.

Lemma preserves_when c m : preserves I m -> preserves I (when c m).
Proof. intros Hm. destruct c; [exact Hm | apply preserves_ret]. Qed.

Lemma preserves_client_call c : allowed c -> preserves I (client_call c).
Proof.
  intros Hc s H. unfold client_call, bind, get.
  destruct (client_ s) eqn:E; simpl; [apply I_call; assumption | exact H].
Qed.

Lemma preserves_notify c : allowed c -> preserves I (notify c).
Proof.
  intros Hc s H. unfold notify, bind, get, when.
  destruct (client_ s); [apply preserves_client_call; assumption | exact H].
Qed.

Lemma preserves_InvalidateWeakPtrs : preserves I InvalidateWeakPtrs.
Proof.
  intros s H. unfold InvalidateWeakPtrs, bind, get.
  destruct (client_ptr_factory_ s) eqn:E; simpl; [apply I_invalidate; assumption | exact H].
Qed.

Lemma preserves_header_at buffer : preserves I (header_at buffer).
Proof. intros s H. unfold header_at, bind, get. destruct (_ !! _); exact H. Qed.

Lemma preserves_update_header buffer f : preserves I (update_header buffer f).
Proof.
  apply preserves_bind; [apply preserves_header_at|].
  intros h. apply preserves_modify. intros s H. apply (I_same s); [exact H|reflexivity..].
Qed.

Lemma preserves_for_each {A R} (l : list A) (body : A -> M (option R)) :
  (forall x, preserves I (body x)) -> preserves I (for_each l body).
Proof.
  intros Hb. induction l as [|x l IH]; simpl; [apply preserves_ret|].
  apply preserves_bind; [apply Hb|]. intros [v|]; [apply preserves_ret | exact IH].
Qed.

Lemma preserves_fold_each {A B} (l : list A) (body : B -> A -> M B) :
  (forall b x, preserves I (body b x)) -> forall b, preserves I (fold_each l body b).
Proof.
  intros Hb. induction l as [|x l IH]; intros b; simpl; [apply preserves_ret|].
  apply preserves_bind; [apply Hb | intros b'; apply IH].
Qed.

Lemma I_requests s n :
  I s -> I (set_trace (trace s ++ replicate n invalid_request) s).
Proof.
  intros H. induction n as [|n IHn].
  - simpl. rewrite app_nil_r. apply (I_same s); [exact H|reflexivity..].
  - rewrite replicate_S_end, app_assoc.
    eapply I_same;
      [apply I_quiet with (e := invalid_request); [discriminate|exact IHn]
      |reflexivity..].
Qed.

Lemma preserves_StopOnError error : preserves I (StopOnError error).
Proof.
  intros s H. rewrite StopOnError_closed_form. unfold StopOnError_outcome, stop_events.
  destruct (csc_is ERRORING s); [exact H|].
  assert (H1 : client_ptr_factory_ s = true ->
               I (set_client_ false
                    (set_trace (trace s ++
                       (if client_ s && init_begun_ s
                        then [EvClient (NotifyError error)] else [])) s))).
  { intros Hf. destruct (client_ s) eqn:Hc; simpl.
    - destruct (init_begun_ s); simpl.
      + apply I_error; assumption.
      + rewrite app_nil_r. eapply I_same; [apply I_invalidate; eassumption|reflexivity..].
    - rewrite app_nil_r. eapply I_same; [apply I_invalidate; eassumption|reflexivity..]. }
  destruct (client_ptr_factory_ s) eqn:Hf; simpl.
  - specialize (H1 eq_refl).
    destruct (cs_is OMX_StateInvalid s || cs_is OMX_StateMax s); simpl; [exact H1|].
    eapply I_same;
      [apply I_erroring; exact (I_requests _ (S (failures (env_results s))) H1)
      |simpl; try reflexivity..].
  - destruct (client_ s) eqn:Hc; simpl.
    + destruct (init_begun_ s); simpl.
      * apply I_error_crash; assumption.
      * rewrite app_nil_r. apply (I_same s); [exact H|reflexivity..].
    + rewrite app_nil_r. apply (I_same s); [exact H|reflexivity..].
Qed.


Lemma preserves_RETURN_ON_FAILURE {A} result error (ret_val : A) rest :
  preserves I rest -> preserves I (RETURN_ON_FAILURE result error ret_val rest).
Proof.
  intros Hr. unfold RETURN_ON_FAILURE. destruct result; [exact Hr|].
  apply preserves_bind; [apply preserves_StopOnError | intros; apply preserves_ret].
Qed.

Lemma preserves_NOTREACHED : preserves I NOTREACHED.
Proof. apply preserves_DCHECK. Qed.

(** The proof of a member function follows its text. *)
Ltac pres_gen extra :=
  repeat (intros;
    lazymatch goal with
    | |- preserves I (ret _) => apply preserves_ret
    | |- preserves I crash => apply preserves_crash
    | |- preserves I (bind _ _) => apply preserves_bind
    | |- preserves I get => apply preserves_get
    | |- preserves I (modify _) =>
        apply preserves_modify;
        let s := fresh "s" in let H := fresh "H" in
        intros s H; first [ apply (I_same s); [exact H|reflexivity..] | extra s H ]
    | |- preserves I (emit _) => apply preserves_emit; discriminate
    | |- preserves I ask => apply preserves_ask
    | |- preserves I (omx _) => apply preserves_omx
    | |- preserves I (sys _) => apply preserves_sys
    | |- preserves I (DCHECK _) => apply preserves_DCHECK
    | |- preserves I NOTREACHED => apply preserves_NOTREACHED
    | |- preserves I (CHECK _) => apply preserves_CHECK
    | |- preserves I (when _ _) => apply preserves_when
    | |- preserves I (client_call _) =>
        apply preserves_client_call;
        first [ solve [auto] | apply allowed_other; intros; discriminate ]
    | |- preserves I (notify _) =>
        apply preserves_notify;
        first [ solve [auto] | apply allowed_other; intros; discriminate ]
    | |- preserves I InvalidateWeakPtrs => apply preserves_InvalidateWeakPtrs
    | |- preserves I (header_at _) => apply preserves_header_at
    | |- preserves I (update_header _ _) => apply preserves_update_header
    | |- preserves I (for_each _ _) => apply preserves_for_each
    | |- preserves I (fold_each _ _ _) => apply preserves_fold_each
    | |- preserves I (StopOnError _) => apply preserves_StopOnError
    | |- preserves I (RETURN_ON_FAILURE _ _ _ _) => apply preserves_RETURN_ON_FAILURE
    | |- preserves I (RETURN_ON_OMX_FAILURE _ _ _ _) => apply preserves_RETURN_ON_FAILURE
    | |- preserves I (let _ := _ in _) => cbv zeta
    | |- preserves I (if ?b then _ else _) => destruct b
    | |- preserves I (match ?x with _ => _ end) => destruct x
    | |- preserves I _ => solve [eauto with pres]
    end).

Ltac pres := pres_gen ltac:(fun s H => fail).

Lemma preserves_BeginTransitionToState new_state :
  preserves I (BeginTransitionToState new_state).
Proof. unfold BeginTransitionToState, BeginTransitionToState_with. pres. Qed.
#[local] Hint Resolve preserves_BeginTransitionToState : pres.

Lemma preserves_CanFillBuffer : preserves I CanFillBuffer.
Proof. unfold CanFillBuffer. pres. Qed.
#[local] Hint Resolve preserves_CanFillBuffer : pres.

Lemma preserves_SendCommandToPort cmd port : preserves I (SendCommandToPort cmd port).
Proof. unfold SendCommandToPort. pres. Qed.
#[local] Hint Resolve preserves_SendCommandToPort : pres.

Lemma preserves_new_header call : preserves I (new_header call).
Proof. unfold new_header. pres. Qed.
#[local] Hint Resolve preserves_new_header : pres.

Lemma preserves_free_header port buffer : preserves I (free_header port buffer).
Proof. unfold free_header. pres. Qed.
#[local] Hint Resolve preserves_free_header : pres.

Lemma preserves_Destructor : preserves I Destructor.
Proof. unfold Destructor. pres. Qed.
#[local] Hint Resolve preserves_Destructor : pres.

Lemma preserves_AllocateOutputBuffers : preserves I AllocateOutputBuffers.
Proof. unfold AllocateOutputBuffers. pres. Qed.
#[local] Hint Resolve preserves_AllocateOutputBuffers : pres.

Lemma preserves_AssignPictureBuffers buffers : preserves I (AssignPictureBuffers buffers).
Proof. unfold AssignPictureBuffers. pres. Qed.
#[local] Hint Resolve preserves_AssignPictureBuffers : pres.

Lemma preserves_QueuePictureBuffer id : preserves I (QueuePictureBuffer id).
Proof. unfold QueuePictureBuffer. pres. Qed.
#[local] Hint Resolve preserves_QueuePictureBuffer : pres.

Lemma preserves_IsSynced : preserves I IsSynced.
Proof. unfold IsSynced. pres. Qed.
#[local] Hint Resolve preserves_IsSynced : pres.

Lemma preserves_CheckPictureStatus id : preserves I (CheckPictureStatus id).
Proof. unfold CheckPictureStatus. pres. Qed.
#[local] Hint Resolve preserves_CheckPictureStatus : pres.

Lemma preserves_ReusePictureBuffer id : preserves I (ReusePictureBuffer id).
Proof. unfold ReusePictureBuffer. pres. Qed.
#[local] Hint Resolve preserves_ReusePictureBuffer : pres.

Lemma preserves_FlushIOPorts : preserves I FlushIOPorts.
Proof. unfold FlushIOPorts. pres. Qed.
#[local] Hint Resolve preserves_FlushIOPorts : pres.

Lemma preserves_InputPortFlushDone : preserves I InputPortFlushDone.
Proof. unfold InputPortFlushDone. pres. Qed.
#[local] Hint Resolve preserves_InputPortFlushDone : pres.

Lemma preserves_OutputPortFlushDone : preserves I OutputPortFlushDone.
Proof. unfold OutputPortFlushDone. pres. Qed.
#[local] Hint Resolve preserves_OutputPortFlushDone : pres.

Lemma preserves_BusyLoopInDestroying : preserves I BusyLoopInDestroying.
Proof. unfold BusyLoopInDestroying. pres. Qed.
#[local] Hint Resolve preserves_BusyLoopInDestroying : pres.

Lemma preserves_reuse_queued_from turns : forall i, preserves I (reuse_queued_from turns i).
Proof.
  induction turns as [|turns IH]; intros i; simpl; pres.
Qed.
#[local] Hint Resolve preserves_reuse_queued_from : pres.

Lemma preserves_OnOutputPortDisabled : preserves I OnOutputPortDisabled.
Proof. unfold OnOutputPortDisabled. pres. Qed.
#[local] Hint Resolve preserves_OnOutputPortDisabled : pres.

Lemma preserves_OnOutputPortEnabled : preserves I OnOutputPortEnabled.
Proof. unfold OnOutputPortEnabled. pres. Qed.
#[local] Hint Resolve preserves_OnOutputPortEnabled : pres.

Lemma preserves_engine_fills buffer flags time_stamp :
  preserves I (engine_fills buffer flags time_stamp).
Proof.
  unfold engine_fills. apply preserves_modify. intros s H.
  destruct (headers s !! buffer); [|exact H]. apply (I_same s); [exact H|reflexivity..].
Qed.
#[local] Hint Resolve preserves_engine_fills : pres.

(** The functions below take buffers from [free_input_buffers_], count them
    in [input_buffers_at_component_] or set the two state members: [I] has
    to tolerate that. *)
Hypothesis I_free : forall s v, I s -> I (set_free_input_buffers_ v s).

Ltac pres_free := pres_gen ltac:(fun s H => apply I_free; exact H).

Lemma preserves_FreeOMXBuffers : preserves I FreeOMXBuffers.
Proof. unfold FreeOMXBuffers. pres_free. Qed.
#[local] Hint Resolve preserves_FreeOMXBuffers : pres.

Hypothesis I_at : forall s v, I s -> I (set_input_buffers_at_component_ v s).
Hypothesis I_csc : forall s v, I s -> I (set_current_state_change_ v s).
Hypothesis I_cs : forall s v, I s -> I (set_client_state_ v s).

Ltac pres_all :=
  pres_gen ltac:(fun s H =>
    first [ apply I_free | apply I_at | apply I_csc | apply I_cs ]; exact H).

Lemma preserves_ShutdownComponent : preserves I ShutdownComponent.
Proof. unfold ShutdownComponent. pres_all. Qed.
#[local] Hint Resolve preserves_ShutdownComponent : pres.

Lemma preserves_Decode b : preserves I (Decode b).
Proof. unfold Decode. pres_all. Qed.
#[local] Hint Resolve preserves_Decode : pres.

Lemma preserves_Flush : preserves I Flush.
Proof. unfold Flush. pres_all. Qed.
#[local] Hint Resolve preserves_Flush : pres.

Lemma preserves_OnReachedEOSInFlushing : preserves I OnReachedEOSInFlushing.
Proof. unfold OnReachedEOSInFlushing. pres_all. Qed.
#[local] Hint Resolve preserves_OnReachedEOSInFlushing : pres.

Lemma preserves_DecodeQueuedBitstreamBuffers : preserves I DecodeQueuedBitstreamBuffers.
Proof. unfold DecodeQueuedBitstreamBuffers. pres_all. Qed.
#[local] Hint Resolve preserves_DecodeQueuedBitstreamBuffers : pres.

Lemma preserves_Reset : preserves I Reset.
Proof. unfold Reset. pres_all. Qed.
#[local] Hint Resolve preserves_Reset : pres.

Lemma preserves_Destroy : preserves I Destroy.
Proof. unfold Destroy. pres_all. Qed.
#[local] Hint Resolve preserves_Destroy : pres.

Lemma preserves_OnReachedIdleInInitializing : preserves I OnReachedIdleInInitializing.
Proof. unfold OnReachedIdleInInitializing. pres_all. Qed.
#[local] Hint Resolve preserves_OnReachedIdleInInitializing : pres.

Lemma preserves_OnReachedExecutingInInitializing :
  preserves I OnReachedExecutingInInitializing.
Proof. unfold OnReachedExecutingInInitializing. pres_all. Qed.
#[local] Hint Resolve preserves_OnReachedExecutingInInitializing : pres.

Lemma preserves_OnReachedPauseInResetting : preserves I OnReachedPauseInResetting.
Proof. unfold OnReachedPauseInResetting. pres_all. Qed.
#[local] Hint Resolve preserves_OnReachedPauseInResetting : pres.

Lemma preserves_OnReachedExecutingInResetting : preserves I OnReachedExecutingInResetting.
Proof. unfold OnReachedExecutingInResetting. pres_all. Qed.
#[local] Hint Resolve preserves_OnReachedExecutingInResetting : pres.

Lemma preserves_OnReachedIdleInDestroying : preserves I OnReachedIdleInDestroying.
Proof. unfold OnReachedIdleInDestroying. pres_all. Qed.
#[local] Hint Resolve preserves_OnReachedIdleInDestroying : pres.

Lemma preserves_OnReachedLoadedInDestroying : preserves I OnReachedLoadedInDestroying.
Proof. unfold OnReachedLoadedInDestroying. pres_all. Qed.
#[local] Hint Resolve preserves_OnReachedLoadedInDestroying : pres.

Lemma preserves_OnReachedInvalidInErroring : preserves I OnReachedInvalidInErroring.
Proof. unfold OnReachedInvalidInErroring. pres_all. Qed.
#[local] Hint Resolve preserves_OnReachedInvalidInErroring : pres.

(** The picture given to the client carries the time stamp of the header. *)
Lemma preserves_FillBufferDoneTask_on buffer h :
  (forall p, allowed (PictureReady (set_bitstream_buffer_id (nTimeStamp h) p))) ->
  preserves I (FillBufferDoneTask_on buffer h).
Proof. intros Hp. unfold FillBufferDoneTask_on. pres_all. Qed.

Lemma preserves_FillBufferDoneTask buffer :
  (forall p, allowed (PictureReady p)) -> preserves I (FillBufferDoneTask buffer).
Proof.
  intros Hp. unfold FillBufferDoneTask.
  apply preserves_bind; [apply preserves_header_at|].
  intros h. apply preserves_FillBufferDoneTask_on. auto.
Qed.

Lemma preserves_EmptyBufferDoneTask buffer : preserves I (EmptyBufferDoneTask buffer).
Proof. unfold EmptyBufferDoneTask. pres_all. Qed.
#[local] Hint Resolve preserves_EmptyBufferDoneTask : pres.

Lemma preserves_DispatchStateReached reached : preserves I (DispatchStateReached reached).
Proof. unfold DispatchStateReached. pres_all. Qed.
#[local] Hint Resolve preserves_DispatchStateReached : pres.

Lemma preserves_EventHandlerCompleteTask event data1 data2 :
  preserves I (EventHandlerCompleteTask event data1 data2).
Proof. unfold EventHandlerCompleteTask. pres_all. Qed.
#[local] Hint Resolve preserves_EventHandlerCompleteTask : pres.

(** Construction and initialisation, up to the assignment of [client_]. *)
Hypothesis I_count : forall s v, I s -> I (set_input_buffer_count_ v s).

Ltac pres_init :=
  pres_gen ltac:(fun s H =>
    first [ apply I_free | apply I_at | apply I_csc | apply I_cs | apply I_count ];
    exact H).

Lemma preserves_Constructor : preserves I Constructor.
Proof. unfold Constructor, PostSandboxInitialization. pres_init. Qed.

Lemma preserves_Initialize_profile profile : preserves I (Initialize_profile profile).
Proof. unfold Initialize_profile, MapH264ProfileToOMXAVCProfile. pres_init. Qed.

Lemma preserves_CreateComponent : preserves I CreateComponent.
Proof. unfold CreateComponent. pres_init. Qed.
#[local] Hint Resolve preserves_CreateComponent : pres.

Lemma preserves_AllocateInputBuffers : preserves I AllocateInputBuffers.
Proof. unfold AllocateInputBuffers. pres_init. Qed.
#[local] Hint Resolve preserves_AllocateInputBuffers : pres.

Lemma preserves_AllocateFakeOutputBuffers : preserves I AllocateFakeOutputBuffers.
Proof. unfold AllocateFakeOutputBuffers. pres_init. Qed.
#[local] Hint Resolve preserves_AllocateFakeOutputBuffers : pres.

Lemma preserves_Initialize_component : preserves I Initialize_component.
Proof. unfold Initialize_component. pres_init. Qed.

(** Every operation but the return of an output buffer keeps [I]; that
    one needs [PictureReady] to be allowed. *)
Lemma preserves_step op :
  (forall buffer flags time_stamp, op = TaskFillBufferDone buffer flags time_stamp ->
     forall p, allowed (PictureReady p)) ->
  preserves I (step op).
Proof.
  intros Hop. unfold step, run_op.
  destruct op; pres_all.
  intros. apply preserves_FillBufferDoneTask. eapply Hop. reflexivity.
Qed.

Lemma preserves_run ops :
  (forall p, allowed (PictureReady p)) -> preserves I (run ops).
Proof.
  intros Hp. induction ops as [|op ops IH]; simpl; [apply preserves_ret|].
  apply preserves_bind; [apply preserves_step; auto | intros; exact IH].
Qed.

End Preservation.


(** ** After the client is gone *)

(** [silenced] is kept by everything the adapter does. *)
Lemma silenced_fields t0 s s' :
  trace s' = trace s -> client_ s' = client_ s ->
  client_ptr_factory_ s' = client_ptr_factory_ s ->
  dcheck_is_on s' = dcheck_is_on s ->
  current_state_change_ s' = current_state_change_ s ->
  client_state_ s' = client_state_ s ->
  free_input_buffers_ s' = free_input_buffers_ s ->
  input_buffers_at_component_ s' = input_buffers_at_component_ s ->
  input_buffer_count_ s' = input_buffer_count_ s ->
  silenced t0 s -> silenced t0 s'.
Proof. unfold silenced. intros Ht Hc _ _ _ _ _ _ _ [H1 H2]. rewrite Ht, Hc. tauto. Qed.

Lemma silenced_quiet t0 s e :
  (forall c, e <> EvClient c) -> silenced t0 s ->
  silenced t0 (set_trace (trace s ++ [e]) s).
Proof.
  unfold silenced. intros He [H1 (t & Ht & Hn)]. simpl. split; [exact H1|].
  exists (t ++ [e]). rewrite Ht, app_assoc. split; [reflexivity|].
  rewrite client_calls_app, Hn. destruct e; simpl; try reflexivity.
  exfalso. eapply He. reflexivity.
Qed.

Lemma silenced_step t0 op s : silenced t0 s -> silenced t0 (final (step op s)).
Proof.
  apply preserves_step with (I := silenced t0) (allowed := fun _ => True);
    first [ exact (silenced_fields t0) | exact (silenced_quiet t0) | tauto
          | unfold silenced; simpl; intros; intuition congruence ].
Qed.

Lemma silenced_run t0 ops : forall s, silenced t0 s -> silenced t0 (final (run ops s)).
Proof.
  induction ops as [|op ops IH]; intros s H; simpl; [exact H|].
  rewrite final_bind. pose proof (silenced_step t0 op s H) as Hs.
  destruct (step op s) as [[] s'|s']; simpl in *; [apply IH; exact Hs | exact Hs].
Qed.

Lemma silenced_Destroy_rest t0 s : silenced t0 s -> silenced t0 (final (Destroy s)).
Proof.
  apply preserves_Destroy with (I := silenced t0);
    first [ exact (silenced_fields t0) | exact (silenced_quiet t0) | tauto
          | unfold silenced; simpl; intros; intuition congruence ].
Qed.

(** [Destroy] starts by dropping the client. *)
Lemma InvalidateWeakPtrs_Ok s :
  client_ptr_factory_ s = true -> InvalidateWeakPtrs s = Ok tt (set_client_ false s).
Proof. intros Hf. unfold InvalidateWeakPtrs, bind, get, modify. rewrite Hf. reflexivity. Qed.

Lemma Destroy_drops_client s :
  client_ptr_factory_ s = true -> Destroy s = Destroy (set_client_ false s).
Proof.
  intros Hf. unfold Destroy.
  rewrite (bind_Ok _ _ s tt (set_client_ false s)) by (apply InvalidateWeakPtrs_Ok; exact Hf).
  rewrite (bind_Ok _ _ (set_client_ false s) tt (set_client_ false s)); [reflexivity|].
  rewrite InvalidateWeakPtrs_Ok by exact Hf. f_equal.
Qed.

Lemma Destroy_returns_factory s s' : Destroy s = Ok tt s' -> client_ptr_factory_ s = true.
Proof.
  unfold Destroy, InvalidateWeakPtrs. unfold bind at 1. unfold bind at 1. unfold get at 1.
  destruct (client_ptr_factory_ s); [reflexivity|]. simpl. discriminate.
Qed.

(** Once [Destroy] has returned, whatever the client and the
    component do next, the trace grows by events that are not calls to the
    client; [Destroy] itself makes none either. *)
Lemma Destroy_silences s s' ops :
  Destroy s = Ok tt s' ->
  exists t, trace (final (run ops s')) = trace s ++ t /\ client_calls t = [].
Proof.
  intros HD. pose proof (Destroy_returns_factory s s' HD) as Hf.
  assert (H0 : silenced (trace s) (set_client_ false s)).
  { split; [reflexivity|]. exists []. simpl. rewrite app_nil_r. split; reflexivity. }
  apply silenced_Destroy_rest in H0. rewrite <- Destroy_drops_client, HD in H0 by exact Hf.
  simpl in H0. apply (silenced_run _ ops) in H0. destruct H0 as [_ H0]. exact H0.
Qed.


(** ** NotifyError and ERRORING *)

(** [error_once] is kept by everything the adapter does. *)
Lemma error_once_fields s s' :
  trace s' = trace s -> client_ s' = client_ s ->
  client_ptr_factory_ s' = client_ptr_factory_ s ->
  dcheck_is_on s' = dcheck_is_on s ->
  current_state_change_ s' = current_state_change_ s ->
  client_state_ s' = client_state_ s ->
  free_input_buffers_ s' = free_input_buffers_ s ->
  input_buffers_at_component_ s' = input_buffers_at_component_ s ->
  input_buffer_count_ s' = input_buffer_count_ s ->
  error_once s -> error_once s'.
Proof. unfold error_once. intros Ht Hc Hf _ _ _ _ _ _ H. rewrite Ht, Hc, Hf. exact H. Qed.

Lemma error_once_quiet s e :
  (forall c, e <> EvClient c) -> error_once s ->
  error_once (set_trace (trace s ++ [e]) s).
Proof.
  unfold error_once. intros He H. simpl. rewrite errors_notified_app.
  replace (errors_notified [e]) with O; [rewrite Nat.add_0_r; exact H|].
  destruct e as [|c|]; try reflexivity. exfalso. eapply He. reflexivity.
Qed.

Lemma error_once_call s c :
  (forall e, c <> NotifyError e) -> client_ s = true -> error_once s ->
  error_once (set_trace (trace s ++ [EvClient c]) s).
Proof.
  unfold error_once. intros Hc Hcl H. simpl. rewrite errors_notified_app.
  replace (errors_notified [EvClient c]) with O; [rewrite Nat.add_0_r; exact H|].
  destruct c; try reflexivity. exfalso. eapply Hc. reflexivity.
Qed.

Lemma error_once_error s e :
  client_ s = true -> client_ptr_factory_ s = true -> error_once s ->
  error_once (set_client_ false (set_trace (trace s ++ [EvClient (NotifyError e)]) s)).
Proof.
  unfold error_once. intros Hcl Hf [H1 H2]. simpl. rewrite errors_notified_app. simpl.
  destruct (H2 Hcl) as [-> _]. split; [lia | discriminate].
Qed.

Ltac error_once_side :=
  first [ exact error_once_fields | exact error_once_quiet | exact error_once_call
        | exact error_once_error
        | unfold error_once; simpl; intros; intuition congruence ].

Lemma error_once_step op s : error_once s -> error_once (final (step op s)).
Proof.
  apply preserves_step with (I := error_once) (allowed := fun c => forall e, c <> NotifyError e);
    first [ error_once_side | intros; discriminate ].
Qed.

Lemma silenced_no_errors s : silenced [] s -> errors_notified (trace s) = O.
Proof.
  unfold silenced. intros [Hc (t & Ht & Hn)]. simpl in Ht. subst t.
  induction (trace s) as [|[|c|] t IH]; simpl in *; auto. discriminate.
Qed.

Lemma silenced_error_once s : silenced [] s -> error_once s.
Proof.
  intros H. pose proof (silenced_no_errors s H) as H0. destruct H as [Hc _].
  unfold error_once. rewrite H0, Hc. split; [lia | discriminate].
Qed.

Ltac silenced_side t0 :=
  first [ exact (silenced_fields t0) | exact (silenced_quiet t0) | tauto
        | unfold silenced; simpl; intros; intuition congruence ].

Lemma silenced_Constructor t0 s : silenced t0 s -> silenced t0 (final (Constructor s)).
Proof. apply preserves_Constructor with (I := silenced t0); silenced_side t0. Qed.

Lemma error_once_Initialize profile client s :
  silenced [] s -> error_once (final (Initialize profile client s)).
Proof.
  intros H0. unfold Initialize. rewrite final_bind.
  assert (H1 : silenced [] (final (Initialize_profile profile s))).
  { revert H0. apply preserves_Initialize_profile with (I := silenced []); silenced_side (@nil Event). }
  destruct (Initialize_profile profile s) as [accepted s1|s1]; simpl in H1;
    [|apply silenced_error_once; exact H1].
  destruct accepted; [|apply silenced_error_once; exact H1].
  unfold Initialize_rest. rewrite final_bind.
  assert (H2 : silenced [] (final (sys MakeContextCurrent s1))).
  { revert H1. apply preserves_sys with (I := silenced []); silenced_side (@nil Event). }
  destruct (sys MakeContextCurrent s1) as [context_ok s2|s2]; simpl in H2;
    [|apply silenced_error_once; exact H2].
  unfold RETURN_ON_FAILURE. destruct context_ok.
  - unfold modify at 1 2. unfold bind at 1 2. simpl.
    apply preserves_Initialize_component with (I := error_once); try error_once_side.
    apply silenced_no_errors in H2. unfold error_once. simpl. rewrite H2.
    split; [lia | intros _; split; reflexivity].
  - rewrite final_bind.
    assert (H3 : silenced [] (final (StopOnError PLATFORM_FAILURE s2))).
    { revert H2. apply preserves_StopOnError with (I := silenced []); silenced_side (@nil Event). }
    destruct (StopOnError PLATFORM_FAILURE s2) as [[] s3|s3]; simpl in *;
      apply silenced_error_once; exact H3.
Qed.

Lemma silenced_initial dcheck answers eng egl_display pre :
  silenced [] (initial_state dcheck answers eng egl_display pre).
Proof. split; [reflexivity|]. exists []. split; reflexivity. Qed.

Lemma reachable_error_once s : reachable s -> error_once s.
Proof.
  induction 1 as [dcheck answers eng egl pre s HC
                 |dcheck answers eng egl pre profile client s0 b s HC HI
                 |s op s' Hr IH Hs].
  - apply silenced_error_once.
    pose proof (silenced_Constructor [] _ (silenced_initial dcheck answers eng egl pre)) as H.
    rewrite HC in H. exact H.
  - pose proof (silenced_Constructor [] _ (silenced_initial dcheck answers eng egl pre)) as H.
    rewrite HC in H. simpl in H.
    pose proof (error_once_Initialize profile client s0 H) as H'.
    rewrite HI in H'. exact H'.
  - pose proof (error_once_step op s IH) as H. rewrite Hs in H. exact H.
Qed.

(** At most one [NotifyError] in every run, also one that ends by the
    process stopping inside an operation. *)
Lemma NotifyError_once s :
  reachable s ->
  (errors_notified (trace s) <= 1)%nat /\
  forall op, (errors_notified (trace (final (step op s))) <= 1)%nat.
Proof.
  intros Hr. pose proof (reachable_error_once s Hr) as H. split; [apply H|].
  intros op. apply (error_once_step op s H).
Qed.

Lemma error_once_StopOnError error s : error_once s -> error_once (final (StopOnError error s)).
Proof.
  intros H.
  apply preserves_StopOnError with (I := error_once); try error_once_side.
  exact H.
Qed.

Ltac erroring_side :=
  solve [ intros; unfold erroring in *; simpl in *;
          first [ assumption | reflexivity | congruence | exact Logic.I ] ].

Ltac erroring_call :=
  lazymatch goal with
  | |- wp ?m _ _ _ =>
      eapply wp_mono;
      [ apply wp_final;
        first
          [ eapply preserves_Decode with (I := erroring)
          | eapply preserves_EmptyBufferDoneTask with (I := erroring) (allowed := fun _ => True)
          | eapply preserves_ReusePictureBuffer with (I := erroring)
          | eapply preserves_AssignPictureBuffers with (I := erroring)
          | eapply preserves_CheckPictureStatus with (I := erroring)
          | eapply preserves_BusyLoopInDestroying with (I := erroring)
          | eapply preserves_OnOutputPortDisabled with (I := erroring) (allowed := fun _ => True)
          | eapply preserves_OnOutputPortEnabled with (I := erroring)
          | eapply preserves_OnReachedInvalidInErroring with (I := erroring) (allowed := fun _ => True)
          | eapply preserves_SendCommandToPort with (I := erroring)
          | eapply preserves_StopOnError with (I := erroring)
          | eapply preserves_Destructor with (I := erroring) ];
        try erroring_side
      | intros ? ? ?; try (cbv beta in *; assumption)
      | intros ? ?; try (cbv beta in *; assumption) ]
  end.

Ltac erroring_leaf :=
  unfold erroring, csc_is in *; simpl in *;
  repeat match goal with
  | H : current_state_change_ _ = ERRORING |- _ => rewrite H in *; clear H
  end;
  simpl in *; first [ reflexivity | assumption | discriminate | congruence ].

Lemma erroring_DispatchStateReached reached :
  preserves erroring (DispatchStateReached reached).
Proof.
  intros s He. apply wp_final. unfold DispatchStateReached. wp_step. wp_step.
  unfold erroring in He. rewrite He.
  destruct reached; repeat first [ wp_step | erroring_call ]; exact He.
Qed.

Lemma erroring_FillBufferDoneTask_on buffer h :
  preserves erroring (FillBufferDoneTask_on buffer h).
Proof.
  intros s He. apply wp_final. unfold FillBufferDoneTask_on.
  wp_step. wp_step; try wp_step; try exact He.
  all: cbv zeta; wp_step; wp_step; wp_step; wp_step; try exact He.
  all: wp_step; wp_step.
  all: assert (Hc : csc_is ERRORING s = true) by (apply csc_is_true; exact He).
  all: rewrite Hc, orb_true_r; wp_step; exact He.
Qed.

Lemma erroring_step op s :
  erroring s ->
  dcheck_is_on s = true \/ (op <> CallFlush /\ op <> CallReset) ->
  erroring (final (step op s)).
Proof.
  intros He Hop. apply wp_final. unfold step.
  wp_step. wp_step. wp_step.
  { destruct (is_call op); wp_step; exact He. }
  destruct op; unfold run_op.
  - erroring_call.
  - erroring_call.
  - erroring_call.
  - destruct Hop as [Hd | [Hf _]]; [|congruence].
    unfold Flush. wp_step. wp_step. wp_step. wp_step; [exact He|].
    destruct H as [H|H]; [congruence|].
    apply csc_is_true in H. unfold erroring in He. congruence.
  - destruct Hop as [Hd | [_ Hf]]; [|congruence].
    unfold Reset. wp_step. wp_step. wp_step. wp_step; [exact He|].
    destruct H as [H|H]; [congruence|].
    apply csc_is_true in H. unfold erroring in He. congruence.
  - unfold Destroy. wp_step. wp_step. wp_step. wp_step. wp_step; [|wp_step; exact He].
    wp_step. wp_step. wp_step.
    assert (Hc : csc_is ERRORING (set_client_ false s) = true)
      by (apply csc_is_true; exact He).
    rewrite Hc. simpl. erroring_call.
  - unfold EventHandlerCompleteTask. wp_step. wp_step.
    assert (Hc : csc_is ERRORING s = true) by (apply csc_is_true; exact He).
    assert (Hd : csc_is DESTROYING s = false).
    { apply csc_is_false. unfold erroring in He. congruence. }
    rewrite ?Hc, ?Hd. simpl.
    repeat first [ wp_step | erroring_call ]; try exact He.
    apply wp_final. apply erroring_DispatchStateReached. exact He.
  - wp_step. unfold engine_fills. wp_step. unfold FillBufferDoneTask. wp_step.
    wp_step; [|].
    + apply wp_final. apply erroring_FillBufferDoneTask_on.
      unfold erroring. destruct (headers s !! buffer); exact He.
    + unfold erroring. destruct (headers s !! buffer); exact He.
  - erroring_call.
  - repeat first [ wp_step | erroring_call ]; exact He.
  - repeat first [ wp_step | erroring_call ]; exact He.
Qed.





(** ** The pictures given to the client *)

Lemma pictures_ready_fields P t0 s s' :
  trace s' = trace s -> client_ s' = client_ s ->
  client_ptr_factory_ s' = client_ptr_factory_ s ->
  dcheck_is_on s' = dcheck_is_on s ->
  current_state_change_ s' = current_state_change_ s ->
  client_state_ s' = client_state_ s ->
  free_input_buffers_ s' = free_input_buffers_ s ->
  input_buffers_at_component_ s' = input_buffers_at_component_ s ->
  input_buffer_count_ s' = input_buffer_count_ s ->
  pictures_ready P t0 s -> pictures_ready P t0 s'.
Proof. unfold pictures_ready. intros Ht _ _ _ _ _ _ _ _ H. rewrite Ht. exact H. Qed.

Lemma pictures_ready_same P t0 s s' :
  trace s' = trace s -> pictures_ready P t0 s -> pictures_ready P t0 s'.
Proof. unfold pictures_ready. intros Ht H. rewrite Ht. exact H. Qed.

Lemma pictures_ready_event P t0 s s' e :
  trace s' = trace s ++ [e] ->
  (forall p, e = EvClient (PictureReady p) -> P p) -> pictures_ready P t0 s ->
  pictures_ready P t0 s'.
Proof.
  unfold pictures_ready. intros Hs He (t & Ht & Hall).
  exists (t ++ [e]). rewrite Hs, Ht, app_assoc. split; [reflexivity|].
  apply Forall_app. split; [exact Hall|]. repeat constructor. exact He.
Qed.

Ltac pictures_ready_side :=
  solve [ intros;
  match goal with
  | H : pictures_ready _ _ ?s |- pictures_ready _ _ _ =>
      first [ apply (pictures_ready_same _ _ s); [simpl; congruence | exact H]
            | eapply (pictures_ready_event _ _ s); [simpl; reflexivity | | exact H];
              intros; subst; first [ discriminate | congruence ] ]
  end ].

Lemma no_picture_step t0 op s :
  (forall buffer flags time_stamp, op <> TaskFillBufferDone buffer flags time_stamp) ->
  pictures_ready (fun _ => False) t0 s ->
  pictures_ready (fun _ => False) t0 (final (step op s)).
Proof.
  intros Hop.
  apply preserves_step with (I := pictures_ready (fun _ => False) t0)
                            (allowed := fun c => forall p, c <> PictureReady p).
  all: try pictures_ready_side.
  - intros s0 e He H. eapply (pictures_ready_event _ _ s0); [reflexivity| |exact H].
    intros p Hp. eapply He. exact Hp.
  - auto.
  - intros buffer flags ts ->. exfalso. eapply Hop. reflexivity.
Qed.

Lemma pictures_ready_start P s : pictures_ready P (trace s) s.
Proof. exists []. rewrite app_nil_r. split; [reflexivity | constructor]. Qed.

Lemma added_of_pictures_ready {A} P (m : M A) s :
  pictures_ready P (trace s) (final (m s)) ->
  Forall (fun e => forall p, e = EvClient (PictureReady p) -> P p) (added m s).
Proof.
  intros (t & Ht & Hall). unfold added. rewrite Ht, drop_app_length. exact Hall.
Qed.

(** A picture given to the client when an output buffer comes back carries
    the time stamp the component wrote in the header, as an [int32_t]. *)
Lemma FillBufferDone_pictures buffer flags ts s :
  pictures_ready (fun p => bitstream_buffer_id p = to_signed 32 ts) (trace s)
    (final (step (TaskFillBufferDone buffer flags ts) s)).
Proof.
  set (P := fun p => bitstream_buffer_id p = to_signed 32 ts).
  unfold step. rewrite final_bind. unfold get.
  destruct (deleted_ s); [apply pictures_ready_start|].
  unfold run_op. rewrite final_bind. unfold engine_fills, modify. cbv beta iota.
  unfold FillBufferDoneTask. rewrite final_bind.
  unfold header_at. unfold bind at 1. unfold get at 1. cbv beta iota.
  destruct (headers s !! buffer) as [h0|] eqn:Hh; simpl.
  - rewrite lookup_insert_eq. simpl.
    eapply preserves_FillBufferDoneTask_on
      with (I := pictures_ready P (trace s))
           (allowed := fun c => forall p, c = PictureReady p -> P p).
    all: try pictures_ready_side.
    + intros s0 e He H. eapply (pictures_ready_event _ _ s0); [reflexivity| |exact H].
      intros p Hp. exfalso. eapply He. exact Hp.
    + intros s0 c Hc _ H. eapply (pictures_ready_event _ _ s0); [reflexivity| |exact H].
      intros p [= Hp]. apply Hc. exact Hp.
    + intros c Hc _ p Hp. exfalso. eapply Hc. exact Hp.
    + intros p p' [= <-]. reflexivity.
    + eapply pictures_ready_same; [|apply pictures_ready_start]. reflexivity.
  - rewrite Hh. simpl. apply pictures_ready_start.
Qed.

Lemma PictureReady_only_from_FillBufferDone s op p :
  EvClient (PictureReady p) ∈ added (step op) s ->
  exists buffer flags ts,
    op = TaskFillBufferDone buffer flags ts /\
    bitstream_buffer_id p = to_signed 32 ts.
Proof.
  intros Hin.
  assert (Hother : (forall buffer flags ts, op <> TaskFillBufferDone buffer flags ts) -> False).
  { intros Hop.
    pose proof (no_picture_step (trace s) op s Hop (pictures_ready_start _ s)) as H.
    apply added_of_pictures_ready in H. rewrite Forall_forall in H.
    exact (H _ Hin p eq_refl). }
  destruct op; try (exfalso; apply Hother; intros; discriminate).
  eexists _, _, _. split; [reflexivity|].
  pose proof (FillBufferDone_pictures buffer flags time_stamp s) as H.
  apply added_of_pictures_ready in H. rewrite Forall_forall in H.
  exact (H _ Hin p eq_refl).
Qed.

Lemma FillBufferDone_header buffer flags ts s p :
  EvClient (PictureReady p) ∈ added (step (TaskFillBufferDone buffer flags ts)) s ->
  exists h, filled_header buffer flags ts s = Some h /\ nTimeStamp h = ts.
Proof.
  intros Hin. unfold filled_header, engine_fills, modify. simpl.
  destruct (headers s !! buffer) as [h0|] eqn:Hh; simpl.
  - rewrite lookup_insert_eq. eexists. split; reflexivity.
  - exfalso. rewrite added_nil in Hin; [inversion Hin|].
    unfold step. rewrite final_bind. unfold get.
    destruct (deleted_ s); [reflexivity|].
    unfold run_op. rewrite final_bind. unfold engine_fills, modify. cbv beta iota.
    rewrite Hh. unfold FillBufferDoneTask. rewrite final_bind.
    unfold header_at. unfold bind, get. rewrite Hh. reflexivity.
Qed.

Ltac ev_solve :=
  first [ assumption
        | eapply events_since_same; [|apply events_since_start]; simpl; reflexivity
        | eexists; split;
          [ simpl; rewrite <- ?app_assoc; reflexivity
          | simpl; repeat (apply Forall_cons; split); try apply Forall_nil;
            simpl; auto;
            first [ left; solve [auto] | right; solve [auto] ] ] ].

Lemma Decode_events b s : events_since (Decode_event b) (trace s) (final (Decode b s)).
Proof.
  apply wp_final. unfold Decode.
  repeat first
    [ wp_step
    | lazymatch goal with
      | |- wp (StopOnError _) _ _ _ =>
          eapply wp_mono;
          [ apply wp_StopOnError_events with (t0 := trace s) (ok := Decode_event b);
            [exact Logic.I | exact Logic.I | ]
          | intros ? ? ? | intros ? ? ]
      end ].
  all: repeat match goal with
       | H : headers _ !! _ = Some _ |- _ => progress simpl in H
       | H : <[_ := _]> _ !! _ = Some _ |- _ =>
           rewrite lookup_insert_eq in H; injection H as <-
       | H : _ && _ = true |- _ => apply andb_true_iff in H; destruct H
       | H : (_ =? _) = true |- _ => apply Z.eqb_eq in H
       end.
  all: ev_solve.
Qed.

Lemma to_signed_int32 z : in_int32 z -> to_signed 32 z = z.
Proof.
  unfold in_int32, to_signed. intros H.
  rewrite Z.mod_small; lia.
Qed.

(** C4. A picture is given to the client only when an output buffer comes
    back from the component, and the bitstream buffer id it carries is the
    time stamp of that buffer's header.  When the component copies the time
    stamp of the input header [h_in] that [Decode b] handed to it, this is
    the value [Decode] wrote there: the id of [b], which so goes through the
    component unchanged (the end-of-stream sentinel is stamped -2 instead). *)
Theorem PictureReady_id_round_trip (b : BitstreamBuffer) (s1 s2 : State) (n : nat)
    (h_in : OMX_BUFFERHEADERTYPE) (op : Op) (p : Picture) :
  in_int32 (bb_id b) ->
  EvOmx (OMX_EmptyThisBuffer n h_in) ∈ added (Decode b) s1 ->
  EvClient (PictureReady p) ∈ added (step op) s2 ->
  (forall buffer flags ts, op = TaskFillBufferDone buffer flags ts -> ts = nTimeStamp h_in) ->
  exists buffer flags ts h_out,
    op = TaskFillBufferDone buffer flags ts /\
    filled_header buffer flags ts s2 = Some h_out /\
    bitstream_buffer_id p = nTimeStamp h_out /\
    nTimeStamp h_out = nTimeStamp h_in /\
    (nTimeStamp h_in = bb_id b \/
     (bb_id b = -1 /\ bb_size b = 0 /\ nTimeStamp h_in = -2)).
Proof.
  intros Hid Hin Hout Hengine.
  destruct (PictureReady_only_from_FillBufferDone s2 op p Hout)
    as (buffer & flags & ts & -> & Hp).
  destruct (FillBufferDone_header buffer flags ts s2 p Hout) as (h_out & Hh & Hts).
  pose proof (Hengine buffer flags ts eq_refl) as Hcopy.
  pose proof (added_of_events_since _ _ _ (Decode_events b s1)) as Hdec.
  rewrite Forall_forall in Hdec. specialize (Hdec _ Hin). simpl in Hdec.
  assert (Hstamp : in_int32 (nTimeStamp h_in)).
  { destruct Hdec as [(_ & _ & ->) | [-> _]]; [unfold in_int32; lia | exact Hid]. }
  exists buffer, flags, ts, h_out.
  split; [reflexivity|]. split; [exact Hh|].
  split; [rewrite Hp, Hts, Hcopy; apply to_signed_int32; exact Hstamp|].
  split; [rewrite Hts; exact Hcopy|].
  destruct Hdec as [(H1 & H2 & H3) | [H1 _]]; [right; auto | left; exact H1].
Qed.

Lemma PictureReady_id_round_trip_witness :
  exists buffer flags ts h_out,
    TaskFillBufferDone 9 0 7 = TaskFillBufferDone buffer flags ts /\
    filled_header buffer flags ts (demo_bound true) = Some h_out /\
    bitstream_buffer_id (mkPicture 4 7) = nTimeStamp h_out /\
    nTimeStamp h_out = 7 /\
    (7 = 7 \/ (7 = -1 /\ 100 = 0 /\ 7 = -2)).
Proof.
  apply (PictureReady_id_round_trip (mkBitstreamBuffer 7 3 100)
           (demo_executing true []) (demo_bound true) 1%nat
           (mkHeader 3 100 100 0 (AppInput (3, 7)) 0 7 0 0)
           (TaskFillBufferDone 9 0 7) (mkPicture 4 7)).
  - unfold in_int32. simpl. lia.
  - apply list_elem_of_In. vm_compute. auto.
  - apply list_elem_of_In. vm_compute. auto.
  - intros buffer flags ts [= _ _ <-]. reflexivity.
Defined.


(** ** Teardown *)

(** With a platform that accepts every call and no picture, [FreeOMXBuffers]
    run without a client frees the input and the fake output buffers and
    returns; no call to the client. *)
Lemma FreeOMXBuffers_frees s :
  env_results s = [] -> pictures_ s = [] -> client_ s = false ->
  exists t h,
    FreeOMXBuffers s =
      Ok tt (set_queued_picture_buffer_ids_ []
               (set_fake_output_buffers_ []
                  (set_free_input_buffers_ []
                     (set_headers h (set_trace (trace s ++ t) s))))) /\
    client_calls t = [].
Proof.
  intros Henv Hpic Hcl.
  set (Q := fun s' : State => exists t h,
    s' = set_queued_picture_buffer_ids_ []
           (set_fake_output_buffers_ []
              (set_free_input_buffers_ []
                 (set_headers h (set_trace (trace s ++ t) s)))) /\
    client_calls t = []).
  assert (H : wp FreeOMXBuffers (fun _ => Q) (fun _ => False) s).
  { unfold FreeOMXBuffers. wp_step. wp_step. wp_step.
    eapply wp_mono;
      [ apply wp_fold_each with (C := fun _ => False)
          (J := fun rest b s1 => b = false /\ exists t h,
                  s1 = set_free_input_buffers_ rest (set_headers h (set_trace (trace s ++ t) s))
                  /\ client_calls t = [])
      | | auto ].
    - intros x rest b s1 (-> & t & h & -> & Ht). unfold free_header.
      repeat wp_step; simpl in *; try congruence.
      split; [reflexivity|]. exists (t ++ [EvOmx (OMX_FreeBuffer (input_port_ s) x)]), (delete x h).
      split; [state_eq; rewrite <- ?app_assoc; reflexivity|].
      rewrite client_calls_app, Ht. reflexivity.
    - split; [reflexivity|]. exists [], (headers s).
      split; [state_eq; rewrite ?app_nil_r; reflexivity | reflexivity].
    - intros b s1 (-> & t & h & -> & Ht). cbv beta.
      wp_step. wp_step. simpl. rewrite Hpic. simpl. wp_step. wp_step. wp_step. wp_step. wp_step.
      wp_step. wp_step.
      eapply wp_mono;
        [ apply wp_fold_each with (C := fun _ => False)
            (J := fun rest b s1 => b = false /\ exists t h,
                    s1 = set_pictures_ []
                           (set_free_input_buffers_ []
                              (set_headers h (set_trace (trace s ++ t) s)))
                    /\ client_calls t = [])
        | | auto ].
      + intros x rest b s1 (-> & t1 & h1 & -> & Ht1). unfold free_header.
        repeat wp_step; simpl in *; try congruence.
        split; [reflexivity|].
        exists (t1 ++ [EvOmx (OMX_FreeBuffer (output_port_ s) x)]), (delete x h1).
        split; [state_eq; rewrite <- ?app_assoc; reflexivity|].
        rewrite client_calls_app, Ht1. reflexivity.
      + split; [reflexivity|]. exists t, h. split; [reflexivity | exact Ht].
      + intros b s1 (-> & t1 & h1 & -> & Ht1). cbv beta.
        wp_step. wp_step. wp_step. wp_step. wp_step. simpl. rewrite Hcl. simpl.
        repeat wp_step. exists t1, h1. split; [state_eq | exact Ht1].
}
  apply wp_Ok in H. destruct H as ([] & s' & Hs & t & h & -> & Ht).
  exists t, h. split; [exact Hs | exact Ht].
Qed.

Ltac tidy :=
  simpl in *;
  repeat match goal with
  | H : ?a = ?a |- _ => clear H
  | H : _ \/ true = true |- _ => clear H
  end.

Lemma Destroy_tears_down s :
  current_state_change_ s = FLUSHING ->
  client_state_ s = OMX_StateExecuting ->
  client_ptr_factory_ s = true ->
  component_handle_ s = true ->
  deleted_ s = false ->
  env_results s = [] ->
  pictures_ s = [] ->
  dcheck_is_on s = false \/
    (input_buffers_at_component_ s = 0 /\ output_buffers_at_component_ s = 0) ->
  exists s1 s2,
    Destroy s = Ok tt s1 /\ run teardown_ops s1 = Ok tt s2 /\
    deleted_ s2 = true /\ component_handle_ s2 = false.
Proof.
  intros Hcsc Hcs Hf Hh Hdel Henv Hpic Hd.
  assert (E : s = set_current_state_change_ FLUSHING
                    (set_client_state_ OMX_StateExecuting
                       (set_client_ptr_factory_ true
                          (set_component_handle_ true
                             (set_deleted_ false
                                (set_env_results [] (set_pictures_ [] s)))))))
    by state_eq.
  assert (H : wp Destroy
                (fun _ s1 => wp (run teardown_ops)
                               (fun _ s2 => deleted_ s2 = true /\ component_handle_ s2 = false)
                               (fun _ => False) s1)
                (fun _ => False) s).
  { rewrite E. clear E Hcsc Hcs Hf Hh Hdel Henv Hpic.
    unfold Destroy.
    repeat (first
      [ wp_step
      | lazymatch goal with
        | |- wp FreeOMXBuffers _ _ ?X =>
            let t := fresh "t" in
            let h := fresh "h" in
            let HF := fresh "HF" in
            let Ht := fresh "Ht" in
            destruct (FreeOMXBuffers_frees X) as (t & h & HF & Ht);
            [reflexivity | reflexivity | reflexivity |];
            eapply wp_of_Ok; [exact HF|]; clear HF
        end
      | progress unfold BeginTransitionToState, BeginTransitionToState_with,
          BusyLoopInDestroying, run, step, run_op, EventHandlerCompleteTask,
          DispatchStateReached, OnReachedIdleInDestroying, OnReachedLoadedInDestroying,
          ShutdownComponent, Destructor, is_call ];
      try (simpl in *; discriminate); tidy).
    all: try (split; reflexivity).
    all: destruct Hd as [Hd|[Hi Ho]]; [congruence|].
    all: rewrite ?Hi, ?Ho in *; discriminate. }
  apply wp_Ok in H. destruct H as ([] & s1 & H1 & H).
  apply wp_Ok in H. destruct H as ([] & s2 & H2 & H).
  exists s1, s2. split; [exact H1|]. split; [exact H2 | exact H].
Qed.

(** C6. Once [Destroy] has returned, no later call of the client and no
    later task adds a call to the client to the trace, and [Destroy] makes
    none itself.  Called while FLUSHING (the component executing, every
    platform call accepted, the buffers back or the assertions compiled
    out), [Destroy] returns and the teardown ends with the component handle
    released and the adapter deleted, [NotifyFlushDone] not delivered. *)
Theorem Destroy_silences_client :
  (forall s s' ops, Destroy s = Ok tt s' ->
     exists t, trace (final (run ops s')) = trace s ++ t /\ forall c, EvClient c ∉ t) /\
  (forall s,
     current_state_change_ s = FLUSHING ->
     client_state_ s = OMX_StateExecuting ->
     client_ptr_factory_ s = true ->
     component_handle_ s = true ->
     deleted_ s = false ->
     env_results s = [] ->
     pictures_ s = [] ->
     dcheck_is_on s = false \/
       (input_buffers_at_component_ s = 0 /\ output_buffers_at_component_ s = 0) ->
     exists s1 s2 t,
       Destroy s = Ok tt s1 /\ run teardown_ops s1 = Ok tt s2 /\
       deleted_ s2 = true /\ component_handle_ s2 = false /\
       trace s2 = trace s ++ t /\ EvClient NotifyFlushDone ∉ t).
Proof.
  split.
  - intros s s' ops HD. destruct (Destroy_silences s s' ops HD) as (t & Ht & Hc).
    exists t. split; [exact Ht | apply client_calls_none; exact Hc].
  - intros s Hcsc Hcs Hf Hh Hdel Henv Hpic Hd.
    destruct (Destroy_tears_down s Hcsc Hcs Hf Hh Hdel Henv Hpic Hd)
      as (s1 & s2 & H1 & H2 & H3 & H4).
    destruct (Destroy_silences s s1 teardown_ops H1) as (t & Ht & Hc).
    rewrite H2 in Ht. simpl in Ht.
    exists s1, s2, t. repeat (split; [assumption|]).
    apply client_calls_none. exact Hc.
Qed.

Lemma Destroy_silences_client_witness :
  exists s1 s2 t,
    Destroy (demo_flushing false) = Ok tt s1 /\ run teardown_ops s1 = Ok tt s2 /\
    deleted_ s2 = true /\ component_handle_ s2 = false /\
    trace s2 = trace (demo_flushing false) ++ t /\ EvClient NotifyFlushDone ∉ t.
Proof.
  apply (proj2 Destroy_silences_client (demo_flushing false));
    try (vm_compute; reflexivity).
  left. vm_compute. reflexivity.
Defined.

(** The same with the assertions compiled in, the component giving the
    buffers back before it acknowledges [OMX_StateIdle]. *)
Example Destroy_while_flushing_checked :
  exists s', (Destroy ;; run demo_returns_and_teardown) (demo_flushing true) = Ok tt s' /\
             deleted_ s' = true /\ component_handle_ s' = false /\
             client_calls (drop (length (trace (demo_flushing true))) (trace s')) = [].
Proof.
  eexists. split; [vm_compute; reflexivity|].
  split; [|split]; vm_compute; reflexivity.
Qed.


(** ** Input buffers coming back *)

Lemma fold_each_decode l :
  forall s, fold_each l (fun _ b => Decode b) tt s = decode_in_order l s.
Proof.
  induction l as [|b l IH]; intros s; simpl; [reflexivity|].
  unfold bind. destruct (Decode b s) as [[] s'|s']; [apply IH | reflexivity].
Qed.

Lemma DecodeQueuedBitstreamBuffers_unfold s :
  DecodeQueuedBitstreamBuffers s =
    if csc_is DESTROYING s || csc_is ERRORING s
    then Ok tt (set_queued_bitstream_buffers_ [] s)
    else decode_in_order (queued_bitstream_buffers_ s) (set_queued_bitstream_buffers_ [] s).
Proof.
  unfold DecodeQueuedBitstreamBuffers. unfold bind at 1. unfold get. cbv beta iota zeta.
  unfold bind, modify.
  destruct (csc_is DESTROYING s || csc_is ERRORING s); [reflexivity|].
  apply fold_each_decode.
Qed.

Lemma EmptyBufferDoneTask_effect buffer s h :
  headers s !! buffer = Some h ->
  dcheck_is_on s = false \/ 0 < input_buffers_at_component_ s ->
  (has_EOS (nFlags h) = true ->
     EmptyBufferDoneTask buffer s = Ok tt (returned buffer s)) /\
  (forall d, has_EOS (nFlags h) = false -> pAppPrivate h = AppInput d ->
     EmptyBufferDoneTask buffer s =
       DecodeQueuedBitstreamBuffers (completed buffer h d s)).
Proof.
  intros Hh Hd.
  assert (E :
    EmptyBufferDoneTask buffer s =
      (if has_EOS (nFlags h) then ret tt
       else
         input_buffer_details <- match pAppPrivate h with
                                 | AppNull => ret None
                                 | AppInput d => ret (Some d)
                                 | AppPicture _ => crash
                                 end ;;
         DCHECK (bool_decide (is_Some input_buffer_details)) ;;
         update_header buffer (hdr_set_pAppPrivate AppNull) ;;
         when (client_ s)
           match input_buffer_details with
           | None => crash
           | Some d => client_call (NotifyEndOfBitstreamBuffer (snd d))
           end ;;
         DecodeQueuedBitstreamBuffers) (returned buffer s)).
  { unfold EmptyBufferDoneTask. rewrite bind_get.
    rewrite bind_DCHECK by (destruct Hd as [Hd|Hd]; [left; exact Hd | right; apply Z.ltb_lt; exact Hd]).
    rewrite bind_modify, bind_modify.
    rewrite (bind_header_at buffer _ _ h) by exact Hh. reflexivity. }
  rewrite E. clear E. split.
  - intros ->. reflexivity.
  - intros d -> Hp. rewrite Hp. rewrite bind_ret.
    rewrite bind_DCHECK by (right; reflexivity).
    rewrite (bind_update_header buffer _ _ _ h) by exact Hh.
    unfold completed. unfold when. destruct (client_ s) eqn:Hcl.
    + rewrite bind_client_call by exact Hcl. f_equal.
    + rewrite bind_ret. reflexivity.
Qed.

(** C8, as the code has it.  [EmptyBufferDoneTask] puts the header back
    among the free input buffers and counts one buffer less at the
    component.  With the end-of-stream flag set it stops there.  Otherwise
    the header loses its details, [NotifyEndOfBitstreamBuffer] with their id
    is called when (and only when) the client is still there, and
    [DecodeQueuedBitstreamBuffers] runs: it empties the queue and, unless
    the adapter is DESTROYING or ERRORING, calls [Decode] on what was
    queued, first to last. *)
Theorem EmptyBufferDoneTask_returns_header (buffer : nat) (s : State)
    (h : OMX_BUFFERHEADERTYPE) :
  headers s !! buffer = Some h ->
  dcheck_is_on s = false \/ 0 < input_buffers_at_component_ s ->
  (has_EOS (nFlags h) = true ->
     EmptyBufferDoneTask buffer s = Ok tt (returned buffer s)) /\
  (forall d, has_EOS (nFlags h) = false -> pAppPrivate h = AppInput d ->
     EmptyBufferDoneTask buffer s =
       DecodeQueuedBitstreamBuffers (completed buffer h d s)) /\
  (forall s',
     DecodeQueuedBitstreamBuffers s' =
       if csc_is DESTROYING s' || csc_is ERRORING s'
       then Ok tt (set_queued_bitstream_buffers_ [] s')
       else decode_in_order (queued_bitstream_buffers_ s')
              (set_queued_bitstream_buffers_ [] s')).
Proof.
  intros Hh Hd. destruct (EmptyBufferDoneTask_effect buffer s h Hh Hd) as [H1 H2].
  split; [exact H1|]. split; [exact H2|]. apply DecodeQueuedBitstreamBuffers_unfold.
Qed.

Lemma EmptyBufferDoneTask_returns_header_witness :
  EmptyBufferDoneTask 1 (demo_decoding true) =
    DecodeQueuedBitstreamBuffers
      (completed 1 (mkHeader 3 100 100 0 (AppInput (3, 7)) 0 7 0 0) (3, 7)
         (demo_decoding true)).
Proof.
  refine (proj1 (proj2 (EmptyBufferDoneTask_returns_header 1 (demo_decoding true)
                          (mkHeader 3 100 100 0 (AppInput (3, 7)) 0 7 0 0) _ _))
            (3, 7) _ _).
  - vm_compute. reflexivity.
  - right. vm_compute. reflexivity.
  - reflexivity.
  - reflexivity.
Defined.

(** C8 does not hold as stated: an input buffer that comes back after
    [Destroy], without the end-of-stream flag and with its details, is put
    back and counted, but the client is not told; and what was queued then
    is dropped, not decoded. *)
Lemma EmptyBufferDone_after_Destroy :
  headers (demo_destroying true) !! 1%nat =
    Some (mkHeader 3 100 100 0 (AppInput (3, 7)) 0 7 0 0) /\
  has_EOS 0 = false /\
  (exists s', step (TaskEmptyBufferDone 1) (demo_destroying true) = Ok tt s' /\
              free_input_buffers_ s' = [2%nat; 1%nat] /\
              input_buffers_at_component_ s' = 0) /\
  added (step (TaskEmptyBufferDone 1)) (demo_destroying true) = [] /\
  added (step (TaskEmptyBufferDone 1)) (demo_decoding true) =
    [EvClient (NotifyEndOfBitstreamBuffer 7)] /\
  queued_bitstream_buffers_ (demo_queued_destroying true) = [mkBitstreamBuffer 9 3 100] /\
  queued_bitstream_buffers_ (after (step (TaskEmptyBufferDone 1)) (demo_queued_destroying true))
    = [] /\
  added (step (TaskEmptyBufferDone 1)) (demo_queued_destroying true) = [].
Proof.
  split; [vm_compute; reflexivity|].
  split; [vm_compute; reflexivity|].
  split; [eexists; split; [vm_compute; reflexivity|]; split; vm_compute; reflexivity|].
  split; [vm_compute; reflexivity|].
  split; [vm_compute; reflexivity|].
  split; [vm_compute; reflexivity|].
  split; vm_compute; reflexivity.
Qed.


(** ** The end of a reset *)

Lemma holding_StopOnError l error s : holding l s -> holding l (final (StopOnError error s)).
Proof.
  apply StopOnError_keeps; unfold holding; simpl; auto.
  intros s0 [_ H]. split; [discriminate | exact H].
Qed.

Ltac holding_call l :=
  lazymatch goal with
  | |- wp (StopOnError _) _ _ _ =>
      eapply wp_mono;
      [ apply wp_of_final; apply (holding_StopOnError l)
      | intros ? ? ? | intros ? ? ]
  end.

Lemma holding_ReusePictureBuffer l id s :
  holding l s -> wp (ReusePictureBuffer id) (fun _ => holding l) (fun _ => True) s.
Proof.
  intros H. unfold ReusePictureBuffer, CheckPictureStatus, IsSynced, QueuePictureBuffer,
    CanFillBuffer.
  repeat first [ wp_step | holding_call l ].
  all: try exact Logic.I.
  all: try solve [ unfold holding in *; simpl in *; auto ].
  all: try solve [ exfalso; destruct H as [H _];
                   match goal with
                   | Hb : csc_is RESETTING _ = true |- _ =>
                       apply csc_is_true in Hb; simpl in Hb; contradiction
                   end ].
Qed.

(** The loop of [OnReachedExecutingInResetting] over the vector of queued
    picture buffer ids reads the vector at every turn; outside RESETTING
    nothing is added to it meanwhile, so the loop calls [ReusePictureBuffer]
    on the ids that were queued when it began. *)
Lemma reuse_queued_from_snapshot l :
  forall pre s fuel,
    holding (pre ++ l) s -> (length l <= fuel)%nat ->
    reuse_queued_from fuel (length pre) s = reuse_in_order l s.
Proof.
  induction l as [|id l IH]; intros pre s fuel H Hfuel.
  - assert (Hl : queued_picture_buffer_ids_ s !! length pre = None).
    { destruct H as [_ ->]. apply lookup_ge_None. rewrite app_nil_r. lia. }
    destruct fuel; simpl; unfold bind, get; rewrite Hl; reflexivity.
  - assert (Hl : queued_picture_buffer_ids_ s !! length pre = Some id).
    { destruct H as [_ ->]. apply list_lookup_middle. reflexivity. }
    destruct fuel as [|fuel]; [simpl in Hfuel; lia|].
    simpl. unfold bind at 1. unfold get. rewrite Hl. unfold bind.
    pose proof (holding_ReusePictureBuffer _ id s H) as Hw. unfold wp in Hw.
    destruct (ReusePictureBuffer id s) as [[] s'|s']; [|reflexivity].
    replace (S (length pre)) with (length (pre ++ [id])) by (rewrite length_app; simpl; lia).
    apply IH; [rewrite <- app_assoc; exact Hw | simpl in Hfuel; lia].
Qed.

Lemma not_resetting_Decode b s :
  current_state_change_ s <> RESETTING ->
  current_state_change_ (final (Decode b s)) <> RESETTING.
Proof.
  apply preserves_Decode with (I := fun s => current_state_change_ s <> RESETTING);
    try solve [intros; simpl in *; first [assumption | congruence]].
Qed.

Lemma not_resetting_decode_in_order l :
  forall s, current_state_change_ s <> RESETTING ->
            current_state_change_ (final (decode_in_order l s)) <> RESETTING.
Proof.
  induction l as [|b l IH]; intros s H; simpl; [exact H|].
  pose proof (not_resetting_Decode b s H) as Hb. unfold bind.
  destruct (Decode b s) as [[] s'|s']; simpl in *; [apply IH; exact Hb | exact Hb].
Qed.

Lemma not_resetting_DecodeQueuedBitstreamBuffers s s' :
  current_state_change_ s <> RESETTING ->
  DecodeQueuedBitstreamBuffers s = Ok tt s' ->
  current_state_change_ s' <> RESETTING.
Proof.
  intros H Hs. rewrite DecodeQueuedBitstreamBuffers_unfold in Hs.
  destruct (csc_is DESTROYING s || csc_is ERRORING s).
  - injection Hs as <-. exact H.
  - pose proof (not_resetting_decode_in_order (queued_bitstream_buffers_ s)
                  (set_queued_bitstream_buffers_ [] s) H) as Hd.
    rewrite Hs in Hd. exact Hd.
Qed.

Lemma OnReachedExecutingInResetting_effect s :
  dcheck_is_on s = false \/ client_state_ s = OMX_StatePause ->
  (client_ s = false -> OnReachedExecutingInResetting s = Ok tt (reset_reached s)) /\
  (client_ s = true ->
     OnReachedExecutingInResetting s =
       (drain_queues ;; client_call NotifyResetDone) (reset_reached s)).
Proof.
  intros Hd. unfold OnReachedExecutingInResetting. rewrite bind_get.
  rewrite bind_DCHECK by (destruct Hd as [Hd|Hd]; [left; exact Hd | right; apply cs_is_true; exact Hd]).
  rewrite bind_modify, bind_modify. fold (reset_reached s). split.
  - intros ->. reflexivity.
  - intros ->. simpl negb. cbv iota.
    unfold drain_queues. rewrite bind_assoc.
    apply bind_ext_at. intros [] s2 Hs2.
    rewrite bind_assoc, !bind_get, bind_assoc.
    assert (H2 : holding ([] ++ queued_picture_buffer_ids_ s2) s2).
    { split; [|reflexivity].
      eapply not_resetting_DecodeQueuedBitstreamBuffers; [|exact Hs2]. discriminate. }
    pose proof (reuse_queued_from_snapshot _ [] s2 _ H2 (le_n _)) as E. simpl in E.
    unfold bind at 1 4. rewrite E. reflexivity.
Qed.





(** ** The account of the input buffers *)

Ltac bools :=
  repeat match goal with
  | H : _ || _ = true |- _ => apply orb_true_iff in H
  | H : _ || _ = false |- _ => apply orb_false_iff in H; destruct H
  | H : _ && _ = true |- _ => apply andb_true_iff in H; destruct H
  | H : _ && _ = false |- _ => apply andb_false_iff in H
  | H : negb _ = true |- _ => apply negb_true_iff in H
  | H : negb _ = false |- _ => apply negb_false_iff in H
  | H : csc_is _ _ = true |- _ => apply csc_is_true in H
  | H : csc_is _ _ = false |- _ => apply csc_is_false in H
  | H : cs_is _ _ = true |- _ => apply cs_is_true in H
  | H : cs_is _ _ = false |- _ => apply cs_is_false in H
  | H : bool_decide _ = true |- _ => apply bool_decide_eq_true in H
  | H : bool_decide _ = false |- _ => apply bool_decide_eq_false in H
  | H : (_ =? _) = true |- _ => apply Z.eqb_eq in H
  | H : (_ <? _) = true |- _ => apply Z.ltb_lt in H
  end.

Ltac acc_leaf :=
  repeat match goal with
  | H : _ !! _ = _ |- _ => clear H
  | H : env_results _ = _ |- _ => clear H
  end;
  unfold checked_accounted, checked_stopping, allocated, pristine, unallocated,
    inputs_accounted, winding_down, input_balanced in *;
  simpl in *;
  repeat (bools;
          repeat match goal with
          | H : _ \/ _ |- _ => destruct H
          | H : _ /\ _ |- _ => destruct H
          end);
  simpl in *;
  repeat match goal with
  | H : free_input_buffers_ ?s = _ |- _ => rewrite H in *
  end;
  rewrite ?length_app in *; simpl in *;
  solve [intuition (try congruence; try lia)].

Ltac acc_side := solve [ intros; acc_leaf ].

(** However it was called, [StopOnError] returns with the adapter stopped
    or without a component. *)
Lemma StopOnError_winds_down error s :
  wp (StopOnError error)
     (fun _ s' => dcheck_is_on s' = dcheck_is_on s /\ winding_down s')
     (fun _ => True) s.
Proof.
  apply wp_StopOnError. unfold wp, StopOnError_outcome, winding_down.
  destruct (csc_is ERRORING s) eqn:He; [apply csc_is_true in He; auto|].
  cbv zeta. destruct (negb (client_ptr_factory_ s)); [exact Logic.I|].
  destruct (cs_is OMX_StateInvalid s || cs_is OMX_StateMax s) eqn:Hc; simpl.
  - split; [reflexivity|]. apply orb_true_iff in Hc.
    destruct Hc as [Hc|Hc]; apply cs_is_true in Hc; auto.
  - auto.
Qed.

Ltac acc_call :=
  lazymatch goal with
  | |- wp (StopOnError _) _ _ _ =>
      eapply wp_mono;
      [ apply StopOnError_winds_down
      | intros ? ? [? ?] | intros ? ? ]
  end.

Ltac acc_run calls :=
  repeat first [ wp_step | acc_call | calls ];
  try exact Logic.I; acc_leaf.

Ltac no_calls := idtac; fail.

(** [Decode] keeps the account of the input buffers: a buffer taken from
    the free ones is counted at the component, unless the adapter stops. *)
Lemma accounted_Decode b s :
  inputs_accounted s -> wp (Decode b) (fun _ => inputs_accounted) (fun _ => True) s.
Proof. intros H. unfold Decode. acc_run no_calls. Qed.

Lemma accounted_DecodeQueuedBitstreamBuffers s :
  inputs_accounted s ->
  wp DecodeQueuedBitstreamBuffers (fun _ => inputs_accounted) (fun _ => True) s.
Proof.
  intros H. unfold DecodeQueuedBitstreamBuffers.
  wp_step. wp_step. cbv zeta. wp_step. wp_step. wp_step; [wp_step; acc_leaf|].
  apply wp_run_fold_each; [intros; apply accounted_Decode; assumption | acc_leaf].
Qed.

(** So does [EmptyBufferDoneTask]: the buffer goes back to the free ones
    and is counted out. *)
Lemma accounted_EmptyBufferDoneTask buffer s :
  inputs_accounted s ->
  wp (EmptyBufferDoneTask buffer) (fun _ => inputs_accounted) (fun _ => True) s.
Proof.
  intros H. unfold EmptyBufferDoneTask.
  acc_run ltac:(idtac; lazymatch goal with
    | |- wp DecodeQueuedBitstreamBuffers _ _ _ =>
        eapply wp_mono;
        [ apply accounted_DecodeQueuedBitstreamBuffers; acc_leaf
        | intros ? ? ? | intros ? ? ]
    end).
Qed.

Ltac framework_call inv :=
  eapply wp_mono;
  [ apply wp_of_final with (P := inv);
    first
      [ eapply preserves_AssignPictureBuffers with (I := inv)
      | eapply preserves_ReusePictureBuffer with (I := inv)
      | eapply preserves_CheckPictureStatus with (I := inv)
      | eapply preserves_BusyLoopInDestroying with (I := inv)
      | eapply preserves_OnOutputPortDisabled with (I := inv) (allowed := fun _ => True)
      | eapply preserves_OnOutputPortEnabled with (I := inv)
      | eapply preserves_SendCommandToPort with (I := inv)
      | eapply preserves_BeginTransitionToState with (I := inv)
      | eapply preserves_FlushIOPorts with (I := inv)
      | eapply preserves_InputPortFlushDone with (I := inv)
      | eapply preserves_OutputPortFlushDone with (I := inv)
      | eapply preserves_Destructor with (I := inv)
      | eapply preserves_free_header with (I := inv)
      | eapply preserves_reuse_queued_from with (I := inv)
      | eapply preserves_AllocateFakeOutputBuffers with (I := inv)
      | eapply preserves_Initialize_profile with (I := inv)
      | eapply preserves_Constructor with (I := inv) ];
    try acc_side
  | intros ? ? ? | intros ? ? ].

Ltac call_with lemma :=
  eapply wp_mono; [ apply lemma; acc_leaf | intros ? ? ? | intros ? ? ].

Lemma checked_Decode b s :
  checked_accounted s -> wp (Decode b) (fun _ => checked_accounted) (fun _ => True) s.
Proof. intros H. unfold Decode. acc_run no_calls. Qed.

Lemma checked_DecodeQueuedBitstreamBuffers s :
  checked_accounted s ->
  wp DecodeQueuedBitstreamBuffers (fun _ => checked_accounted) (fun _ => True) s.
Proof.
  intros H. unfold DecodeQueuedBitstreamBuffers.
  wp_step. wp_step. cbv zeta. wp_step. wp_step. wp_step; [wp_step; acc_leaf|].
  apply wp_run_fold_each; [intros; apply checked_Decode; assumption | acc_leaf].
Qed.

Lemma checked_EmptyBufferDoneTask buffer s :
  checked_accounted s ->
  wp (EmptyBufferDoneTask buffer) (fun _ => checked_accounted) (fun _ => True) s.
Proof.
  intros H. unfold EmptyBufferDoneTask.
  acc_run ltac:(idtac; lazymatch goal with
    | |- wp DecodeQueuedBitstreamBuffers _ _ _ =>
        call_with checked_DecodeQueuedBitstreamBuffers
    end).
Qed.

Lemma checked_Flush s :
  checked_accounted s -> wp Flush (fun _ => checked_accounted) (fun _ => True) s.
Proof.
  intros H. unfold Flush.
  acc_run ltac:(idtac; lazymatch goal with
    | |- wp (Decode _) _ _ _ => call_with checked_Decode
    end).
Qed.

Lemma checked_Reset s :
  checked_accounted s -> wp Reset (fun _ => checked_accounted) (fun _ => True) s.
Proof.
  intros H. unfold Reset.
  acc_run ltac:(idtac; framework_call checked_accounted).
Qed.

Lemma stopping_accounted s : checked_stopping s -> checked_accounted s.
Proof. acc_leaf. Qed.

Lemma ShutdownComponent_winds_down s :
  dcheck_is_on s = true ->
  wp ShutdownComponent (fun _ => checked_accounted) (fun _ => True) s.
Proof. intros H. unfold ShutdownComponent. acc_run no_calls. Qed.

Lemma checked_Destroy s :
  checked_accounted s -> wp Destroy (fun _ => checked_accounted) (fun _ => True) s.
Proof.
  intros H. unfold Destroy.
  repeat first
    [ wp_step
    | lazymatch goal with
      | |- wp ShutdownComponent _ _ _ =>
          eapply wp_mono; [apply ShutdownComponent_winds_down; acc_leaf
                          | intros ? ? ? | intros ? ?]
      | |- wp (BeginTransitionToState _) _ _ _ => framework_call checked_stopping
      | |- wp BusyLoopInDestroying _ _ _ => framework_call checked_stopping
      | |- wp Destructor _ _ _ => framework_call checked_accounted
      end ].
  all: try exact Logic.I.
  all: try (apply stopping_accounted; assumption).
  all: acc_leaf.
Qed.

Lemma checked_OnReachedIdleInInitializing s :
  checked_accounted s ->
  wp OnReachedIdleInInitializing (fun _ => checked_accounted) (fun _ => True) s.
Proof.
  intros H. unfold OnReachedIdleInInitializing.
  acc_run ltac:(idtac; framework_call checked_accounted).
Qed.

Lemma checked_OnReachedExecutingInInitializing s :
  current_state_change_ s = INITIALIZING ->
  checked_accounted s ->
  wp OnReachedExecutingInInitializing (fun _ => checked_accounted) (fun _ => True) s.
Proof.
  intros Hcsc H. unfold OnReachedExecutingInInitializing.
  wp_step. wp_step. wp_step. wp_step; [exact Logic.I|].
  wp_step. wp_step. wp_step. wp_step. wp_step.
  eapply wp_mono;
    [ apply wp_run_for_each with (P := checked_accounted);
      [ intros x s0 H1; acc_run no_calls | acc_leaf ]
    | intros r s' H' | auto ].
  cbv beta in H'. acc_run no_calls.
Qed.

Lemma checked_OnReachedPauseInResetting s :
  checked_accounted s ->
  wp OnReachedPauseInResetting (fun _ => checked_accounted) (fun _ => True) s.
Proof.
  intros H. unfold OnReachedPauseInResetting.
  acc_run ltac:(idtac; framework_call checked_accounted).
Qed.

Lemma checked_OnReachedExecutingInResetting s :
  current_state_change_ s = RESETTING ->
  checked_accounted s ->
  wp OnReachedExecutingInResetting (fun _ => checked_accounted) (fun _ => True) s.
Proof.
  intros Hcsc H. unfold OnReachedExecutingInResetting.
  acc_run ltac:(idtac; lazymatch goal with
    | |- wp DecodeQueuedBitstreamBuffers _ _ _ =>
        call_with checked_DecodeQueuedBitstreamBuffers
    | |- wp (reuse_queued_from _ _) _ _ _ => framework_call checked_accounted
    end).
Qed.

Lemma checked_OnReachedLoadedInDestroying s :
  checked_accounted s ->
  wp OnReachedLoadedInDestroying (fun _ => checked_accounted) (fun _ => True) s.
Proof.
  intros H. unfold OnReachedLoadedInDestroying.
  acc_run ltac:(idtac; lazymatch goal with
    | |- wp ShutdownComponent _ _ _ =>
        eapply wp_mono; [apply ShutdownComponent_winds_down; acc_leaf
                        | intros ? ? ? | intros ? ?]
    end).
Qed.

Lemma stopping_call {A} (m : M A) s :
  preserves checked_stopping m -> checked_stopping s ->
  wp m (fun _ => checked_accounted) (fun _ => True) s.
Proof.
  intros Hm H. eapply wp_mono; [apply wp_of_final; apply Hm; exact H | | auto].
  intros a s' H'. apply stopping_accounted. exact H'.
Qed.

Lemma checked_DispatchStateReached reached s :
  checked_accounted s ->
  wp (DispatchStateReached reached) (fun _ => checked_accounted) (fun _ => True) s.
Proof.
  intros H. unfold DispatchStateReached. wp_step. wp_step.
  destruct (current_state_change_ s) eqn:Hcsc; destruct reached;
    repeat wp_step; try exact Logic.I; try exact H.
  all: try (apply checked_OnReachedIdleInInitializing; exact H).
  all: try (apply checked_OnReachedExecutingInInitializing; [exact Hcsc | exact H]).
  all: try (apply checked_OnReachedPauseInResetting; exact H).
  all: try (apply checked_OnReachedExecutingInResetting; [exact Hcsc | exact H]).
  all: try (apply checked_OnReachedLoadedInDestroying; exact H).
  - apply stopping_call; [|split; [apply H | left; exact Hcsc]].
    apply preserves_OnReachedIdleInDestroying with (allowed := fun _ => True);
      try acc_side.
  - apply stopping_call; [|split; [apply H | right; exact Hcsc]].
    apply preserves_OnReachedInvalidInErroring with (allowed := fun _ => True);
      try acc_side.
Qed.

Lemma checked_EventHandlerCompleteTask event data1 data2 s :
  checked_accounted s ->
  wp (EventHandlerCompleteTask event data1 data2)
     (fun _ => checked_accounted) (fun _ => True) s.
Proof.
  intros H. unfold EventHandlerCompleteTask.
  acc_run ltac:(idtac; lazymatch goal with
    | |- wp (DispatchStateReached _) _ _ _ => call_with checked_DispatchStateReached
    | |- _ => framework_call checked_accounted
    end).
Qed.

Lemma checked_OnReachedEOSInFlushing s :
  current_state_change_ s <> DESTROYING -> current_state_change_ s <> ERRORING ->
  checked_accounted s ->
  wp OnReachedEOSInFlushing (fun _ => checked_accounted) (fun _ => True) s.
Proof.
  intros H1 H2 H. unfold OnReachedEOSInFlushing. acc_run no_calls.
Qed.

Lemma checked_FillBufferDoneTask_on buffer h s :
  checked_accounted s ->
  wp (FillBufferDoneTask_on buffer h) (fun _ => checked_accounted) (fun _ => True) s.
Proof.
  intros H. unfold FillBufferDoneTask_on.
  acc_run ltac:(idtac; lazymatch goal with
    | |- wp OnReachedEOSInFlushing _ _ _ =>
        eapply wp_mono;
        [ apply checked_OnReachedEOSInFlushing; acc_leaf | intros ? ? ? | intros ? ? ]
    | |- _ => framework_call checked_accounted
    end).
Qed.

Lemma checked_step op s :
  checked_accounted s -> wp (step op) (fun _ => checked_accounted) (fun _ => True) s.
Proof.
  intros H. unfold step. wp_step. wp_step. wp_step.
  { destruct (is_call op); wp_step; [exact Logic.I | exact H]. }
  destruct op; unfold run_op.
  - apply checked_Decode; exact H.
  - framework_call checked_accounted; first [exact Logic.I | assumption].
  - framework_call checked_accounted; first [exact Logic.I | assumption].
  - apply checked_Flush; exact H.
  - apply checked_Reset; exact H.
  - apply checked_Destroy; exact H.
  - apply checked_EventHandlerCompleteTask; exact H.
  - wp_step. unfold engine_fills. wp_step. unfold FillBufferDoneTask. wp_step.
    wp_step; [|exact Logic.I].
    apply checked_FillBufferDoneTask_on.
    destruct (headers s !! buffer); exact H.
  - apply checked_EmptyBufferDoneTask; exact H.
  - acc_run ltac:(idtac; framework_call checked_accounted).
  - acc_run ltac:(idtac; framework_call checked_accounted).
Qed.

Lemma unallocated_CreateComponent s :
  unallocated s ->
  wp CreateComponent
     (fun r s' => if r then unallocated s'
                  else dcheck_is_on s' = true /\ winding_down s')
     (fun _ => True) s.
Proof. intros H. unfold CreateComponent. acc_run no_calls. Qed.

Lemma allocated_AllocateInputBuffers s :
  unallocated s -> wp AllocateInputBuffers (fun _ => allocated) (fun _ => True) s.
Proof.
  intros H. unfold AllocateInputBuffers. wp_step. wp_step. wp_step.
  eapply wp_mono;
    [ apply wp_for_each_list with
        (J := fun rest s' =>
           dcheck_is_on s' = true /\
           (winding_down s' \/
            (Z.of_nat (length (free_input_buffers_ s')) + Z.of_nat (length rest) =
               Z.of_nat (Z.to_nat (input_buffer_count_ s')) /\
             input_buffers_at_component_ s' = 0)))
        (E := fun _ s' => dcheck_is_on s' = true /\ winding_down s')
    | | auto ].
  - intros x rest s0 H0. unfold new_header. acc_run no_calls.
  - rewrite length_seq. acc_leaf.
  - intros [v|] s' H'; wp_step; acc_leaf.
Qed.

Lemma allocated_Initialize profile client s :
  pristine s -> wp (Initialize profile client) (fun _ => allocated) (fun _ => True) s.
Proof.
  intros H. unfold Initialize. wp_step.
  framework_call pristine; try exact Logic.I.
  match goal with a : bool |- _ => destruct a end; [|wp_step; acc_leaf].
  unfold Initialize_rest.
  repeat first [ wp_step | acc_call ]; try exact Logic.I; try solve [acc_leaf].
  all: unfold Initialize_component; wp_step.
  all: (eapply wp_mono; [apply unallocated_CreateComponent; acc_leaf
                        | intros created s2 H2 | auto]).
  all: destruct created; simpl negb; cbv iota; [|wp_step; acc_leaf].
  all: acc_run ltac:(idtac; lazymatch goal with
    | |- wp (BeginTransitionToState _) _ _ _ => framework_call unallocated
    | |- wp AllocateInputBuffers _ _ _ => call_with allocated_AllocateInputBuffers
    | |- wp AllocateFakeOutputBuffers _ _ _ => framework_call allocated
    end).
Qed.

Ltac const_side := solve [ intros; simpl in *; intuition congruence ].

Lemma dcheck_Constructor d s :
  dcheck_is_on s = d -> dcheck_is_on (final (Constructor s)) = d.
Proof.
  apply preserves_Constructor with (I := fun x => dcheck_is_on x = d); const_side.
Qed.

Lemma dcheck_Initialize d profile client s :
  dcheck_is_on s = d -> dcheck_is_on (final (Initialize profile client s)) = d.
Proof.
  intros H. apply (wp_final _ (fun x => dcheck_is_on x = d)).
  unfold Initialize, Initialize_rest.
  repeat first
    [ wp_step
    | lazymatch goal with
      | |- wp (Initialize_profile _) _ _ _ =>
          eapply wp_mono;
          [ apply (proj2 (wp_final _ (fun x => dcheck_is_on x = d) _));
            apply preserves_Initialize_profile with (I := fun x => dcheck_is_on x = d);
            try const_side
          | intros ? ? ? | intros ? ? ]
      | |- wp Initialize_component _ _ _ =>
          eapply wp_mono;
          [ apply (proj2 (wp_final _ (fun x => dcheck_is_on x = d) _));
            apply preserves_Initialize_component with (I := fun x => dcheck_is_on x = d);
            try const_side
          | intros ? ? ? | intros ? ? ]
      | |- wp (StopOnError _) _ _ _ =>
          eapply wp_mono;
          [ apply (proj2 (wp_final _ (fun x => dcheck_is_on x = d) _));
            apply preserves_StopOnError with (I := fun x => dcheck_is_on x = d);
            try const_side
          | intros ? ? ? | intros ? ? ]
      end ].
  all: simpl in *; congruence.
Qed.

Lemma constant_step op s :
  dcheck_is_on (final (step op s)) = dcheck_is_on s /\
  input_buffer_count_ (final (step op s)) = input_buffer_count_ s.
Proof.
  apply preserves_step
    with (I := fun x => dcheck_is_on x = dcheck_is_on s /\
                        input_buffer_count_ x = input_buffer_count_ s)
         (allowed := fun _ => True);
    const_side.
Qed.

Lemma pristine_initial answers eng egl_display pre :
  pristine (initial_state true answers eng egl_display pre).
Proof. repeat split. Qed.

Lemma pristine_Constructor s :
  pristine s -> wp Constructor (fun _ => pristine) (fun _ => True) s.
Proof. intros H. framework_call pristine; first [exact Logic.I | assumption]. Qed.

Lemma allocated_accounted s :
  allocated s -> 0 <= input_buffer_count_ s -> checked_accounted s.
Proof. acc_leaf. Qed.

(** In a build with the assertions, every state the adapter reaches keeps
    the account, as long as the count of input buffers is not negative. *)
Lemma reachable_accounted s :
  reachable s -> dcheck_is_on s = true -> 0 <= input_buffer_count_ s ->
  inputs_accounted s.
Proof.
  induction 1 as [dcheck answers eng egl pre s HC
                 |dcheck answers eng egl pre profile client s0 b s HC HI
                 |s op s' Hr IH Hs]; intros Hd Hn.
  - pose proof (dcheck_Constructor dcheck (initial_state dcheck answers eng egl pre) eq_refl)
      as Hc. rewrite HC in Hc. simpl in Hc.
    assert (Hdt : dcheck = true) by congruence. clear Hc. subst dcheck.
    pose proof (pristine_Constructor _ (pristine_initial answers eng egl pre)) as Hp.
    unfold wp in Hp. rewrite HC in Hp. acc_leaf.
  - pose proof (dcheck_Constructor dcheck (initial_state dcheck answers eng egl pre) eq_refl)
      as Hc. rewrite HC in Hc. simpl in Hc.
    pose proof (dcheck_Initialize dcheck profile client s0 Hc) as Hi.
    rewrite HI in Hi. simpl in Hi.
    assert (Hdt : dcheck = true) by congruence. clear Hi Hc. subst dcheck.
    pose proof (pristine_Constructor _ (pristine_initial answers eng egl pre)) as Hp.
    unfold wp in Hp. rewrite HC in Hp.
    pose proof (allocated_Initialize profile client s0 Hp) as Ha.
    unfold wp in Ha. rewrite HI in Ha.
    apply (allocated_accounted s Ha Hn).
  - destruct (constant_step op s) as [Hcd Hcn]. rewrite Hs in Hcd, Hcn. simpl in Hcd, Hcn.
    assert (Hk : checked_accounted s).
    { split; [congruence|]. apply IH; congruence. }
    pose proof (checked_step op s Hk) as Hw. unfold wp in Hw. rewrite Hs in Hw.
    apply Hw.
Qed.




(** * Further properties of the adapter *)

(** ** Construction and errors *)



(** Before [Initialize] has created the factory of the client's weak
    pointers, [StopOnError] dereferences a null pointer. *)
Lemma StopOnError_null_factory error s :
  client_ptr_factory_ s = false -> current_state_change_ s <> ERRORING ->
  StopOnError error s = Crash (set_trace (trace s ++ stop_events error s) s).
Proof.
  intros Hf He. rewrite StopOnError_closed_form. unfold StopOnError_outcome.
  apply csc_is_false in He. rewrite He, Hf. reflexivity.
Qed.

(** X2: The constructor returns only if [PreSandboxInitialization] had been
    called and neither the loading of the OpenMAX library nor [OMX_Init]
    fails: it reports a failure through [StopOnError], which dereferences
    the factory [Initialize] has not created yet. *)
Theorem Constructor_returns_iff (dcheck : bool) (answers : list bool) (eng : EngineReplies)
    (egl_display : Z) (pre : bool) :
  (exists s', Constructor (initial_state dcheck answers eng egl_display pre) = Ok tt s') <->
  pre = true /\ answers !! 0%nat <> Some false /\ answers !! 1%nat <> Some false.
Proof.
  unfold Constructor, PostSandboxInitialization, RETURN_ON_OMX_FAILURE, RETURN_ON_FAILURE.
  destruct pre; [destruct answers as [|[] [|[] rest]]|]; unfold_prims; simpl.
  all: try (split; [intros _; repeat split; congruence | intros _; eexists; reflexivity]).
  all: split; [intros [s' H]; discriminate | intros (H0 & H1 & H2); congruence].
Qed.

(** X3: [Initialize] on a profile that is neither H264 nor VP8, called first on
    a constructed adapter: the failure is reported through [StopOnError]
    before the factory of the client's weak pointers exists, and the null
    factory is dereferenced; [false] is never returned. *)
Theorem Initialize_unsupported_profile (profile : Z) (client : bool) (s : State) :
  client_ptr_factory_ s = false ->
  client_ s = false ->
  current_state_change_ s <> ERRORING ->
  profile < H264PROFILE_MIN \/ VP8PROFILE_MAX < profile ->
  Initialize profile client s = Crash s.
Proof.
  intros Hf Hc He Hp. unfold Initialize, Initialize_profile.
  unfold H264PROFILE_MIN, H264PROFILE_MAX, VP8PROFILE_MIN, VP8PROFILE_MAX in *.
  replace ((0 <=? profile) && (profile <=? 10)) with false by lia.
  replace ((11 <=? profile) && (profile <=? 11)) with false by lia.
  unfold RETURN_ON_FAILURE. rewrite bind_assoc.
  unfold bind at 1. rewrite StopOnError_null_factory by assumption.
  unfold stop_events. rewrite Hc. simpl. rewrite set_trace_nil_id. reflexivity.
Qed.

Lemma Initialize_unsupported_profile_witness :
  Initialize 12 true (after Constructor (demo_start true [])) =
    Crash (after Constructor (demo_start true [])).
Proof.
  apply Initialize_unsupported_profile.
  - vm_compute. reflexivity.
  - vm_compute. reflexivity.
  - vm_compute. discriminate.
  - right. vm_compute. reflexivity.
Defined.

(** ** Initialisation *)

(** A loop whose body may leave the function, with an invariant [J] on the
    elements still to come and [E] for the value it leaves with. *)
Lemma wp_for_each_inv {A R} (J : list A -> State -> Prop) (E : R -> State -> Prop)
    (C : State -> Prop) (body : A -> M (option R)) (l : list A) :
  (forall x rest s, J (x :: rest) s ->
     wp (body x) (fun r s' => match r with Some v => E v s' | None => J rest s' end) C s) ->
  forall s, J l s ->
    wp (for_each l body)
       (fun r s' => match r with Some v => E v s' | None => J [] s' end) C s.
Proof.
  intros Hb. induction l as [|x l IH]; intros s H; simpl.
  - apply wp_ret. exact H.
  - apply wp_bind. eapply wp_mono; [apply Hb; exact H | | auto].
    intros [v|] s' H'; [apply wp_ret; exact H' | apply IH; exact H'].
Qed.

(** An address above those of a set goes in at its end. *)
Lemma set_insert_above x l :
  Forall (fun y => (y < x)%nat) l -> set_insert x l = (l ++ [x], true).
Proof.
  induction 1 as [|y l Hy Hl IH]; simpl; [reflexivity|].
  destruct (x <? y)%nat eqn:H1; [apply Nat.ltb_lt in H1; lia|].
  destruct (x =? y)%nat eqn:H2; [apply Nat.eqb_eq in H2; lia|].
  rewrite IH. reflexivity.
Qed.

(** Calls to a platform that never fails. *)
Lemma wp_omx_succeeds c (Q : bool -> State -> Prop) C s :
  env_results s = [] -> Q true (set_trace (trace s ++ [EvOmx c]) s) -> wp (omx c) Q C s.
Proof. intros He H. unfold wp, omx. unfold_prims. simpl. rewrite He. exact H. Qed.

Lemma wp_sys_succeeds c (Q : bool -> State -> Prop) C s :
  env_results s = [] -> Q true (set_trace (trace s ++ [EvSys c]) s) -> wp (sys c) Q C s.
Proof. intros He H. unfold wp, sys. unfold_prims. simpl. rewrite He. exact H. Qed.

(** A state written out field by field, innermost update first, so that the
    states met along a run do not nest. *)
Ltac flat_term X :=
  lazymatch X with
  | ?f ?v ?Y =>
      lazymatch type of Y with
      | State =>
          let Y' := flat_term Y in
          let v' := eval cbn
                      [dcheck_is_on env_results engine trace headers next_header
                       pre_sandbox_init_done_ component_handle_ client_ptr_factory_ client_
                       init_begun_ client_state_ current_state_change_ input_buffer_count_
                       input_buffer_size_ input_port_ input_buffers_at_component_
                       output_port_ output_buffers_at_component_ free_input_buffers_
                       queued_bitstream_buffers_ queued_picture_buffer_ids_ pictures_
                       fake_output_buffers_ codec_ h264_profile_
                       last_requested_picture_buffer_dimensions_ egl_display_
                       posted_picture_checks_ busy_loop_posted_ deleted_
                       set_env_results set_trace set_headers set_next_header
                       set_pre_sandbox_init_done_ set_component_handle_
                       set_client_ptr_factory_ set_client_ set_init_begun_ set_client_state_
                       set_current_state_change_ set_input_buffer_count_
                       set_input_buffer_size_ set_input_port_
                       set_input_buffers_at_component_ set_output_port_
                       set_output_buffers_at_component_ set_free_input_buffers_
                       set_queued_bitstream_buffers_ set_queued_picture_buffer_ids_
                       set_pictures_ set_fake_output_buffers_ set_codec_ set_h264_profile_
                       set_last_requested_picture_buffer_dimensions_
                       set_posted_picture_checks_ set_busy_loop_posted_ set_deleted_] in v in
          let t := eval cbv beta delta
                     [set_env_results set_trace set_headers set_next_header
                      set_pre_sandbox_init_done_ set_component_handle_
                      set_client_ptr_factory_ set_client_ set_init_begun_ set_client_state_
                      set_current_state_change_ set_input_buffer_count_
                      set_input_buffer_size_ set_input_port_ set_input_buffers_at_component_
                      set_output_port_ set_output_buffers_at_component_
                      set_free_input_buffers_ set_queued_bitstream_buffers_
                      set_queued_picture_buffer_ids_ set_pictures_ set_fake_output_buffers_
                      set_codec_ set_h264_profile_
                      set_last_requested_picture_buffer_dimensions_
                      set_posted_picture_checks_ set_busy_loop_posted_ set_deleted_] in (f v' Y') in
          let t' := eval cbn
                      [dcheck_is_on env_results engine trace headers next_header
                       pre_sandbox_init_done_ component_handle_ client_ptr_factory_ client_
                       init_begun_ client_state_ current_state_change_ input_buffer_count_
                       input_buffer_size_ input_port_ input_buffers_at_component_
                       output_port_ output_buffers_at_component_ free_input_buffers_
                       queued_bitstream_buffers_ queued_picture_buffer_ids_ pictures_
                       fake_output_buffers_ codec_ h264_profile_
                       last_requested_picture_buffer_dimensions_ egl_display_
                       posted_picture_checks_ busy_loop_posted_ deleted_] in t in
          lazymatch t' with
          | mkState _ _ _ _ _ _ _ _ _ _ _ _ _ _ _ _ _ _ _ _ _ _ _ _ _ _ _ _ _ _ _ => t'
          | _ => X
          end
      | _ => X
      end
  | _ => X
  end.

Ltac flat_state :=
  lazymatch goal with
  | |- wp ?m ?Q ?C ?X =>
      let t := flat_term X in
      tryif constr_eq X t then fail else change (wp m Q C t)
  end.

(** The hypotheses about a state written out, in terms of its fields. *)
Ltac small_hyps :=
  repeat match goal with
  | H : context [mkState] |- _ =>
      progress
        (unfold csc_is, cs_is in H;
         cbn
           [dcheck_is_on env_results engine trace headers next_header pre_sandbox_init_done_
            component_handle_ client_ptr_factory_ client_ init_begun_ client_state_
            current_state_change_ input_buffer_count_ input_buffer_size_ input_port_
            input_buffers_at_component_ output_port_ output_buffers_at_component_
            free_input_buffers_ queued_bitstream_buffers_ queued_picture_buffer_ids_
            pictures_ fake_output_buffers_ codec_ h264_profile_
            last_requested_picture_buffer_dimensions_ egl_display_ posted_picture_checks_
            busy_loop_posted_ deleted_] in H)
  end.

(** A branch the hypotheses exclude. *)
Ltac spell_out :=
  bools;
  repeat match goal with
  | H : (_ =? _) = false |- _ => apply Z.eqb_neq in H
  | H : _ !! _ = None |- _ => rewrite lookup_insert_eq in H
  | H : _ /\ _ |- _ => destruct H
  | Hp : pictures_ ?s = [], H : context [pictures_ ?s] |- _ =>
      lazymatch type of H with
      | pictures_ s = [] => fail
      | _ => rewrite Hp in H; simpl in H
      end
  end.

Ltac absurd_branch :=
  exfalso; spell_out;
  first
    [ congruence
    | lia
    | match goal with
      | H : _ \/ _ |- _ =>
          destruct H as [H|H]; [|try destruct H as [H|H]];
          spell_out; first [congruence | lia]
      end ].

Ltac prune := try solve [absurd_branch].

(** Symbolic execution when the platform never fails: a test is evaluated
    as far as it goes, then decided by a hypothesis or split in two. *)
Ltac ok_step :=
  first
    [ progress cbv beta iota
    | flat_state
    | lazymatch goal with
      | |- wp (omx _) _ _ _ => apply wp_omx_succeeds; [simpl; assumption|]
      | |- wp (sys _) _ _ _ => apply wp_sys_succeeds; [simpl; assumption|]
      | |- wp (if ?b then _ else _) _ _ _ =>
          lazymatch b with
          | true => fail
          | false => fail
          | _ =>
              let b' := eval simpl in b in
              tryif constr_eq b b' then
                first [ match goal with H : b = _ |- _ => rewrite H end
                      | destruct b eqn:?; prune ]
              else change b with b'
          end
      | |- wp (match ?x with _ => _ end) _ _ _ =>
          let x' := eval simpl in x in
          tryif constr_eq x x' then
            first [ match goal with H : x = _ |- _ => rewrite H end
                  | destruct x eqn:?; prune ]
          else change x with x'
      | _ => wp_step; small_hyps; prune
      end ].

Ltac ok_leaf :=
  intros;
  lazymatch goal with
  | |- wp _ _ _ _ => fail
  | _ => idtac
  end;
  simpl in *;
  repeat match goal with
  | H : _ /\ _ |- _ => destruct H
  | H : exists _, _ |- _ => destruct H
  end;
  repeat split; rewrite ?length_app; simpl; try congruence; try lia;
  try match goal with
  | H : trace ?s = _ |- exists t, trace ?s ++ _ = _ /\ _ =>
      rewrite H; eexists; split; [rewrite <- ?app_assoc; reflexivity|];
      rewrite ?client_calls_app; simpl; rewrite ?app_nil_r; assumption
  | H : trace ?s = _ |- exists t, trace ?s = _ /\ _ =>
      rewrite H; eexists; split; [rewrite <- ?app_assoc; reflexivity|];
      rewrite ?client_calls_app; simpl; rewrite ?app_nil_r; assumption
  | |- exists t, trace ?s ++ ?u = trace ?s ++ t /\ _ => exists u; split; reflexivity
  | |- exists t, trace ?s = trace ?s ++ t /\ _ =>
      exists []; split; [rewrite app_nil_r; reflexivity | reflexivity]
  | |- exists t, _ = trace ?s ++ t /\ _ =>
      eexists; split; [rewrite <- ?app_assoc; reflexivity | reflexivity]
  end.

Ltac ok_run := repeat ok_step; ok_leaf.

Lemma CreateComponent_succeeds s :
  env_results s = [] ->
  num_components (engine s) = 1 -> nPorts (engine s) = 2 ->
  input_eDir (engine s) = OMX_DirInput -> output_eDir (engine s) = OMX_DirOutput ->
  wp CreateComponent
     (fun r s' =>
        r = true /\ env_results s' = [] /\
        client_state_ s' = OMX_StateLoaded /\ component_handle_ s' = true /\
        input_port_ s' = nStartPortNumber (engine s) /\
        output_port_ s' = to_unsigned 32 (nStartPortNumber (engine s) + 1) /\
        input_buffer_count_ s' = to_signed 32 (input_nBufferCountActual (engine s)) /\
        input_buffer_size_ s' = to_signed 32 (input_nBufferSize (engine s)) /\
        current_state_change_ s' = current_state_change_ s /\
        client_ s' = client_ s /\ client_ptr_factory_ s' = client_ptr_factory_ s /\
        init_begun_ s' = init_begun_ s /\
        free_input_buffers_ s' = free_input_buffers_ s /\
        fake_output_buffers_ s' = fake_output_buffers_ s /\
        input_buffers_at_component_ s' = input_buffers_at_component_ s /\
        output_buffers_at_component_ s' = output_buffers_at_component_ s /\
        next_header s' = next_header s /\
        (exists t, trace s' = trace s ++ t /\ client_calls t = []))
     (fun _ => False) s.
Proof.
  intros He H1 H2 H3 H4. unfold CreateComponent.
  ok_run.
Qed.

Lemma AllocateInputBuffers_succeeds s :
  env_results s = [] ->
  wp AllocateInputBuffers
     (fun r s' =>
        r = true /\ env_results s' = [] /\
        length (free_input_buffers_ s') =
          (length (free_input_buffers_ s) + Z.to_nat (input_buffer_count_ s))%nat /\
        client_state_ s' = client_state_ s /\
        current_state_change_ s' = current_state_change_ s /\
        component_handle_ s' = component_handle_ s /\
        input_port_ s' = input_port_ s /\ output_port_ s' = output_port_ s /\
        input_buffer_count_ s' = input_buffer_count_ s /\
        client_ s' = client_ s /\ client_ptr_factory_ s' = client_ptr_factory_ s /\
        init_begun_ s' = init_begun_ s /\
        fake_output_buffers_ s' = fake_output_buffers_ s /\
        input_buffers_at_component_ s' = input_buffers_at_component_ s /\
        output_buffers_at_component_ s' = output_buffers_at_component_ s /\
        (next_header s <= next_header s')%nat /\
        (exists t, trace s' = trace s ++ t /\ client_calls t = []))
     (fun _ => False) s.
Proof.
  intros He. unfold AllocateInputBuffers. repeat ok_step.
  eapply wp_mono;
    [ apply wp_for_each_inv with
        (E := fun (_ : bool) (_ : State) => False) (C := fun _ => False)
        (J := fun rest s' =>
           env_results s' = [] /\
           (length (free_input_buffers_ s') + length rest =
              length (free_input_buffers_ s) + Z.to_nat (input_buffer_count_ s))%nat /\
           client_state_ s' = client_state_ s /\
           current_state_change_ s' = current_state_change_ s /\
           component_handle_ s' = component_handle_ s /\
           input_port_ s' = input_port_ s /\ output_port_ s' = output_port_ s /\
           input_buffer_count_ s' = input_buffer_count_ s /\
           client_ s' = client_ s /\ client_ptr_factory_ s' = client_ptr_factory_ s /\
           init_begun_ s' = init_begun_ s /\
           fake_output_buffers_ s' = fake_output_buffers_ s /\
           input_buffers_at_component_ s' = input_buffers_at_component_ s /\
           output_buffers_at_component_ s' = output_buffers_at_component_ s /\
           (next_header s <= next_header s')%nat /\
           (exists t, trace s' = trace s ++ t /\ client_calls t = []))
    | | auto ].
  - intros x rest s0 HJ. destruct HJ as (He0 & HJ). unfold new_header. ok_run.
  - rewrite length_seq. ok_leaf.
  - intros [r|] s' HJ; [destruct HJ|]. ok_run.
Qed.

Lemma AllocateFakeOutputBuffers_succeeds s :
  env_results s = [] ->
  Forall (fun b => (b < next_header s)%nat) (fake_output_buffers_ s) ->
  wp AllocateFakeOutputBuffers
     (fun r s' =>
        r = true /\ env_results s' = [] /\
        length (fake_output_buffers_ s') =
          (length (fake_output_buffers_ s) + Z.to_nat kNumPictureBuffers)%nat /\
        client_state_ s' = client_state_ s /\
        current_state_change_ s' = current_state_change_ s /\
        component_handle_ s' = component_handle_ s /\
        input_port_ s' = input_port_ s /\ output_port_ s' = output_port_ s /\
        input_buffer_count_ s' = input_buffer_count_ s /\
        client_ s' = client_ s /\ client_ptr_factory_ s' = client_ptr_factory_ s /\
        init_begun_ s' = init_begun_ s /\
        free_input_buffers_ s' = free_input_buffers_ s /\
        input_buffers_at_component_ s' = input_buffers_at_component_ s /\
        output_buffers_at_component_ s' = output_buffers_at_component_ s /\
        (exists t, trace s' = trace s ++ t /\ client_calls t = []))
     (fun _ => False) s.
Proof.
  intros He Hb. unfold AllocateFakeOutputBuffers. repeat ok_step.
  eapply wp_mono;
    [ apply wp_for_each_inv with
        (E := fun (_ : bool) (_ : State) => False) (C := fun _ => False)
        (J := fun rest s' =>
           env_results s' = [] /\
           Forall (fun b => (b < next_header s')%nat) (fake_output_buffers_ s') /\
           (length (fake_output_buffers_ s') + length rest =
              length (fake_output_buffers_ s) + Z.to_nat kNumPictureBuffers)%nat /\
           client_state_ s' = client_state_ s /\
           current_state_change_ s' = current_state_change_ s /\
           component_handle_ s' = component_handle_ s /\
           input_port_ s' = input_port_ s /\ output_port_ s' = output_port_ s /\
           input_buffer_count_ s' = input_buffer_count_ s /\
           client_ s' = client_ s /\ client_ptr_factory_ s' = client_ptr_factory_ s /\
           init_begun_ s' = init_begun_ s /\
           free_input_buffers_ s' = free_input_buffers_ s /\
           input_buffers_at_component_ s' = input_buffers_at_component_ s /\
           output_buffers_at_component_ s' = output_buffers_at_component_ s /\
           (exists t, trace s' = trace s ++ t /\ client_calls t = []))
    | | auto ].
  - intros x rest s0 HJ. destruct HJ as (He0 & Hb0 & HJ). unfold new_header.
    repeat ok_step.
    all: match goal with
         | H : set_insert _ _ = _ |- _ =>
             simpl in H; rewrite (set_insert_above _ _ Hb0) in H; injection H as <- <-
         end.
    + discriminate.
    + ok_leaf. apply Forall_app. split; [|repeat constructor].
      eapply Forall_impl; [exact Hb0|]. simpl. intros; lia.
  - rewrite length_seq. ok_leaf.
  - intros [r|] s' HJ; [destruct HJ|]. ok_run.
Qed.

(** The request [BeginTransitionToState] sends. *)
Lemma BeginTransitionToState_succeeds new_state s :
  env_results s = [] ->
  current_state_change_ s <> NO_TRANSITION -> current_state_change_ s <> ERRORING ->
  BeginTransitionToState new_state s =
    Ok tt (set_trace (trace s ++ [EvOmx (OMX_SendCommand OMX_CommandStateSet
                                           (OMX_STATETYPE_code new_state))]) s).
Proof.
  intros He H1 H2. unfold BeginTransitionToState, BeginTransitionToState_with.
  rewrite bind_get. apply csc_is_false in H1, H2.
  rewrite bind_assoc || idtac.
  unfold when. rewrite H1, H2. simpl negb.
  destruct (negb (bool_decide (new_state = OMX_StateInvalid))).
  - rewrite bind_DCHECK by (right; reflexivity).
    unfold omx. unfold_prims. simpl. rewrite He. reflexivity.
  - rewrite bind_ret. unfold omx. unfold_prims. simpl. rewrite He. reflexivity.
Qed.

Lemma Initialize_profile_accepts profile s :
  H264PROFILE_MIN <= profile <= VP8PROFILE_MAX ->
  exists codec avc,
    Initialize_profile profile s = Ok true (set_h264_profile_ avc (set_codec_ codec s)).
Proof.
  intros Hp. unfold Initialize_profile.
  destruct ((H264PROFILE_MIN <=? profile) && (profile <=? H264PROFILE_MAX)) eqn:Hh.
  - apply andb_true_iff in Hh. destruct Hh as [H1 H2].
    apply Z.leb_le in H1, H2.
    destruct (MapH264Profile_in_range profile (set_codec_ H264 s) (conj H1 H2))
      as (avc & Hm & Ha).
    rewrite bind_modify. rewrite (bind_Ok _ _ _ _ _ Hm). rewrite bind_modify.
    apply Z.eqb_neq in Ha. rewrite Ha. simpl.
    exists H264, avc. reflexivity.
  - replace ((VP8PROFILE_MIN <=? profile) && (profile <=? VP8PROFILE_MAX)) with true.
    + rewrite bind_modify. exists VP8, (h264_profile_ s). unfold ret. f_equal; state_eq.
    + symmetry. apply andb_true_iff. apply andb_false_iff in Hh.
      unfold H264PROFILE_MIN, H264PROFILE_MAX, VP8PROFILE_MIN, VP8PROFILE_MAX in *.
      split; [apply Z.leb_le | apply Z.leb_le]; destruct Hh as [Hh|Hh];
        try apply Z.leb_gt in Hh; lia.
Qed.

Lemma wp_BeginTransitionToState_succeeds new_state (Q : unit -> State -> Prop) C s :
  env_results s = [] ->
  current_state_change_ s <> NO_TRANSITION -> current_state_change_ s <> ERRORING ->
  Q tt (set_trace (trace s ++ [EvOmx (OMX_SendCommand OMX_CommandStateSet
                                        (OMX_STATETYPE_code new_state))]) s) ->
  wp (BeginTransitionToState new_state) Q C s.
Proof.
  intros He H1 H2 H. unfold wp.
  rewrite BeginTransitionToState_succeeds by assumption. exact H.
Qed.

(** A call whose outcome a lemma gives, in a run where nothing fails. *)
Ltac ok_call lemma :=
  eapply wp_mono;
  [ apply lemma; simpl;
    first [ assumption | congruence
          | match goal with
            | |- Forall _ ?l => replace l with (@nil nat) by congruence; constructor
            end ]
  | let a := fresh "a" in
    let s' := fresh "s" in
    let H := fresh "H" in
    intros a s' H; simpl in H;
    repeat match goal with
           | H : _ /\ _ |- _ => destruct H
           | H : exists _, _ |- _ => destruct H
           end;
    subst a
  | intros ? [] ].




Lemma omx_succeeds c s :
  env_results s = [] -> omx c s = Ok true (set_trace (trace s ++ [EvOmx c]) s).
Proof. intros He. unfold omx. unfold_prims. simpl. rewrite He. reflexivity. Qed.

(** The loop of [OnReachedExecutingInInitializing] when no call fails: every
    fake output buffer is given to the component and counted. *)
Lemma fill_fake_buffers l : forall s,
  env_results s = [] ->
  for_each l (fun buffer =>
      result <- omx (OMX_FillThisBuffer buffer) ;;
      if result then
        modify (fun s => set_output_buffers_at_component_
                           (output_buffers_at_component_ s + 1) s) ;;
        ret None
      else StopOnError PLATFORM_FAILURE ;; ret (Some tt)) s =
  Ok None (set_output_buffers_at_component_
             (output_buffers_at_component_ s + Z.of_nat (length l))
             (set_trace (trace s ++ map (fun b => EvOmx (OMX_FillThisBuffer b)) l) s)).
Proof.
  induction l as [|x l IH]; intros s He.
  - simpl. unfold ret. f_equal. state_eq; [rewrite app_nil_r; reflexivity | lia].
  - cbn [for_each]. rewrite bind_assoc.
    rewrite (bind_Ok _ _ _ _ _ (omx_succeeds _ s He)). cbv iota.
    rewrite bind_assoc, bind_modify, bind_ret.
    rewrite IH by exact He. f_equal. state_eq.
    + rewrite <- app_assoc. reflexivity.
    + rewrite Nat2Z.inj_succ. lia.
Qed.

Lemma wp_fill_fake_buffers l (Q : option unit -> State -> Prop) C s :
  env_results s = [] ->
  Q None (set_output_buffers_at_component_
            (output_buffers_at_component_ s + Z.of_nat (length l))
            (set_trace (trace s ++ map (fun b => EvOmx (OMX_FillThisBuffer b)) l) s)) ->
  wp (for_each l (fun buffer =>
        result <- omx (OMX_FillThisBuffer buffer) ;;
        if result then
          modify (fun s => set_output_buffers_at_component_
                             (output_buffers_at_component_ s + 1) s) ;;
          ret None
        else StopOnError PLATFORM_FAILURE ;; ret (Some tt))) Q C s.
Proof. intros He H. unfold wp. rewrite fill_fake_buffers by exact He. exact H. Qed.

Lemma wp_returns_eq (m : M unit) s s' :
  wp m (fun _ s1 => s1 = s') (fun _ => False) s -> m s = Ok tt s'.
Proof. unfold wp. destruct (m s) as [[] s1|s1]; [intros -> | contradiction]. reflexivity. Qed.

Lemma wp_returns (m : M unit) (P : State -> Prop) s :
  wp m (fun _ => P) (fun _ => False) s -> exists s', m s = Ok tt s' /\ P s'.
Proof. unfold wp. destruct (m s) as [[] s'|s']; [eauto | contradiction]. Qed.

(** X5: The two acknowledgements that complete the initialisation, on an adapter
    [Initialize] has left INITIALIZING with the component loaded, when no
    call fails: on [OMX_StateIdle] the adapter asks for [OMX_StateExecuting];
    on [OMX_StateExecuting] it gives every fake output buffer to the
    component, counts them, and tells the client, if there is one, that the
    initialisation is complete.  The adapter is then executing, in no
    transition. *)
Theorem initialization_completes (s : State) :
  current_state_change_ s = INITIALIZING ->
  client_state_ s = OMX_StateLoaded ->
  env_results s = [] ->
  deleted_ s = false ->
  exists s',
    run [state_reached OMX_StateIdle; state_reached OMX_StateExecuting] s = Ok tt s' /\
    current_state_change_ s' = NO_TRANSITION /\
    client_state_ s' = OMX_StateExecuting /\
    trace s' =
      trace s ++ [state_request OMX_StateExecuting]
              ++ map (fun b => EvOmx (OMX_FillThisBuffer b)) (fake_output_buffers_ s)
              ++ (if client_ s then [EvClient (NotifyInitializationComplete true)] else []) /\
    output_buffers_at_component_ s' =
      output_buffers_at_component_ s + Z.of_nat (length (fake_output_buffers_ s)) /\
    fake_output_buffers_ s' = fake_output_buffers_ s /\
    free_input_buffers_ s' = free_input_buffers_ s /\
    input_buffers_at_component_ s' = input_buffers_at_component_ s /\
    client_ s' = client_ s.
Proof.
  intros Hc Hs He Hd.
  apply wp_returns. unfold run, state_reached.
  repeat first
    [ ok_step
    | lazymatch goal with
      | |- wp (step _) _ _ _ =>
          unfold step, run_op, EventHandlerCompleteTask, DispatchStateReached
      | |- wp OnReachedIdleInInitializing _ _ _ => unfold OnReachedIdleInInitializing
      | |- wp OnReachedExecutingInInitializing _ _ _ =>
          unfold OnReachedExecutingInInitializing
      | |- wp (BeginTransitionToState _) _ _ _ =>
          apply wp_BeginTransitionToState_succeeds; [simpl; congruence..|]
      | |- wp (for_each _ _) _ _ _ =>
          apply wp_fill_fake_buffers; [simpl; assumption|]
      end ].
  all: try match goal with
           | H : client_ _ = _ |- _ => simpl in H; rewrite H
           end.
  all: simpl; unfold state_request; rewrite <- ?app_assoc; simpl; rewrite ?app_nil_r.
  all: repeat split; try reflexivity; try congruence.
Qed.

Lemma initialization_completes_witness :
  exists s',
    run [state_reached OMX_StateIdle; state_reached OMX_StateExecuting]
      (demo_initialized true []) = Ok tt s' /\
    current_state_change_ s' = NO_TRANSITION /\
    client_state_ s' = OMX_StateExecuting /\
    output_buffers_at_component_ s' = 8.
Proof.
  destruct (initialization_completes (demo_initialized true []))
    as (s' & Hr & Hc & Hs & _ & Ho & _).
  - vm_compute. reflexivity.
  - vm_compute. reflexivity.
  - vm_compute. reflexivity.
  - vm_compute. reflexivity.
  - exists s'. split; [exact Hr|]. split; [exact Hc|]. split; [exact Hs | exact Ho].
Defined.

(** ** A bitstream buffer through the component *)

Lemma has_EOS_clear_EOS flags : has_EOS (clear_EOS flags) = false.
Proof.
  unfold has_EOS, clear_EOS, OMX_BUFFERFLAG_EOS.
  rewrite <- Z.land_assoc.
  replace (Z.land (to_unsigned 32 (Z.lnot 1)) 1) with 0 by (vm_compute; reflexivity).
  rewrite Z.land_0_r. reflexivity.
Qed.

(** [Decode] when it hands the buffer to the component and nothing fails. *)
Lemma Decode_hands_over b s buffer rest h :
  ~ Decode_queues s -> Decode_legal s ->
  free_input_buffers_ s = buffer :: rest ->
  headers s !! buffer = Some h ->
  dcheck_is_on s = false \/ pAppPrivate h = AppNull ->
  ~ (bb_id b = -1 /\ bb_size b = 0) ->
  env_results s = [] ->
  let h1 :=
    hdr_set_nTimeStamp (bb_id b)
      (hdr_set_nFlags (clear_EOS (nFlags h))
         (hdr_set_nAllocLen (to_unsigned 32 (bb_size b))
            (hdr_set_nFilledLen (to_unsigned 32 (bb_size b))
               (hdr_set_pBuffer (bb_handle b)
                  (hdr_set_pAppPrivate (AppInput (bb_handle b, bb_id b)) h))))) in
  Decode b s =
    Ok tt (set_input_buffers_at_component_ (input_buffers_at_component_ s + 1)
             (set_trace (trace s ++ [EvSys (SharedMemoryMap (bb_handle b) (bb_size b));
                                     EvOmx (OMX_EmptyThisBuffer buffer h1)])
                (set_headers (<[buffer := h1]> (headers s))
                   (set_free_input_buffers_ rest s)))).
Proof.
  intros Hq Hl Hf Hh Hp Hb He h1. unfold Decode. rewrite bind_get.
  destruct (csc_is RESETTING s || csc_is INITIALIZING s
            || negb (bool_decide (queued_bitstream_buffers_ s = []))
            || bool_decide (free_input_buffers_ s = [])) eqn:Ht;
    [apply Decode_queues_test in Ht; contradiction|].
  apply Decode_legal_test in Hl. rewrite Hl. unfold RETURN_ON_FAILURE at 1.
  rewrite Hf. rewrite bind_modify.
  replace ((bb_id b =? -1) && (bb_size b =? 0)) with false
    by (symmetry; apply andb_false_iff;
        destruct (Z.eqb_spec (bb_id b) (-1)); [|auto];
        destruct (Z.eqb_spec (bb_size b) 0); [exfalso; auto | auto]).
  unfold sys. rewrite bind_assoc. unfold emit at 1. rewrite bind_modify.
  unfold ask at 1. unfold bind at 1. cbn [env_results set_trace set_free_input_buffers_].
  rewrite He. unfold RETURN_ON_FAILURE at 1.
  erewrite bind_header_at by (simpl; exact Hh).
  rewrite bind_DCHECK
    by (destruct Hp as [Hp|Hp]; [left; exact Hp | right; rewrite Hp; reflexivity]).
  erewrite bind_update_header by (simpl; exact Hh).
  erewrite bind_header_at by (simpl; apply lookup_insert_eq).
  unfold omx. rewrite bind_assoc. unfold emit at 1. rewrite bind_modify.
  unfold ask at 1. unfold bind at 1. simpl env_results. rewrite He.
  unfold RETURN_ON_OMX_FAILURE, RETURN_ON_FAILURE. unfold modify. f_equal.
  state_eq. rewrite <- app_assoc. reflexivity.
Qed.

(** X6: A bitstream buffer that [Decode] hands to the component, and the task
    that runs when the component has consumed it, with nothing failing:
    [Decode] maps the buffer and gives the first free input buffer to the
    component, stamped with the id and filled with the size; the task puts
    the input buffer back at the end of the free ones, with its private data
    cleared, restores the count of the buffers at the component, and tells
    the client, if there is one, that the bitstream buffer of that id is
    done. *)
Theorem Decode_round_trip (b : BitstreamBuffer) (s : State) (buffer : nat)
    (rest : list nat) (h : OMX_BUFFERHEADERTYPE) :
  ~ Decode_queues s -> Decode_legal s ->
  free_input_buffers_ s = buffer :: rest ->
  headers s !! buffer = Some h ->
  pAppPrivate h = AppNull ->
  ~ (bb_id b = -1 /\ bb_size b = 0) ->
  env_results s = [] ->
  0 <= input_buffers_at_component_ s ->
  exists s1 s2 h1 h2,
    Decode b s = Ok tt s1 /\
    trace s1 = trace s ++ [EvSys (SharedMemoryMap (bb_handle b) (bb_size b));
                           EvOmx (OMX_EmptyThisBuffer buffer h1)] /\
    nTimeStamp h1 = bb_id b /\
    nFilledLen h1 = to_unsigned 32 (bb_size b) /\
    has_EOS (nFlags h1) = false /\
    free_input_buffers_ s1 = rest /\
    input_buffers_at_component_ s1 = input_buffers_at_component_ s + 1 /\
    EmptyBufferDoneTask buffer s1 = Ok tt s2 /\
    trace s2 = trace s1 ++ (if client_ s
                            then [EvClient (NotifyEndOfBitstreamBuffer (bb_id b))]
                            else []) /\
    free_input_buffers_ s2 = rest ++ [buffer] /\
    input_buffers_at_component_ s2 = input_buffers_at_component_ s /\
    headers s2 !! buffer = Some h2 /\ pAppPrivate h2 = AppNull /\
    queued_bitstream_buffers_ s2 = [].
Proof.
  intros Hq Hl Hf Hh Hp Hb He Ha.
  pose proof (Decode_hands_over b s buffer rest h Hq Hl Hf Hh (or_intror Hp) Hb He) as Hd.
  cbv zeta in Hd.
  set (h1 := hdr_set_nTimeStamp (bb_id b) _) in Hd.
  set (s1 := set_input_buffers_at_component_ _ _) in Hd.
  assert (Hh1 : headers s1 !! buffer = Some h1) by (simpl; apply lookup_insert_eq).
  assert (Hc1 : current_state_change_ s1 = current_state_change_ s) by reflexivity.
  destruct (EmptyBufferDoneTask_effect buffer s1 h1 Hh1) as [_ Hdone].
  { right. simpl. lia. }
  specialize (Hdone (bb_handle b, bb_id b) (has_EOS_clear_EOS _) eq_refl).
  rewrite DecodeQueuedBitstreamBuffers_unfold in Hdone.
  assert (Hq1 : queued_bitstream_buffers_ (completed buffer h1 (bb_handle b, bb_id b) s1) = []).
  { unfold completed. simpl. destruct (client_ s); simpl;
      destruct (queued_bitstream_buffers_ s) eqn:E; try reflexivity;
      exfalso; apply Hq; right; right; left; congruence. }
  rewrite Hq1 in Hdone. simpl decode_in_order in Hdone.
  destruct (csc_is DESTROYING (completed buffer h1 (bb_handle b, bb_id b) s1)
            || csc_is ERRORING (completed buffer h1 (bb_handle b, bb_id b) s1)).
  all: eexists s1, _, h1, _.
  all: split; [exact Hd|]; split; [reflexivity|]; split; [reflexivity|].
  all: split; [reflexivity|]; split; [apply has_EOS_clear_EOS|].
  all: split; [reflexivity|]; split; [reflexivity|]; split; [exact Hdone|].
  all: unfold completed; simpl; destruct (client_ s); simpl.
  all: rewrite ?app_nil_r.
  all: repeat split; try reflexivity; try lia; try apply lookup_insert_eq.
  all: reflexivity.
Qed.

Lemma Decode_round_trip_witness :
  exists s1 s2,
    Decode (mkBitstreamBuffer 7 3 100) (demo_executing true []) = Ok tt s1 /\
    EmptyBufferDoneTask 1 s1 = Ok tt s2 /\
    trace s2 = trace s1 ++ [EvClient (NotifyEndOfBitstreamBuffer 7)] /\
    free_input_buffers_ s2 = [2%nat; 1%nat] /\
    input_buffers_at_component_ s2 = 0.
Proof.
  destruct (Decode_round_trip (mkBitstreamBuffer 7 3 100) (demo_executing true [])
              1%nat [2%nat] (mkHeader 0 0 0 0 AppNull 0 0 0 0))
    as (s1 & s2 & h1 & h2 & Hd & _ & _ & _ & _ & _ & _ & He & Ht & Hf & Ha & _).
  - vm_compute. intros [H|[H|[H|H]]]; try discriminate H. apply H. reflexivity.
  - vm_compute. split; [left | right]; reflexivity.
  - vm_compute. reflexivity.
  - vm_compute. reflexivity.
  - reflexivity.
  - vm_compute. intros [H _]. discriminate H.
  - vm_compute. reflexivity.
  - vm_compute. discriminate.
  - exists s1, s2. split; [exact Hd|]. split; [exact He|]. split; [exact Ht|].
    split; [exact Hf | exact Ha].
Defined.

(** ** The end-of-stream buffer of a flush *)

Lemma set_EOS_has_EOS flags : has_EOS (set_EOS flags) = true.
Proof.
  unfold has_EOS, set_EOS, OMX_BUFFERFLAG_EOS. apply negb_true_iff. apply Z.eqb_neq.
  intros H. apply (f_equal (fun z => Z.testbit z 0)) in H.
  rewrite Z.land_spec, Z.lor_spec, orb_true_r in H. discriminate H.
Qed.

(** X7: [Flush] on an executing adapter in no transition that has a free input
    buffer and nothing queued, when nothing fails: the first free input
    buffer goes to the component empty, flagged EOS and stamped -2, without
    any shared memory being mapped, and the adapter is FLUSHING.  When the
    component gives that buffer back it returns to the end of the free ones
    and the client is not told of any bitstream buffer. *)
Theorem Flush_round_trip (s : State) (buffer : nat) (rest : list nat)
    (h : OMX_BUFFERHEADERTYPE) :
  current_state_change_ s = NO_TRANSITION ->
  client_state_ s = OMX_StateExecuting ->
  queued_bitstream_buffers_ s = [] ->
  free_input_buffers_ s = buffer :: rest ->
  headers s !! buffer = Some h ->
  env_results s = [] ->
  0 <= input_buffers_at_component_ s ->
  exists s1 s2 h1,
    Flush s = Ok tt s1 /\
    current_state_change_ s1 = FLUSHING /\
    trace s1 = trace s ++ [EvOmx (OMX_EmptyThisBuffer buffer h1)] /\
    has_EOS (nFlags h1) = true /\ nTimeStamp h1 = -2 /\
    nFilledLen h1 = 0 /\ nAllocLen h1 = 0 /\ pAppPrivate h1 = pAppPrivate h /\
    headers s1 !! buffer = Some h1 /\
    free_input_buffers_ s1 = rest /\
    input_buffers_at_component_ s1 = input_buffers_at_component_ s + 1 /\
    EmptyBufferDoneTask buffer s1 = Ok tt s2 /\
    trace s2 = trace s1 /\
    free_input_buffers_ s2 = rest ++ [buffer] /\
    input_buffers_at_component_ s2 = input_buffers_at_component_ s /\
    headers s2 = headers s1 /\
    current_state_change_ s2 = FLUSHING.
Proof.
  intros Hc Hs Hq Hf Hh He Ha.
  set (h1 := hdr_set_nTimeStamp (-2)
               (hdr_set_nFlags (set_EOS (nFlags h))
                  (hdr_set_nAllocLen 0 (hdr_set_nFilledLen 0 h)))).
  set (s1 := set_input_buffers_at_component_ (input_buffers_at_component_ s + 1)
               (set_trace (trace s ++ [EvOmx (OMX_EmptyThisBuffer buffer h1)])
                  (set_headers (<[buffer := h1]> (headers s))
                     (set_free_input_buffers_ rest
                        (set_current_state_change_ FLUSHING s))))).
  assert (H1 : Flush s = Ok tt s1).
  { apply wp_returns_eq. unfold Flush.
    repeat first
      [ ok_step
      | lazymatch goal with
        | |- wp (Decode _) _ _ _ => unfold Decode, EOS_sentinel
        end ].
    all: try solve [ exfalso; bools; simpl in *; congruence ].
    all: repeat match goal with
         | H : headers _ !! _ = Some ?x |- _ =>
             tryif constr_eq x h then fail else (rewrite Hh in H; injection H as <-)
         | H : <[_ := _]> _ !! _ = Some _ |- _ =>
             rewrite lookup_insert_eq in H; injection H as <-
         end.
    all: unfold s1, h1; state_eq; rewrite <- ?app_assoc; reflexivity. }
  assert (Hh1 : headers s1 !! buffer = Some h1) by (simpl; apply lookup_insert_eq).
  destruct (EmptyBufferDoneTask_effect buffer s1 h1 Hh1) as [Hdone _].
  { right. simpl. lia. }
  specialize (Hdone (set_EOS_has_EOS _)).
  exists s1, (returned buffer s1), h1.
  split; [exact H1|]. split; [reflexivity|]. split; [reflexivity|].
  split; [apply set_EOS_has_EOS|]. split; [reflexivity|]. split; [reflexivity|].
  split; [reflexivity|]. split; [reflexivity|]. split; [exact Hh1|].
  split; [reflexivity|]. split; [reflexivity|]. split; [exact Hdone|].
  simpl. repeat split; try reflexivity. lia.
Qed.

Lemma Flush_round_trip_witness :
  exists s1 s2,
    Flush (demo_executing true []) = Ok tt s1 /\
    current_state_change_ s1 = FLUSHING /\
    EmptyBufferDoneTask 1 s1 = Ok tt s2 /\
    trace s2 = trace s1 /\
    free_input_buffers_ s2 = [2%nat; 1%nat].
Proof.
  destruct (Flush_round_trip (demo_executing true []) 1%nat [2%nat]
              (mkHeader 0 0 0 0 AppNull 0 0 0 0))
    as (s1 & s2 & h1 & H1 & H2 & _ & _ & _ & _ & _ & _ & _ & _ & _ & H12 & H13 & H14 & _).
  - vm_compute. reflexivity.
  - vm_compute. reflexivity.
  - vm_compute. reflexivity.
  - vm_compute. reflexivity.
  - vm_compute. reflexivity.
  - vm_compute. reflexivity.
  - vm_compute. discriminate.
  - exists s1, s2. split; [exact H1|]. split; [exact H2|]. split; [exact H12|].
    split; [exact H13 | exact H14].
Defined.

(** ** Picture buffers *)

Lemma bind_ret_tt (m : M unit) s : (m ;; ret tt) s = m s.
Proof. unfold bind, ret. destruct (m s) as [[] s'|s']; reflexivity. Qed.

(** X8: [AssignPictureBuffers] refuses the buffers of the client, on an adapter
    that is not RESETTING, DESTROYING or ERRORING and whose factory exists:
    with ILLEGAL_STATE when the component is not idle, executing or paused,
    and otherwise with INVALID_ARGUMENT when there are not exactly
    [kNumPictureBuffers] of them.  The client, if it is there and
    [Initialize] had finished its setup, is told that error and nothing
    else; no buffer is registered with the component; the adapter ends
    ERRORING, or as it was when it holds no component. *)
Theorem AssignPictureBuffers_rejects (buffers : list PictureBuffer) (s : State)
    (error : Error) :
  current_state_change_ s <> RESETTING -> current_state_change_ s <> DESTROYING ->
  current_state_change_ s <> ERRORING ->
  client_ptr_factory_ s = true ->
  (~ component_running s /\ error = ILLEGAL_STATE) \/
  (component_running s /\ Z.of_nat (length buffers) <> kNumPictureBuffers /\
   error = INVALID_ARGUMENT) ->
  exists s' n,
    AssignPictureBuffers buffers s = Ok tt s' /\
    trace s' = trace s ++ stop_events error s ++ replicate n invalid_request /\
    client_ s' = false /\
    pictures_ s' = pictures_ s /\ headers s' = headers s /\
    (component_running s -> current_state_change_ s' = ERRORING).
Proof.
  intros Hr Hd He Hf Hcase. unfold component_running in *.
  assert (Hstop : AssignPictureBuffers buffers s = StopOnError error s).
  { unfold AssignPictureBuffers. rewrite bind_get.
    replace (csc_is RESETTING s || csc_is DESTROYING s || csc_is ERRORING s) with false
      by (symmetry; rewrite !orb_false_iff; repeat split; apply csc_is_false; assumption).
    unfold CanFillBuffer. rewrite bind_assoc, bind_get, bind_ret.
    replace (negb (csc_is DESTROYING s) && negb (csc_is ERRORING s)
             && negb (csc_is RESETTING s)) with true
      by (symmetry; rewrite !andb_true_iff; repeat split; apply negb_true_iff;
          apply csc_is_false; assumption).
    rewrite andb_true_l.
    destruct Hcase as [[Hn ->]|(Hc & Hl & ->)].
    - replace (cs_is OMX_StateIdle s || cs_is OMX_StateExecuting s
               || cs_is OMX_StatePause s) with false.
      + unfold RETURN_ON_FAILURE. apply bind_ret_tt.
      + symmetry. rewrite !orb_false_iff.
        repeat split; apply cs_is_false; intros H; apply Hn; auto.
    - replace (cs_is OMX_StateIdle s || cs_is OMX_StateExecuting s
               || cs_is OMX_StatePause s) with true
        by (symmetry; rewrite !orb_true_iff;
            destruct Hc as [Hc|[Hc|Hc]]; [left; left | left; right | right];
            apply cs_is_true; exact Hc).
      unfold RETURN_ON_FAILURE at 1. unfold RETURN_ON_FAILURE at 1.
      replace (kNumPictureBuffers =? Z.of_nat (length buffers)) with false
        by (symmetry; apply Z.eqb_neq; congruence).
      apply bind_ret_tt. }
  rewrite Hstop, StopOnError_closed_form. unfold StopOnError_outcome.
  apply csc_is_false in He. rewrite He, Hf. cbv zeta. simpl negb. cbv iota.
  destruct (cs_is OMX_StateInvalid s || cs_is OMX_StateMax s) eqn:Hc.
  - eexists _, 0%nat. split; [reflexivity|]. simpl. rewrite app_nil_r.
    repeat split; try reflexivity.
    intros Hcan. exfalso. bools.
    destruct Hc as [Hc|Hc]; bools; destruct Hcan as [H|[H|H]]; congruence.
  - eexists _, (S (failures (env_results s))). split; [reflexivity|]. simpl.
    rewrite <- app_assoc. repeat split; reflexivity.
Qed.

Lemma AssignPictureBuffers_rejects_witness :
  exists s' n,
    AssignPictureBuffers (replicate 7 (mkPictureBuffer 0 0)) (demo_executing true []) =
      Ok tt s' /\
    trace s' = trace (demo_executing true [])
               ++ [EvClient (NotifyError INVALID_ARGUMENT)]
               ++ replicate n invalid_request /\
    current_state_change_ s' = ERRORING.
Proof.
  destruct (AssignPictureBuffers_rejects (replicate 7 (mkPictureBuffer 0 0))
              (demo_executing true []) INVALID_ARGUMENT)
    as (s' & n & H1 & H2 & _ & _ & _ & H6).
  - vm_compute. discriminate.
  - vm_compute. discriminate.
  - vm_compute. discriminate.
  - vm_compute. reflexivity.
  - right. split; [right; left; vm_compute; reflexivity|].
    split; [vm_compute; discriminate | reflexivity].
  - exists s', n. split; [exact H1|]. split; [exact H2|].
    apply H6. right. left. vm_compute. reflexivity.
Defined.

(** ** Port settings *)

(** X9: A change of the output port's settings, when no call fails: on the
    event the adapter asks the component to disable the output port; when
    the port is disabled it reads the port definition, records the frame
    size and asks the client, if there is one, for [kNumPictureBuffers]
    picture buffers of that size. *)
Theorem output_port_reconfigured (s : State) :
  env_results s = [] ->
  deleted_ s = false ->
  dcheck_is_on s = false \/ output_nBufferCountMin (engine s) <= kNumPictureBuffers ->
  let width := Z.max 0 (to_signed 32 (output_nFrameWidth (engine s))) in
  let height := Z.max 0 (to_signed 32 (output_nFrameHeight (engine s))) in
  exists s',
    run [TaskEventHandlerComplete OMX_EventPortSettingsChanged (output_port_ s)
           OMX_IndexParamPortDefinition;
         TaskEventHandlerComplete OMX_EventCmdComplete
           (OMX_COMMANDTYPE_code OMX_CommandPortDisable) (output_port_ s)] s = Ok tt s' /\
    trace s' =
      trace s ++ [EvOmx (OMX_SendCommand OMX_CommandPortDisable (output_port_ s));
                  EvOmx (OMX_GetParameter "OMX_IndexParamPortDefinition" (output_port_ s))]
              ++ (if client_ s
                  then [EvClient (ProvidePictureBuffers kNumPictureBuffers 1 width height)]
                  else []) /\
    last_requested_picture_buffer_dimensions_ s' = (width, height) /\
    current_state_change_ s' = current_state_change_ s /\
    client_state_ s' = client_state_ s.
Proof.
  intros He Hd Ha width height.
  apply wp_returns. unfold run.
  repeat first
    [ ok_step
    | lazymatch goal with
      | |- wp (step _) _ _ _ => unfold step, run_op, EventHandlerCompleteTask
      | |- wp OnOutputPortDisabled _ _ _ => unfold OnOutputPortDisabled
      | |- wp (SendCommandToPort _ _) _ _ _ => unfold SendCommandToPort
      end ].
  all: simpl; rewrite <- ?app_assoc, ?app_nil_r; repeat split; reflexivity.
Qed.

Lemma output_port_reconfigured_witness :
  exists s',
    run [TaskEventHandlerComplete OMX_EventPortSettingsChanged 1 OMX_IndexParamPortDefinition;
         TaskEventHandlerComplete OMX_EventCmdComplete
           (OMX_COMMANDTYPE_code OMX_CommandPortDisable) 1] (demo_executing true []) =
      Ok tt s' /\
    trace s' =
      trace (demo_executing true [])
      ++ [EvOmx (OMX_SendCommand OMX_CommandPortDisable 1);
          EvOmx (OMX_GetParameter "OMX_IndexParamPortDefinition" 1);
          EvClient (ProvidePictureBuffers 8 1 640 480)] /\
    last_requested_picture_buffer_dimensions_ s' = (640, 480).
Proof.
  destruct (output_port_reconfigured (demo_executing true [])) as (s' & H1 & H2 & H3 & _).
  - vm_compute. reflexivity.
  - vm_compute. reflexivity.
  - right. vm_compute. discriminate.
  - exists s'. split; [exact H1|]. split; [exact H2 | exact H3].
Defined.

(** ** Picture buffers coming back from the client *)

(** [StopOnError] on a running component that accepts the request. *)
Lemma wp_StopOnError_running error (Q : unit -> State -> Prop) C s :
  client_ptr_factory_ s = true ->
  current_state_change_ s <> ERRORING ->
  client_state_ s <> OMX_StateInvalid -> client_state_ s <> OMX_StateMax ->
  env_results s = [] ->
  Q tt (set_current_state_change_ ERRORING
          (set_client_ false
             (set_trace (trace s ++ stop_events error s ++ [invalid_request]) s))) ->
  wp (StopOnError error) Q C s.
Proof.
  intros Hf He Hi Hm Hr HQ. apply wp_StopOnError. unfold wp, StopOnError_outcome.
  apply csc_is_false in He. apply cs_is_false in Hi. apply cs_is_false in Hm.
  rewrite He, Hf, Hi, Hm, Hr. simpl.
  match goal with
  | |- Q tt ?X =>
      replace X with
        (set_current_state_change_ ERRORING
           (set_client_ false
              (set_trace (trace s ++ stop_events error s ++ [invalid_request]) s)));
      [exact HQ|]
  end.
  state_eq; rewrite <- ?app_assoc; auto.
Qed.

(** The answers of the platform, one at a time. *)
Lemma wp_ask_next (Q : bool -> State -> Prop) C s r rest :
  env_results s = r :: rest -> Q r (set_env_results rest s) -> wp ask Q C s.
Proof. intros He H. unfold wp, ask. rewrite He. exact H. Qed.

Lemma wp_ask_none (Q : bool -> State -> Prop) C s :
  env_results s = [] -> Q true s -> wp ask Q C s.
Proof. intros He H. unfold wp, ask. rewrite He. exact H. Qed.

Ltac ask_step :=
  lazymatch goal with
  | |- wp (sys _) _ _ _ => unfold sys
  | |- wp (omx _) _ _ _ => unfold omx
  | |- wp ask _ _ _ =>
      first [ eapply wp_ask_next; [simpl; first [eassumption | reflexivity]|]
            | apply wp_ask_none; [simpl; first [assumption | reflexivity]|] ]
  end.

(** X10: A picture buffer the client gives back under an id that is not
    registered, while the adapter can fill buffers and nothing fails: once
    the sync object is signalled the adapter stops with INVALID_ARGUMENT.  The
    sync object is destroyed and nothing is handed to the component. *)
Theorem ReusePictureBuffer_unregistered (id : Z) (s : State) :
  env_results s = [] ->
  dcheck_is_on s = false \/ egl_display_ s <> EGL_NO_DISPLAY ->
  current_state_change_ s <> RESETTING -> current_state_change_ s <> DESTROYING ->
  current_state_change_ s <> ERRORING ->
  component_running s ->
  client_ptr_factory_ s = true ->
  pictures_find id (pictures_ s) = None ->
  exists s',
    ReusePictureBuffer id s = Ok tt s' /\
    trace s' = trace s ++ [EvSys eglCreateSyncKHR; EvSys eglGetSyncAttribKHR]
                       ++ stop_events INVALID_ARGUMENT s
                       ++ [invalid_request; EvSys eglDestroySyncKHR] /\
    current_state_change_ s' = ERRORING /\
    client_ s' = false /\
    output_buffers_at_component_ s' = output_buffers_at_component_ s /\
    posted_picture_checks_ s' = posted_picture_checks_ s /\
    queued_picture_buffer_ids_ s' = queued_picture_buffer_ids_ s.
Proof.
  intros He Hd Hr Hy Hg Hrun Hf Hp.
  assert (Hi : client_state_ s <> OMX_StateInvalid)
    by (destruct Hrun as [H|[H|H]]; rewrite H; discriminate).
  assert (Hm : client_state_ s <> OMX_StateMax)
    by (destruct Hrun as [H|[H|H]]; rewrite H; discriminate).
  apply wp_returns. unfold ReusePictureBuffer.
  repeat first
    [ ok_step
    | lazymatch goal with
      | |- wp (CheckPictureStatus _) _ _ _ => unfold CheckPictureStatus, IsSynced
      | |- wp (QueuePictureBuffer _) _ _ _ => unfold QueuePictureBuffer, CanFillBuffer
      | |- wp (StopOnError _) _ _ _ =>
          apply wp_StopOnError_running; [simpl; assumption..|]
      end ].
  all: try solve [ exfalso; unfold component_running in *;
                   destruct (current_state_change_ s), (client_state_ s);
                   simpl in *; intuition congruence ].
  all: unfold stop_events; simpl; rewrite <- ?app_assoc; simpl.
  all: repeat split; reflexivity.
Qed.

Lemma ReusePictureBuffer_unregistered_witness :
  exists s',
    ReusePictureBuffer 5 (demo_executing true []) = Ok tt s' /\
    trace s' = trace (demo_executing true [])
               ++ [EvSys eglCreateSyncKHR; EvSys eglGetSyncAttribKHR;
                   EvClient (NotifyError INVALID_ARGUMENT);
                   invalid_request; EvSys eglDestroySyncKHR] /\
    current_state_change_ s' = ERRORING.
Proof.
  destruct (ReusePictureBuffer_unregistered 5 (demo_executing true []))
    as (s' & H1 & H2 & H3 & _).
  - vm_compute. reflexivity.
  - right. vm_compute. discriminate.
  - vm_compute. discriminate.
  - vm_compute. discriminate.
  - vm_compute. discriminate.
  - right. left. vm_compute. reflexivity.
  - vm_compute. reflexivity.
  - vm_compute. reflexivity.
  - exists s'. split; [exact H1|]. split; [exact H2 | exact H3].
Defined.

(** X11: A picture buffer the client gives back during a reset, when its sync
    object is not signalled at first: [ReusePictureBuffer] creates the sync
    object, polls it and posts the next poll for [kSyncPollDelayMs] later;
    that poll finds the object signalled, destroys it and, the adapter being
    RESETTING, keeps the id back for the end of the reset instead of handing
    the buffer to the component. *)
Theorem ReusePictureBuffer_polls (id : Z) (s : State) :
  env_results s = [true; true; false] ->
  deleted_ s = false ->
  dcheck_is_on s = false \/ egl_display_ s <> EGL_NO_DISPLAY ->
  current_state_change_ s = RESETTING ->
  exists s1 s2,
    step (CallReusePictureBuffer id) s = Ok tt s1 /\
    posted_picture_checks_ s1 = posted_picture_checks_ s ++ [id] /\
    trace s1 = trace s ++ [EvSys eglCreateSyncKHR; EvSys eglGetSyncAttribKHR;
                           EvSys (PostDelayedCheckPictureStatus id kSyncPollDelayMs)] /\
    queued_picture_buffer_ids_ s1 = queued_picture_buffer_ids_ s /\
    step (TaskCheckPictureStatus (length (posted_picture_checks_ s))) s1 = Ok tt s2 /\
    posted_picture_checks_ s2 = posted_picture_checks_ s /\
    trace s2 = trace s1 ++ [EvSys eglGetSyncAttribKHR; EvSys eglDestroySyncKHR] /\
    queued_picture_buffer_ids_ s2 = queued_picture_buffer_ids_ s ++ [id] /\
    output_buffers_at_component_ s2 = output_buffers_at_component_ s /\
    current_state_change_ s2 = RESETTING.
Proof.
  intros He Hd Hg Hc.
  assert (H1 : exists s1,
             step (CallReusePictureBuffer id) s = Ok tt s1 /\
             s1 = set_posted_picture_checks_ (posted_picture_checks_ s ++ [id])
                    (set_env_results []
                       (set_trace (trace s ++ [EvSys eglCreateSyncKHR;
                                               EvSys eglGetSyncAttribKHR;
                                               EvSys (PostDelayedCheckPictureStatus id
                                                        kSyncPollDelayMs)]) s))).
  { apply wp_returns. unfold step, run_op, ReusePictureBuffer.
    repeat first
      [ ask_step
      | ok_step
      | lazymatch goal with
        | |- wp (CheckPictureStatus _) _ _ _ => unfold CheckPictureStatus, IsSynced
        end ].
    all: try solve [ exfalso; bools; simpl in *; destruct Hg; congruence ].
    all: state_eq; rewrite <- ?app_assoc; reflexivity. }
  destruct H1 as (s1 & Hs1 & ->).
  assert (H2 : exists s2,
             step (TaskCheckPictureStatus (length (posted_picture_checks_ s)))
               (set_posted_picture_checks_ (posted_picture_checks_ s ++ [id])
                  (set_env_results []
                     (set_trace (trace s ++ [EvSys eglCreateSyncKHR;
                                             EvSys eglGetSyncAttribKHR;
                                             EvSys (PostDelayedCheckPictureStatus id
                                                      kSyncPollDelayMs)]) s)))
             = Ok tt s2 /\
             posted_picture_checks_ s2 = posted_picture_checks_ s /\
             trace s2 = (trace s ++ [EvSys eglCreateSyncKHR; EvSys eglGetSyncAttribKHR;
                                     EvSys (PostDelayedCheckPictureStatus id
                                              kSyncPollDelayMs)])
                        ++ [EvSys eglGetSyncAttribKHR; EvSys eglDestroySyncKHR] /\
             queued_picture_buffer_ids_ s2 = queued_picture_buffer_ids_ s ++ [id] /\
             output_buffers_at_component_ s2 = output_buffers_at_component_ s /\
             current_state_change_ s2 = RESETTING).
  { apply wp_returns. unfold step, run_op.
    assert (Hl : (posted_picture_checks_ s ++ [id]) !! length (posted_picture_checks_ s)
                 = Some id)
      by (rewrite lookup_app_r by lia; rewrite Nat.sub_diag; reflexivity).
    assert (Hdel : delete (length (posted_picture_checks_ s))
                     (posted_picture_checks_ s ++ [id]) = posted_picture_checks_ s).
    { rewrite delete_middle. apply app_nil_r. }
    repeat first
      [ ask_step
      | ok_step
      | lazymatch goal with
        | |- wp (CheckPictureStatus _) _ _ _ => unfold CheckPictureStatus, IsSynced
        | |- wp (QueuePictureBuffer _) _ _ _ => unfold QueuePictureBuffer
        end ].
    all: try solve [ exfalso; bools; simpl in *; congruence ].
    all: simpl; rewrite ?Hdel, <- ?app_assoc; simpl.
    all: repeat split; first [reflexivity | assumption]. }
  destruct H2 as (s2 & Hs2 & Hrest).
  eexists _, s2. split; [exact Hs1|].
  split; [reflexivity|]. split; [reflexivity|]. split; [reflexivity|].
  split; [exact Hs2 | exact Hrest].
Qed.

Lemma ReusePictureBuffer_polls_witness :
  exists s1 s2,
    step (CallReusePictureBuffer 5) (demo_resetting true (replicate 33 true ++ [false]))
      = Ok tt s1 /\
    posted_picture_checks_ s1 = [5] /\
    step (TaskCheckPictureStatus 0) s1 = Ok tt s2 /\
    posted_picture_checks_ s2 = [] /\
    queued_picture_buffer_ids_ s2 = [5].
Proof.
  destruct (ReusePictureBuffer_polls 5 (demo_resetting true (replicate 33 true ++ [false])))
    as (s1 & s2 & H1 & H2 & _ & _ & H5 & H6 & _ & H8 & _).
  - vm_compute. reflexivity.
  - vm_compute. reflexivity.
  - right. vm_compute. discriminate.
  - vm_compute. reflexivity.
  - exists s1, s2. split; [exact H1|]. split; [exact H2|].
    split; [exact H5|]. split; [exact H6 | exact H8].
Defined.

(** ** Output buffers coming back *)

(** [FillBufferDoneTask] up to its first test. *)
Lemma FillBufferDoneTask_counts_out buffer s h :
  headers s !! buffer = Some h ->
  (forall d, pAppPrivate h <> AppInput d) ->
  dcheck_is_on s = false \/ 0 < output_buffers_at_component_ s ->
  FillBufferDoneTask buffer s =
    (if csc_is DESTROYING s || csc_is ERRORING s then ret tt
     else if negb (bool_decide (length (fake_output_buffers_ s) = 0%nat))
             && set_count buffer (fake_output_buffers_ s) then
       modify (set_fake_output_buffers_ (set_erase buffer (fake_output_buffers_ s))) ;;
       freed <- free_header (output_port_ s) buffer ;;
       RETURN_ON_OMX_FAILURE freed PLATFORM_FAILURE tt (ret tt)
     else
       DCHECK (bool_decide (length (fake_output_buffers_ s) = 0%nat)) ;;
       if has_EOS (nFlags h) then
         update_header buffer (fun h => hdr_set_nFlags (clear_EOS (nFlags h)) h) ;;
         OnReachedEOSInFlushing ;;
         ReusePictureBuffer (picture_id_of h)
       else if csc_is RESETTING s then
         modify (set_queued_picture_buffer_ids_
                   (queued_picture_buffer_ids_ s ++ [picture_id_of h]))
       else
         match pAppPrivate h with
         | AppPicture p =>
             let p' := set_bitstream_buffer_id (nTimeStamp h) p in
             update_header buffer (hdr_set_pAppPrivate (AppPicture p')) ;;
             notify (PictureReady p')
         | _ => DCHECK false ;; crash
         end) (filled s).
Proof.
  intros Hh Hp Ho. unfold FillBufferDoneTask. erewrite bind_header_at by exact Hh.
  unfold FillBufferDoneTask_on, picture_id_of.
  destruct (pAppPrivate h) as [|d|p] eqn:Hpp; [| exfalso; eapply Hp; reflexivity |].
  - rewrite bind_ret, bind_get.
    rewrite bind_DCHECK
      by (destruct Ho as [Ho|Ho]; [left; exact Ho | right; apply Z.ltb_lt; exact Ho]).
    rewrite bind_modify. fold (filled s).
    destruct (csc_is DESTROYING s || csc_is ERRORING s); [reflexivity|].
    destruct (negb (bool_decide (length (fake_output_buffers_ s) = 0%nat))
              && set_count buffer (fake_output_buffers_ s)); [reflexivity|].
    apply bind_ext_at. intros [] s' _.
    destruct (has_EOS (nFlags h)); [reflexivity|].
    destruct (csc_is RESETTING s); reflexivity.
  - rewrite bind_ret, bind_get.
    rewrite bind_DCHECK
      by (destruct Ho as [Ho|Ho]; [left; exact Ho | right; apply Z.ltb_lt; exact Ho]).
    rewrite bind_modify. fold (filled s).
    destruct (csc_is DESTROYING s || csc_is ERRORING s); [reflexivity|].
    destruct (negb (bool_decide (length (fake_output_buffers_ s) = 0%nat))
              && set_count buffer (fake_output_buffers_ s)); [reflexivity|].
    apply bind_ext_at. intros [] s' _.
    destruct (has_EOS (nFlags h)); [reflexivity|].
    destruct (csc_is RESETTING s); [reflexivity|].
    rewrite bind_DCHECK by (right; reflexivity). reflexivity.
Qed.

(** What the member functions need of "no picture has been given". *)
Ltac no_picture_sides :=
  first
    [ pictures_ready_side
    | let s0 := fresh "s" in
      let e := fresh "e" in
      let He := fresh "He" in
      let H := fresh "H" in
      intros s0 e He H; eapply (pictures_ready_event _ _ s0); [reflexivity| |exact H];
      let p := fresh "p" in
      let Hp := fresh "Hp" in
      intros p Hp; eapply He; exact Hp
    | let s0 := fresh "s" in
      let c := fresh "c" in
      let Hc := fresh "Hc" in
      let H := fresh "H" in
      intros s0 c Hc _ H; eapply (pictures_ready_event _ _ s0); [reflexivity| |exact H];
      let p := fresh "p" in
      let Hp := fresh "Hp" in
      intros p Hp; injection Hp as ->; eapply Hc; reflexivity
    | solve [auto] ].

Lemma no_picture_free_header t0 port buffer s :
  pictures_ready (fun _ => False) t0 s ->
  pictures_ready (fun _ => False) t0 (final (free_header port buffer s)).
Proof.
  apply preserves_free_header with (I := pictures_ready (fun _ => False) t0);
    no_picture_sides.
Qed.

Lemma no_picture_StopOnError t0 error s :
  pictures_ready (fun _ => False) t0 s ->
  pictures_ready (fun _ => False) t0 (final (StopOnError error s)).
Proof.
  apply preserves_StopOnError with (I := pictures_ready (fun _ => False) t0);
    no_picture_sides.
Qed.

Lemma no_picture_OnReachedEOSInFlushing t0 s :
  pictures_ready (fun _ => False) t0 s ->
  pictures_ready (fun _ => False) t0 (final (OnReachedEOSInFlushing s)).
Proof.
  apply preserves_OnReachedEOSInFlushing
    with (I := pictures_ready (fun _ => False) t0)
         (allowed := fun c => forall p, c <> PictureReady p);
    no_picture_sides.
Qed.

Lemma no_picture_ReusePictureBuffer t0 id s :
  pictures_ready (fun _ => False) t0 s ->
  pictures_ready (fun _ => False) t0 (final (ReusePictureBuffer id s)).
Proof.
  apply preserves_ReusePictureBuffer
    with (I := pictures_ready (fun _ => False) t0);
    no_picture_sides.
Qed.

Ltac no_picture_call t0 :=
  eapply wp_mono;
  [ apply (proj2 (wp_final _ (pictures_ready (fun _ => False) t0) _));
    first [ apply no_picture_StopOnError
          | apply no_picture_free_header
          | apply no_picture_OnReachedEOSInFlushing
          | apply no_picture_ReusePictureBuffer ]
  | intros ? ? ? | intros ? ? ].

Lemma FillBufferDoneTask_no_picture buffer s :
  current_state_change_ s = RESETTING \/ current_state_change_ s = DESTROYING \/
  current_state_change_ s = ERRORING ->
  pictures_ready (fun _ => False) (trace s) (final (FillBufferDoneTask buffer s)).
Proof.
  intros Hc. pose proof (pictures_ready_start (fun _ => False) s) as H0.
  apply wp_final. unfold FillBufferDoneTask, FillBufferDoneTask_on.
  repeat first [ wp_step | no_picture_call (trace s) ].
  all: try solve [bools; intuition congruence].
  all: try pictures_ready_side.
Qed.

(** X12: While the adapter is RESETTING, DESTROYING or ERRORING an output buffer
    that comes back is never given to the client.  When DESTROYING or
    ERRORING the task only counts the buffer out.  When RESETTING, with no
    fake output buffer left and no EOS flag on the buffer, it also queues
    the picture buffer id, to be reused when the reset ends. *)
Theorem FillBufferDoneTask_withholds (buffer : nat) (s : State) (h : OMX_BUFFERHEADERTYPE) :
  headers s !! buffer = Some h ->
  (forall d, pAppPrivate h <> AppInput d) ->
  dcheck_is_on s = false \/ 0 < output_buffers_at_component_ s ->
  (current_state_change_ s = DESTROYING \/ current_state_change_ s = ERRORING ->
     FillBufferDoneTask buffer s = Ok tt (filled s)) /\
  (current_state_change_ s = RESETTING -> fake_output_buffers_ s = [] ->
   has_EOS (nFlags h) = false ->
     FillBufferDoneTask buffer s =
       Ok tt (set_queued_picture_buffer_ids_
                (queued_picture_buffer_ids_ s ++ [picture_id_of h]) (filled s))) /\
  (current_state_change_ s = RESETTING \/ current_state_change_ s = DESTROYING \/
   current_state_change_ s = ERRORING ->
     forall p, EvClient (PictureReady p) ∉ added (FillBufferDoneTask buffer) s).
Proof.
  intros Hh Hp Ho. split; [|split].
  - intros Hc. rewrite (FillBufferDoneTask_counts_out buffer s h Hh Hp Ho).
    replace (csc_is DESTROYING s || csc_is ERRORING s) with true; [reflexivity|].
    symmetry. apply orb_true_iff.
    destruct Hc as [Hc|Hc]; [left | right]; apply csc_is_true; exact Hc.
  - intros Hc Hf He. rewrite (FillBufferDoneTask_counts_out buffer s h Hh Hp Ho).
    replace (csc_is DESTROYING s || csc_is ERRORING s) with false
      by (symmetry; apply orb_false_iff; split; apply csc_is_false; congruence).
    rewrite Hf, He. simpl.
    rewrite bind_DCHECK by (right; reflexivity).
    replace (csc_is RESETTING s) with true by (symmetry; apply csc_is_true; exact Hc).
    reflexivity.
  - intros Hc p Hin.
    pose proof (FillBufferDoneTask_no_picture buffer s Hc) as H.
    apply added_of_pictures_ready in H. rewrite Forall_forall in H.
    exact (H _ Hin p eq_refl).
Qed.

Lemma FillBufferDoneTask_withholds_witness :
  FillBufferDoneTask 9 (set_current_state_change_ RESETTING (demo_bound true)) =
    Ok tt (set_queued_picture_buffer_ids_ [4]
             (filled (set_current_state_change_ RESETTING (demo_bound true)))) /\
  forall p, EvClient (PictureReady p) ∉
              added (FillBufferDoneTask 9)
                (set_current_state_change_ RESETTING (demo_bound true)).
Proof.
  destruct (FillBufferDoneTask_withholds 9
              (set_current_state_change_ RESETTING (demo_bound true))
              (mkHeader 0 0 0 0 (AppPicture (mkPicture 4 0)) 0 0 1 0))
    as (_ & H2 & H3).
  - vm_compute. reflexivity.
  - intros d. discriminate.
  - right. vm_compute. reflexivity.
  - split.
    + apply H2; vm_compute; reflexivity.
    + apply H3. left. vm_compute. reflexivity.
Defined.

Lemma free_header_succeeds port buffer s :
  env_results s = [] ->
  free_header port buffer s =
    Ok true (set_headers (delete buffer (headers s))
               (set_trace (trace s ++ [EvOmx (OMX_FreeBuffer port buffer)]) s)).
Proof.
  intros He. unfold free_header, omx. unfold_prims. simpl. rewrite He. reflexivity.
Qed.

(** X13: A fake output buffer that comes back from the component, outside
    DESTROYING and ERRORING, is taken out of the set of the fake buffers and
    freed on the output port, whatever its flags; nothing reaches the
    client.  The other fake buffers stay in the set. *)
Theorem FillBufferDoneTask_frees_fake (buffer : nat) (s : State) (h : OMX_BUFFERHEADERTYPE) :
  headers s !! buffer = Some h ->
  (forall d, pAppPrivate h <> AppInput d) ->
  dcheck_is_on s = false \/ 0 < output_buffers_at_component_ s ->
  current_state_change_ s <> DESTROYING -> current_state_change_ s <> ERRORING ->
  buffer ∈ fake_output_buffers_ s ->
  env_results s = [] ->
  exists s',
    FillBufferDoneTask buffer s = Ok tt s' /\
    trace s' = trace s ++ [EvOmx (OMX_FreeBuffer (output_port_ s) buffer)] /\
    headers s' = delete buffer (headers s) /\
    output_buffers_at_component_ s' = output_buffers_at_component_ s - 1 /\
    (buffer ∉ fake_output_buffers_ s') /\
    (forall b, b <> buffer ->
       ((b ∈ fake_output_buffers_ s') <-> (b ∈ fake_output_buffers_ s))) /\
    current_state_change_ s' = current_state_change_ s.
Proof.
  intros Hh Hp Ho Hd He Hin Hr.
  rewrite (FillBufferDoneTask_counts_out buffer s h Hh Hp Ho).
  replace (csc_is DESTROYING s || csc_is ERRORING s) with false
    by (symmetry; apply orb_false_iff; split; apply csc_is_false; congruence).
  replace (negb (bool_decide (length (fake_output_buffers_ s) = 0%nat))
           && set_count buffer (fake_output_buffers_ s)) with true.
  - rewrite bind_modify.
    erewrite bind_Ok by (apply free_header_succeeds; exact Hr).
    eexists. split; [reflexivity|]. simpl.
    split; [reflexivity|]. split; [reflexivity|]. split; [reflexivity|].
    unfold set_erase. split; [|split; [|reflexivity]].
    + intros H. apply list_elem_of_filter in H. destruct H as [H _]. apply H. reflexivity.
    + intros b Hb. rewrite list_elem_of_filter. tauto.
  - symmetry. apply andb_true_iff. split.
    + apply negb_true_iff. apply bool_decide_eq_false.
      destruct (fake_output_buffers_ s); [inversion Hin | discriminate].
    + unfold set_count. apply bool_decide_eq_true. exact Hin.
Qed.

Lemma FillBufferDoneTask_frees_fake_witness :
  exists s',
    FillBufferDoneTask 3 (demo_executing true []) = Ok tt s' /\
    trace s' = trace (demo_executing true []) ++ [EvOmx (OMX_FreeBuffer 1 3)] /\
    3%nat ∉ fake_output_buffers_ s'.
Proof.
  destruct (FillBufferDoneTask_frees_fake 3 (demo_executing true [])
              (mkHeader 0 0 0 0 AppNull 0 (-1) 1 0))
    as (s' & H1 & H2 & _ & _ & H5 & _).
  - vm_compute. reflexivity.
  - intros d. discriminate.
  - right. vm_compute. reflexivity.
  - vm_compute. discriminate.
  - vm_compute. discriminate.
  - vm_compute. apply list_elem_of_here.
  - vm_compute. reflexivity.
  - exists s'. split; [exact H1|]. split; [exact H2 | exact H5].
Defined.

(** X14: An output buffer that comes back with the EOS flag, outside DESTROYING
    and ERRORING and with no fake output buffer left, ends the flush: the
    flag is cleared in the header, the adapter leaves its operation state for
    NO_TRANSITION, the client, if there is one, is told [NotifyFlushDone],
    and the picture buffer goes on to [ReusePictureBuffer]. *)
Theorem FillBufferDoneTask_ends_flush (buffer : nat) (s : State) (h : OMX_BUFFERHEADERTYPE) :
  headers s !! buffer = Some h ->
  (forall d, pAppPrivate h <> AppInput d) ->
  dcheck_is_on s = false \/
    (0 < output_buffers_at_component_ s /\ client_state_ s = OMX_StateExecuting) ->
  current_state_change_ s <> DESTROYING -> current_state_change_ s <> ERRORING ->
  fake_output_buffers_ s = [] ->
  has_EOS (nFlags h) = true ->
  exists s1,
    FillBufferDoneTask buffer s = ReusePictureBuffer (picture_id_of h) s1 /\
    current_state_change_ s1 = NO_TRANSITION /\
    trace s1 = trace s ++ (if client_ s then [EvClient NotifyFlushDone] else []) /\
    headers s1 = <[buffer := hdr_set_nFlags (clear_EOS (nFlags h)) h]> (headers s) /\
    output_buffers_at_component_ s1 = output_buffers_at_component_ s - 1 /\
    client_state_ s1 = client_state_ s /\
    queued_picture_buffer_ids_ s1 = queued_picture_buffer_ids_ s.
Proof.
  intros Hh Hp Ho Hd He Hf Heos.
  rewrite (FillBufferDoneTask_counts_out buffer s h Hh Hp)
    by (destruct Ho as [Ho|[Ho _]]; [left | right]; exact Ho).
  replace (csc_is DESTROYING s || csc_is ERRORING s) with false
    by (symmetry; apply orb_false_iff; split; apply csc_is_false; congruence).
  rewrite Hf, Heos. simpl.
  rewrite bind_DCHECK by (right; reflexivity).
  erewrite bind_update_header by (simpl; exact Hh).
  unfold OnReachedEOSInFlushing. rewrite !bind_assoc, bind_get.
  rewrite !bind_assoc.
  rewrite bind_DCHECK
    by (destruct Ho as [Ho|[_ Ho]]; [left; exact Ho | right; apply cs_is_true; exact Ho]).
  rewrite !bind_assoc, bind_modify. unfold notify. rewrite !bind_assoc, bind_get.
  cbn [client_ set_current_state_change_ set_headers filled set_output_buffers_at_component_].
  destruct (client_ s) eqn:Hc; unfold when.
  - rewrite bind_client_call by (simpl; exact Hc).
    eexists. split; [reflexivity|]. simpl. repeat split; reflexivity.
  - rewrite bind_ret.
    eexists. split; [reflexivity|]. simpl. rewrite app_nil_r. repeat split; reflexivity.
Qed.

Lemma FillBufferDoneTask_ends_flush_witness :
  exists s1,
    FillBufferDoneTask 9 (after (engine_fills 9 OMX_BUFFERFLAG_EOS (-2)) (demo_bound true)) =
      ReusePictureBuffer 4 s1 /\
    current_state_change_ s1 = NO_TRANSITION /\
    trace s1 = trace (demo_bound true) ++ [EvClient NotifyFlushDone].
Proof.
  destruct (FillBufferDoneTask_ends_flush 9
              (after (engine_fills 9 OMX_BUFFERFLAG_EOS (-2)) (demo_bound true))
              (mkHeader 0 0 0 0 (AppPicture (mkPicture 4 0)) 1 (-2) 1 0))
    as (s1 & H1 & H2 & H3 & _).
  - vm_compute. reflexivity.
  - intros d. discriminate.
  - right. vm_compute. split; reflexivity.
  - vm_compute. discriminate.
  - vm_compute. discriminate.
  - vm_compute. reflexivity.
  - vm_compute. reflexivity.
  - exists s1. split; [exact H1|]. split; [exact H2 | exact H3].
Defined.

(** ** Errors reported by the component *)

(** X15: An [OMX_EventError] of the component, whatever its data: ignored when
    the adapter is DESTROYING or ERRORING already; otherwise, with a running
    component that accepts the request, the adapter stops with
    PLATFORM_FAILURE: the client is told once, its pointer is invalidated,
    the transition to [OMX_StateInvalid] is requested and the adapter is
    ERRORING. *)
Theorem component_error (data1 data2 : Z) (s : State) :
  client_ptr_factory_ s = true ->
  component_running s ->
  env_results s = [] ->
  (current_state_change_ s = DESTROYING \/ current_state_change_ s = ERRORING ->
     EventHandlerCompleteTask OMX_EventError data1 data2 s = Ok tt s) /\
  (current_state_change_ s <> DESTROYING -> current_state_change_ s <> ERRORING ->
     EventHandlerCompleteTask OMX_EventError data1 data2 s =
       Ok tt (set_current_state_change_ ERRORING
                (set_client_ false
                   (set_trace (trace s ++ stop_events PLATFORM_FAILURE s
                                       ++ [invalid_request]) s)))).
Proof.
  intros Hf Hrun He.
  assert (Hi : client_state_ s <> OMX_StateInvalid)
    by (destruct Hrun as [H|[H|H]]; rewrite H; discriminate).
  assert (Hm : client_state_ s <> OMX_StateMax)
    by (destruct Hrun as [H|[H|H]]; rewrite H; discriminate).
  split.
  - intros Hc. apply wp_returns_eq. unfold EventHandlerCompleteTask.
    repeat first [ok_step | wp_step].
    all: try solve [ exfalso; bools; simpl in *; destruct Hc; congruence ].
    all: reflexivity.
  - intros Hd Hg. apply wp_returns_eq. unfold EventHandlerCompleteTask.
    repeat first
      [ ok_step
      | lazymatch goal with
        | |- wp (StopOnError _) _ _ _ =>
            apply wp_StopOnError_running; [simpl; assumption..|]
        end ].
    all: try solve [ exfalso; bools; simpl in *; congruence ].
    all: reflexivity.
Qed.

Lemma component_error_witness :
  EventHandlerCompleteTask OMX_EventError 0 0 (demo_executing true []) =
    Ok tt (set_current_state_change_ ERRORING
             (set_client_ false
                (set_trace (trace (demo_executing true [])
                            ++ [EvClient (NotifyError PLATFORM_FAILURE); invalid_request])
                   (demo_executing true [])))).
Proof.
  destruct (component_error 0 0 (demo_executing true [])) as [_ H].
  - vm_compute. reflexivity.
  - right. left. vm_compute. reflexivity.
  - vm_compute. reflexivity.
  - apply H; vm_compute; discriminate.
Defined.

(** ** Reset *)

(** X16: A reset up to its last request, when no call fails and the component
    holds no buffer: [Reset] asks the component to pause; when it has, the
    adapter asks for the flush of the input port; when that is done, for the
    flush of the output port; when that is done, for the return to
    [OMX_StateExecuting].  Until the component acknowledges it the adapter
    stays RESETTING, paused, and the client hears nothing. *)
Theorem Reset_requests (s : State) :
  current_state_change_ s = NO_TRANSITION ->
  client_state_ s = OMX_StateExecuting ->
  env_results s = [] ->
  deleted_ s = false ->
  input_port_ s <> output_port_ s ->
  dcheck_is_on s = false \/
    (input_buffers_at_component_ s = 0 /\ output_buffers_at_component_ s = 0) ->
  exists s',
    run [CallReset; state_reached OMX_StatePause;
         flush_done (input_port_ s); flush_done (output_port_ s)] s = Ok tt s' /\
    trace s' = trace s ++ [state_request OMX_StatePause; flush_request (input_port_ s);
                           flush_request (output_port_ s);
                           state_request OMX_StateExecuting] /\
    current_state_change_ s' = RESETTING /\
    client_state_ s' = OMX_StatePause /\
    queued_bitstream_buffers_ s' = queued_bitstream_buffers_ s /\
    queued_picture_buffer_ids_ s' = queued_picture_buffer_ids_ s /\
    free_input_buffers_ s' = free_input_buffers_ s /\
    client_ s' = client_ s.
Proof.
  intros Hc Hs He Hd Hp Ha.
  apply wp_returns. unfold run, state_reached, flush_done.
  repeat first
    [ ok_step
    | lazymatch goal with
      | |- wp (step _) _ _ _ =>
          unfold step, run_op, EventHandlerCompleteTask, DispatchStateReached
      | |- wp Reset _ _ _ => unfold Reset
      | |- wp OnReachedPauseInResetting _ _ _ => unfold OnReachedPauseInResetting
      | |- wp FlushIOPorts _ _ _ => unfold FlushIOPorts
      | |- wp InputPortFlushDone _ _ _ => unfold InputPortFlushDone
      | |- wp OutputPortFlushDone _ _ _ => unfold OutputPortFlushDone
      | |- wp (SendCommandToPort _ _) _ _ _ => unfold SendCommandToPort
      | |- wp (BeginTransitionToState _) _ _ _ =>
          apply wp_BeginTransitionToState_succeeds; [simpl; congruence..|]
      end ].
  all: try solve [ exfalso; bools; simpl in *;
                   destruct Ha as [Ha|[Ha1 Ha2]]; [congruence | lia] ].
  all: simpl; unfold state_request, flush_request; rewrite <- ?app_assoc; simpl.
  all: repeat split; reflexivity.
Qed.

Lemma Reset_requests_witness :
  exists s',
    run [CallReset; state_reached OMX_StatePause; flush_done 0; flush_done 1]
      (demo_decoding false) = Ok tt s' /\
    trace s' = trace (demo_decoding false)
               ++ [state_request OMX_StatePause; flush_request 0; flush_request 1;
                   state_request OMX_StateExecuting] /\
    current_state_change_ s' = RESETTING.
Proof.
  destruct (Reset_requests (demo_decoding false)) as (s' & H1 & H2 & H3 & _).
  - vm_compute. reflexivity.
  - vm_compute. reflexivity.
  - vm_compute. reflexivity.
  - vm_compute. reflexivity.
  - vm_compute. discriminate.
  - left. vm_compute. reflexivity.
  - exists s'. split; [exact H1|]. split; [exact H2 | exact H3].
Defined.

(** ** Freeing the buffers *)

Lemma without_lookup l : forall m b,
  without l m !! b = if bool_decide (b ∈ l) then None else m !! b.
Proof.
  unfold without. induction l as [|x l IH]; intros m b; simpl.
  - reflexivity.
  - rewrite IH. destruct (decide (b = x)) as [->|Hne].
    + rewrite lookup_delete_eq.
      rewrite (bool_decide_eq_true_2 (x ∈ x :: l)) by apply list_elem_of_here.
      destruct (bool_decide (x ∈ l)); reflexivity.
    + rewrite lookup_delete_ne by congruence.
      destruct (bool_decide (b ∈ l)) eqn:Hb.
      * rewrite bool_decide_eq_true_2; [reflexivity|].
        apply list_elem_of_further. apply bool_decide_eq_true in Hb. exact Hb.
      * rewrite bool_decide_eq_false_2; [reflexivity|].
        apply bool_decide_eq_false in Hb. intros Hin.
        apply elem_of_cons in Hin. destruct Hin as [Hin|Hin]; [congruence | contradiction].
Qed.

Lemma without_app l1 l2 m : without (l1 ++ l2) m = without l2 (without l1 m).
Proof. unfold without. apply foldl_app. Qed.

(** The first loop of [FreeOMXBuffers] when no call fails. *)
Lemma free_input_loop port l : forall s acc,
  env_results s = [] ->
  fold_each l (fun failure_seen omx_buffer =>
      modify (fun s => set_free_input_buffers_ (tail (free_input_buffers_ s)) s) ;;
      freed <- free_header port omx_buffer ;;
      ret (failure_seen || negb freed)) acc s =
  Ok acc (set_headers (without l (headers s))
            (set_trace (trace s ++ frees port l)
               (set_free_input_buffers_ (drop (length l) (free_input_buffers_ s)) s))).
Proof.
  induction l as [|x l IH]; intros s acc He.
  - simpl. unfold ret. f_equal. state_eq. rewrite app_nil_r. reflexivity.
  - cbn [fold_each]. rewrite bind_assoc, bind_modify.
    rewrite bind_assoc.
    erewrite bind_Ok by (apply free_header_succeeds; exact He).
    rewrite bind_ret. rewrite IH by exact He. rewrite orb_false_r. f_equal.
    state_eq.
    + rewrite <- app_assoc. reflexivity.
    + destruct (free_input_buffers_ s); simpl; [rewrite drop_nil|]; reflexivity.
Qed.

(** The loop over the fake output buffers when no call fails. *)
Lemma free_fake_loop port l : forall s acc,
  env_results s = [] ->
  fold_each l (fun failure_seen buffer =>
      freed <- free_header port buffer ;;
      ret (failure_seen || negb freed)) acc s =
  Ok acc (set_headers (without l (headers s)) (set_trace (trace s ++ frees port l) s)).
Proof.
  induction l as [|x l IH]; intros s acc He.
  - simpl. unfold ret. f_equal. state_eq. rewrite app_nil_r. reflexivity.
  - cbn [fold_each]. rewrite bind_assoc.
    erewrite bind_Ok by (apply free_header_succeeds; exact He).
    rewrite bind_ret. rewrite IH by exact He. rewrite orb_false_r. f_equal.
    state_eq. rewrite <- app_assoc. reflexivity.
Qed.

(** The loop that dismisses the picture buffers held back. *)
Lemma dismiss_loop l : forall s,
  client_ s = true ->
  fold_each l (fun _ id => client_call (DismissPictureBuffer id)) tt s =
  Ok tt (set_trace (trace s ++ dismissals l) s).
Proof.
  induction l as [|x l IH]; intros s Hc.
  - simpl. unfold ret. f_equal. state_eq. rewrite app_nil_r. reflexivity.
  - cbn [fold_each]. rewrite bind_client_call by exact Hc.
    rewrite IH by exact Hc. f_equal. state_eq. rewrite <- app_assoc. reflexivity.
Qed.

(** [FreeOMXBuffers] when no call fails and no picture buffer is
    registered, as a state. *)
Lemma FreeOMXBuffers_closed_form s :
  env_results s = [] ->
  pictures_ s = [] ->
  FreeOMXBuffers s =
    Ok tt (set_queued_picture_buffer_ids_ []
             (set_fake_output_buffers_ []
                (set_free_input_buffers_ []
                   (set_headers
                      (without (free_input_buffers_ s ++ fake_output_buffers_ s) (headers s))
                      (set_trace
                         (trace s ++ frees (input_port_ s) (free_input_buffers_ s)
                                  ++ frees (output_port_ s) (fake_output_buffers_ s)
                                  ++ (if client_ s
                                      then dismissals (queued_picture_buffer_ids_ s)
                                      else []))
                         s))))).
Proof.
  intros He Hp. unfold FreeOMXBuffers. rewrite bind_get.
  erewrite bind_Ok by (apply free_input_loop; exact He).
  rewrite bind_get. cbn [pictures_ set_headers set_trace set_free_input_buffers_].
  rewrite Hp. cbn [fold_each]. rewrite bind_ret, bind_modify, bind_get.
  erewrite bind_Ok by (apply free_fake_loop; exact He).
  rewrite bind_modify, bind_get.
  cbn [client_ set_fake_output_buffers_ set_headers set_trace set_pictures_
       set_free_input_buffers_ queued_picture_buffer_ids_].
  destruct (client_ s) eqn:Hc; unfold when.
  - erewrite bind_Ok by (apply dismiss_loop; simpl; exact Hc).
    rewrite bind_modify. unfold RETURN_ON_FAILURE. simpl negb. cbv iota.
    unfold ret. f_equal.
    state_eq; rewrite <- ?app_assoc, ?without_app, ?drop_all; reflexivity.
  - rewrite bind_ret, bind_modify. unfold RETURN_ON_FAILURE. simpl negb. cbv iota.
    unfold ret. f_equal.
    state_eq; rewrite ?app_nil_r, <- ?app_assoc, ?without_app, ?drop_all; reflexivity.
Qed.

(** X17: [FreeOMXBuffers] when no call fails and no picture buffer is registered:
    every free input buffer is freed on the input port, then every fake
    output buffer on the output port, each once and in order; the client, if
    there is one, is told to dismiss the picture buffers held back for a
    reset; the lists are left empty and the headers freed are gone, the
    other headers untouched. *)
Theorem FreeOMXBuffers_releases (s : State) :
  env_results s = [] ->
  pictures_ s = [] ->
  exists s',
    FreeOMXBuffers s = Ok tt s' /\
    trace s' = trace s ++ frees (input_port_ s) (free_input_buffers_ s)
                       ++ frees (output_port_ s) (fake_output_buffers_ s)
                       ++ (if client_ s then dismissals (queued_picture_buffer_ids_ s)
                           else []) /\
    free_input_buffers_ s' = [] /\
    fake_output_buffers_ s' = [] /\
    queued_picture_buffer_ids_ s' = [] /\
    pictures_ s' = [] /\
    (forall b, b ∈ free_input_buffers_ s ++ fake_output_buffers_ s ->
               headers s' !! b = None) /\
    (forall b, b ∉ free_input_buffers_ s ++ fake_output_buffers_ s ->
               headers s' !! b = headers s !! b) /\
    current_state_change_ s' = current_state_change_ s /\
    client_state_ s' = client_state_ s /\
    component_handle_ s' = component_handle_ s.
Proof.
  intros He Hp. eexists. split; [apply FreeOMXBuffers_closed_form; assumption|].
  simpl. repeat split; try reflexivity; try assumption.
  - intros b Hb. rewrite without_lookup, bool_decide_eq_true_2 by exact Hb. reflexivity.
  - intros b Hb. rewrite without_lookup, bool_decide_eq_false_2 by exact Hb. reflexivity.
Qed.

Lemma FreeOMXBuffers_releases_witness :
  exists s',
    FreeOMXBuffers (demo_executing true []) = Ok tt s' /\
    trace s' = trace (demo_executing true [])
               ++ frees 0 [1%nat; 2%nat]
               ++ frees 1 [3%nat; 4%nat; 5%nat; 6%nat; 7%nat; 8%nat; 9%nat; 10%nat] /\
    headers s' !! 1%nat = None.
Proof.
  destruct (FreeOMXBuffers_releases (demo_executing true []))
    as (s' & H1 & H2 & _ & _ & _ & _ & H7 & _).
  - vm_compute. reflexivity.
  - vm_compute. reflexivity.
  - exists s'. split; [exact H1|]. split.
    + rewrite H2. vm_compute. reflexivity.
    + apply H7. vm_compute. apply list_elem_of_here.
Defined.

Lemma wp_FreeOMXBuffers_succeeds (Q : unit -> State -> Prop) C s :
  env_results s = [] ->
  pictures_ s = [] ->
  Q tt (set_queued_picture_buffer_ids_ []
          (set_fake_output_buffers_ []
             (set_free_input_buffers_ []
                (set_headers
                   (without (free_input_buffers_ s ++ fake_output_buffers_ s) (headers s))
                   (set_trace
                      (trace s ++ frees (input_port_ s) (free_input_buffers_ s)
                               ++ frees (output_port_ s) (fake_output_buffers_ s)
                               ++ (if client_ s
                                   then dismissals (queued_picture_buffer_ids_ s)
                                   else []))
                      s))))) ->
  wp FreeOMXBuffers Q C s.
Proof.
  intros He Hp H. unfold wp. rewrite FreeOMXBuffers_closed_form by assumption. exact H.
Qed.

(** X18: The end of an adapter stopped on an error, when no call fails and the
    component holds no buffer: when the component reports
    [OMX_StateInvalid], the adapter frees its buffers, frees the handle and
    shuts OpenMAX down; [Destroy] then deletes it at once, with no further
    call. *)
Theorem error_teardown (s : State) :
  current_state_change_ s = ERRORING ->
  client_ptr_factory_ s = true ->
  env_results s = [] ->
  pictures_ s = [] ->
  deleted_ s = false ->
  dcheck_is_on s = false \/
    (input_buffers_at_component_ s = 0 /\ output_buffers_at_component_ s = 0) ->
  exists s',
    run [state_reached OMX_StateInvalid; CallDestroy] s = Ok tt s' /\
    deleted_ s' = true /\
    component_handle_ s' = false /\
    client_state_ s' = OMX_StateMax /\
    free_input_buffers_ s' = [] /\ fake_output_buffers_ s' = [] /\
    trace s' = trace s ++ frees (input_port_ s) (free_input_buffers_ s)
                       ++ frees (output_port_ s) (fake_output_buffers_ s)
                       ++ (if client_ s then dismissals (queued_picture_buffer_ids_ s)
                           else [])
                       ++ [EvOmx OMX_FreeHandle; EvOmx OMX_Deinit].
Proof.
  intros Hc Hf He Hp Hd Ha.
  apply wp_returns. unfold run, state_reached.
  repeat first
    [ ok_step
    | lazymatch goal with
      | |- wp (step _) _ _ _ =>
          unfold step, run_op, EventHandlerCompleteTask, DispatchStateReached
      | |- wp OnReachedInvalidInErroring _ _ _ => unfold OnReachedInvalidInErroring
      | |- wp FreeOMXBuffers _ _ _ =>
          apply wp_FreeOMXBuffers_succeeds; [simpl; assumption | simpl; assumption |]
      | |- wp ShutdownComponent _ _ _ => unfold ShutdownComponent
      | |- wp Destroy _ _ _ => unfold Destroy
      | |- wp Destructor _ _ _ => unfold Destructor
      end ].
  all: try solve [ exfalso; bools; simpl in *; rewrite ?Hp in *; simpl in *;
                   destruct Ha as [Ha|[Ha1 Ha2]]; [congruence | first [congruence | lia]] ].
  all: simpl; rewrite <- ?app_assoc; repeat split; reflexivity.
Qed.

Lemma error_teardown_witness :
  exists s',
    run [state_reached OMX_StateInvalid; CallDestroy] (demo_failed false) = Ok tt s' /\
    deleted_ s' = true /\ component_handle_ s' = false.
Proof.
  destruct (error_teardown (demo_failed false)) as (s' & H1 & H2 & H3 & _).
  - vm_compute. reflexivity.
  - vm_compute. reflexivity.
  - vm_compute. reflexivity.
  - vm_compute. reflexivity.
  - vm_compute. reflexivity.
  - left. vm_compute. reflexivity.
  - exists s'. split; [exact H1|]. split; [exact H2 | exact H3].
Defined.


(** ** Destroy *)

(** X19: [Destroy] from a state with a running component, followed to its end
    when no call fails and the component holds no buffer: the client's
    pointer is invalidated and the client is not called again; the adapter
    asks the component to go idle and keeps itself alive on the task runner;
    when the component is idle it asks for [OMX_StateLoaded] and frees every
    buffer; when the component is loaded it frees the handle and shuts
    OpenMAX down; the next turn of the busy loop deletes the adapter. *)
Theorem Destroy_completes (s : State) :
  current_state_change_ s = NO_TRANSITION \/ current_state_change_ s = FLUSHING \/
    current_state_change_ s = RESETTING ->
  client_state_ s = OMX_StateExecuting \/ client_state_ s = OMX_StateIdle \/
    client_state_ s = OMX_StatePause ->
  client_ptr_factory_ s = true ->
  component_handle_ s = true ->
  deleted_ s = false ->
  env_results s = [] ->
  pictures_ s = [] ->
  dcheck_is_on s = false \/
    (input_buffers_at_component_ s = 0 /\ output_buffers_at_component_ s = 0) ->
  exists s',
    run (CallDestroy :: teardown_ops) s = Ok tt s' /\
    deleted_ s' = true /\
    component_handle_ s' = false /\
    client_state_ s' = OMX_StateMax /\
    free_input_buffers_ s' = [] /\ fake_output_buffers_ s' = [] /\
    trace s' = trace s ++ [state_request OMX_StateIdle; EvSys (Sleep 5);
                           EvSys PostBusyLoopInDestroying;
                           state_request OMX_StateLoaded]
                       ++ frees (input_port_ s) (free_input_buffers_ s)
                       ++ frees (output_port_ s) (fake_output_buffers_ s)
                       ++ [EvOmx OMX_FreeHandle; EvOmx OMX_Deinit].
Proof.
  intros Hc Hs Hf Hh Hd He Hp Ha.
  assert (Hc1 : current_state_change_ s <> ERRORING)
    by (destruct Hc as [H|[H|H]]; congruence).
  assert (Hc2 : current_state_change_ s <> DESTROYING)
    by (destruct Hc as [H|[H|H]]; congruence).
  assert (Hs1 : client_state_ s <> OMX_StateMax)
    by (destruct Hs as [H|[H|H]]; congruence).
  assert (Hs2 : client_state_ s <> OMX_StateInvalid)
    by (destruct Hs as [H|[H|H]]; congruence).
  assert (Hs3 : client_state_ s <> OMX_StateLoaded)
    by (destruct Hs as [H|[H|H]]; congruence).
  apply wp_returns. unfold run, teardown_ops.
  all: repeat first
    [ ok_step
    | lazymatch goal with
      | |- wp (step _) _ _ _ =>
          unfold step, run_op, EventHandlerCompleteTask, DispatchStateReached
      | |- wp OnReachedIdleInDestroying _ _ _ => unfold OnReachedIdleInDestroying
      | |- wp OnReachedLoadedInDestroying _ _ _ => unfold OnReachedLoadedInDestroying
      | |- wp BusyLoopInDestroying _ _ _ => unfold BusyLoopInDestroying
      | |- wp FreeOMXBuffers _ _ _ =>
          apply wp_FreeOMXBuffers_succeeds; [simpl; assumption | simpl; assumption |]
      | |- wp (BeginTransitionToState _) _ _ _ =>
          apply wp_BeginTransitionToState_succeeds; [simpl; congruence..|]
      | |- wp ShutdownComponent _ _ _ => unfold ShutdownComponent
      | |- wp Destroy _ _ _ => unfold Destroy
      | |- wp Destructor _ _ _ => unfold Destructor
      end ].
  all: try solve [ exfalso; bools; simpl in *; rewrite ?Hp in *; simpl in *;
                   destruct Ha as [Ha|[Ha1 Ha2]]; [congruence | first [congruence | lia]] ].
  all: simpl; unfold state_request; rewrite <- ?app_assoc; simpl.
  all: repeat split; reflexivity.
Qed.

Lemma Destroy_completes_witness :
  exists s',
    run (CallDestroy :: teardown_ops) (demo_resetting false []) = Ok tt s' /\
    deleted_ s' = true /\ component_handle_ s' = false /\
    free_input_buffers_ s' = [].
Proof.
  destruct (Destroy_completes (demo_resetting false []))
    as (s' & H1 & H2 & H3 & _ & H5 & _).
  - right. right. vm_compute. reflexivity.
  - left. vm_compute. reflexivity.
  - vm_compute. reflexivity.
  - vm_compute. reflexivity.
  - vm_compute. reflexivity.
  - vm_compute. reflexivity.
  - vm_compute. reflexivity.
  - left. vm_compute. reflexivity.
  - exists s'. split; [exact H1|]. split; [exact H2|]. split; [exact H3 | exact H5].
Defined.

(** X20: When [Destroy] has no teardown to wait for, it deletes the adapter
    before it returns: at once when the adapter is ERRORING or DESTROYING
    already or was never initialised, and after freeing the handle and
    shutting OpenMAX down when the component is still loaded or is invalid.
    No buffer is freed on these paths, and the destructor asserts that none
    is left. *)
Theorem Destroy_at_once (s : State) :
  client_ptr_factory_ s = true ->
  dcheck_is_on s = false \/
    (free_input_buffers_ s = [] /\ input_buffers_at_component_ s = 0 /\
     output_buffers_at_component_ s = 0 /\ pictures_ s = [] /\
     current_state_change_ s <> INITIALIZING) ->
  (current_state_change_ s = ERRORING \/ current_state_change_ s = DESTROYING \/
   client_state_ s = OMX_StateMax ->
     Destroy s = Ok tt (set_deleted_ true (set_client_ false s))) /\
  (current_state_change_ s <> ERRORING -> current_state_change_ s <> DESTROYING ->
   client_state_ s = OMX_StateInvalid \/ client_state_ s = OMX_StateLoaded ->
   env_results s = [] ->
     Destroy s =
       Ok tt (set_deleted_ true
                (set_component_handle_ false
                   (set_client_state_ OMX_StateMax
                      (set_trace (trace s ++ [EvOmx OMX_FreeHandle; EvOmx OMX_Deinit])
                         (set_client_ false s)))))).
Proof.
  intros Hf Ha. split.
  - intros Hc. apply wp_returns_eq. unfold Destroy.
    repeat first
      [ ok_step
      | lazymatch goal with
        | |- wp Destructor _ _ _ => unfold Destructor
        end ].
    all: try state_eq.
    all: exfalso; spell_out; destruct Ha as [Ha|Ha]; spell_out;
      [congruence | destruct (current_state_change_ s); intuition congruence].
  - intros Hc1 Hc2 Hs He. apply wp_returns_eq. unfold Destroy.
    repeat first
      [ ok_step
      | lazymatch goal with
        | |- wp Destructor _ _ _ => unfold Destructor
        | |- wp ShutdownComponent _ _ _ => unfold ShutdownComponent
        end ].
    all: try (state_eq; rewrite <- app_assoc; reflexivity).
    all: exfalso; spell_out; destruct Ha as [Ha|Ha]; spell_out;
      [congruence | destruct (current_state_change_ s); intuition congruence].
Qed.

Lemma Destroy_at_once_witness :
  Destroy (demo_failed false) =
    Ok tt (set_deleted_ true (set_client_ false (demo_failed false))) /\
  Destroy (demo_initialized false []) =
    Ok tt (set_deleted_ true
             (set_component_handle_ false
                (set_client_state_ OMX_StateMax
                   (set_trace (trace (demo_initialized false [])
                               ++ [EvOmx OMX_FreeHandle; EvOmx OMX_Deinit])
                      (set_client_ false (demo_initialized false [])))))).
Proof.
  split.
  - apply (Destroy_at_once (demo_failed false)).
    + vm_compute. reflexivity.
    + left. vm_compute. reflexivity.
    + left. vm_compute. reflexivity.
  - apply (Destroy_at_once (demo_initialized false [])).
    + vm_compute. reflexivity.
    + left. vm_compute. reflexivity.
    + vm_compute. discriminate.
    + vm_compute. discriminate.
    + right. vm_compute. reflexivity.
    + vm_compute. reflexivity.
Defined.

(** ** What every run keeps *)

Lemma syncs_created_app t1 t2 :
  syncs_created (t1 ++ t2) = (syncs_created t1 + syncs_created t2)%nat.
Proof.
  induction t1 as [|[c|c|[]] t1 IH]; simpl; rewrite ?IH; reflexivity.
Qed.

Lemma syncs_destroyed_app t1 t2 :
  syncs_destroyed (t1 ++ t2) = (syncs_destroyed t1 + syncs_destroyed t2)%nat.
Proof.
  induction t1 as [|[c|c|[]] t1 IH]; simpl; rewrite ?IH; reflexivity.
Qed.

Lemma syncs_created_requests n : syncs_created (replicate n invalid_request) = O.
Proof. induction n; simpl; auto. Qed.

Lemma syncs_destroyed_requests n : syncs_destroyed (replicate n invalid_request) = O.
Proof. induction n; simpl; auto. Qed.

Lemma not_picture_requests n : Forall not_picture (replicate n invalid_request).
Proof. induction n; simpl; constructor; auto. intros p. discriminate. Qed.

(** The parts of the invariant, for the goal and the hypotheses. *)
Ltac sound_parts :=
  unfold sound, unbound, syncs_balanced in *;
  repeat match goal with
  | H : _ /\ _ |- _ => destruct H
  end;
  small_hyps;
  repeat match goal with
  | H : <[?b := _]> _ !! ?b = Some _ |- _ =>
      rewrite lookup_insert_eq in H; injection H as <-
  | H : <[?b := _]> _ !! ?b = None |- _ =>
      rewrite lookup_insert_eq in H; discriminate H
  end.

(** A state the invariant excludes. *)
Ltac sound_absurd :=
  exfalso;
  match goal with
  | Hq : pAppPrivate ?h = AppPicture ?p, Hl : headers ?s !! ?b = Some ?h,
    Hh : forall b h p, headers ?s !! b = Some h -> _ |- _ =>
      exact (Hh b h p Hl Hq)
  | Hp : pictures_ ?s = [], H : pictures_ ?s !! _ = Some _ |- _ =>
      rewrite Hp in H; discriminate H
  | Hp : pictures_ ?s = [], H : pictures_find _ (pictures_ ?s) = Some _ |- _ =>
      rewrite Hp in H; discriminate H
  end.

Ltac sound_headers :=
  let b := fresh "b" in
  let h := fresh "h" in
  let p := fresh "p" in
  let Hl := fresh "Hl" in
  intros b h p Hl;
  repeat match type of Hl with
  | <[?b0 := ?h0]> ?m !! ?b1 = Some _ =>
      let E := fresh "E" in
      destruct (decide (b0 = b1)) as [E|E];
      [ rewrite E in Hl; rewrite lookup_insert_eq in Hl; injection Hl as <-;
        cbv beta delta [hdr_set_pBuffer hdr_set_nAllocLen hdr_set_nFilledLen hdr_set_nOffset
          hdr_set_pAppPrivate hdr_set_nFlags hdr_set_nTimeStamp
          hdr_set_nOutputPortIndex hdr_set_nInputPortIndex fresh_header];
        cbn [pAppPrivate];
        first [ discriminate
              | match goal with
                | Hh : forall b h p, headers ?s !! b = Some h -> _,
                  H1 : headers ?s !! _ = Some ?h1 |- pAppPrivate ?h1 <> _ =>
                    exact (Hh _ _ _ H1)
                end ]
      | rewrite lookup_insert_ne in Hl by exact E ]
  | delete ?b0 ?m !! _ = Some _ =>
      apply lookup_delete_Some in Hl; destruct Hl as [_ Hl]
  end;
  try match goal with
  | Hh : forall b h p, headers ?s !! b = Some h -> _ |- _ => exact (Hh _ _ _ Hl)
  end.

Ltac sound_counts :=
  rewrite ?syncs_created_app, ?syncs_destroyed_app, ?length_app,
    ?syncs_created_requests, ?syncs_destroyed_requests;
  simpl;
  try match goal with
  | H : ?l !! ?n = Some _ |- context [length (delete ?n ?l)] =>
      rewrite (length_delete l n) by (eexists; exact H);
      pose proof (lookup_lt_Some _ _ _ H)
  end;
  lia.

Ltac sound_events :=
  rewrite ?Forall_app;
  repeat match goal with
  | |- _ /\ _ => split
  end;
  first [ assumption
        | apply not_picture_requests
        | repeat constructor; intros ?; discriminate ].

Ltac sound_leaf :=
  intros; try exact Logic.I;
  sound_parts;
  first
    [ sound_absurd
    | cbn [dcheck_is_on env_results engine trace headers next_header pre_sandbox_init_done_
           component_handle_ client_ptr_factory_ client_ init_begun_ client_state_
           current_state_change_ input_buffer_count_ input_buffer_size_ input_port_
           input_buffers_at_component_ output_port_ output_buffers_at_component_
           free_input_buffers_ queued_bitstream_buffers_ queued_picture_buffer_ids_
           pictures_ fake_output_buffers_ codec_ h264_profile_
           last_requested_picture_buffer_dimensions_ egl_display_ posted_picture_checks_
           busy_loop_posted_ deleted_
           set_env_results set_trace set_headers set_next_header set_pre_sandbox_init_done_
           set_component_handle_ set_client_ptr_factory_ set_client_ set_init_begun_
           set_client_state_ set_current_state_change_ set_input_buffer_count_
           set_input_buffer_size_ set_input_port_ set_input_buffers_at_component_
           set_output_port_ set_output_buffers_at_component_ set_free_input_buffers_
           set_queued_bitstream_buffers_ set_queued_picture_buffer_ids_ set_pictures_
           set_fake_output_buffers_ set_codec_ set_h264_profile_
           set_last_requested_picture_buffer_dimensions_ set_posted_picture_checks_
           set_busy_loop_posted_ set_deleted_];
      split; [split; [first [assumption | reflexivity] | sound_headers]
             | split; [sound_counts | sound_events]] ].

(** An answer of the platform, whatever it is and whatever answers are left. *)
Lemma wp_ask_any (Q : bool -> State -> Prop) C s :
  (forall r answers, Q r (set_env_results answers s)) -> wp ask Q C s.
Proof.
  intros H. unfold wp, ask. destruct (env_results s) as [|r rest] eqn:He.
  - assert (Hs : s = set_env_results [] s) by state_eq.
    rewrite Hs at 1. apply H.
  - apply H.
Qed.

(** Symbolic execution for the invariant.  A member function met on the
    way is dealt with by its own lemma, from the hints. *)
Create HintDb sound_db.

Ltac sound_call :=
  lazymatch goal with
  | H : sound ?k _ |- wp ?m _ _ ?s =>
      eapply wp_mono;
      [ cut (sound k s); [solve [eauto 2 with sound_db nocore] | sound_leaf]
      | let H' := fresh "H" in intros ? ? H'; cbv beta in H'
      | intros ? ? ]
  end.

Ltac sound_exec :=
  lazymatch goal with
  | |- wp ask _ _ _ => apply wp_ask_any; intros ? ?
  | |- wp _ _ _ (match ?x with _ => _ end) => destruct x eqn:?
  | H : sound ?k _ |- wp (for_each _ _) _ _ _ =>
      eapply wp_mono;
      [ apply wp_run_for_each with (P := sound k); [intros ? ? ? | sound_leaf]
      | let H' := fresh "H" in intros ? ? H'; cbv beta in H'
      | intros ? ? ]
  | H : sound ?k _ |- wp (fold_each _ _ _) _ _ _ =>
      eapply wp_mono;
      [ apply wp_fold_each with (J := fun _ _ s => sound k s) (C := fun _ => True);
        [intros ? ? ? ? ? | sound_leaf]
      | let H' := fresh "H" in intros ? ? H'; cbv beta in H'
      | intros ? ? ]
  | _ => wp_step
  end.

Ltac sound_run_with calls :=
  repeat first [ progress cbv beta iota | flat_state | sound_exec | calls | sound_call ];
  sound_leaf.

Ltac sound_run := sound_run_with fail.

Lemma sound_StopOnError error held s :
  sound held s -> wp (StopOnError error) (fun _ => sound held) (fun _ => True) s.
Proof.
  intros H. apply wp_StopOnError. unfold wp, StopOnError_outcome, stop_events.
  destruct (csc_is ERRORING s); [exact H|]. cbv zeta.
  destruct (negb (client_ptr_factory_ s)); [exact Logic.I|].
  destruct (cs_is OMX_StateInvalid s || cs_is OMX_StateMax s);
    destruct (client_ s && init_begun_ s); sound_leaf.
Qed.
#[local] Hint Resolve sound_StopOnError : sound_db.

Lemma sound_BeginTransitionToState new_state held s :
  sound held s -> wp (BeginTransitionToState new_state) (fun _ => sound held) (fun _ => True) s.
Proof. intros H. unfold BeginTransitionToState, BeginTransitionToState_with. sound_run. Qed.
#[local] Hint Resolve sound_BeginTransitionToState : sound_db.

Lemma sound_SendCommandToPort cmd port held s :
  sound held s -> wp (SendCommandToPort cmd port) (fun _ => sound held) (fun _ => True) s.
Proof. intros H. unfold SendCommandToPort. sound_run. Qed.
#[local] Hint Resolve sound_SendCommandToPort : sound_db.

Lemma sound_ShutdownComponent held s :
  sound held s -> wp (ShutdownComponent) (fun _ => sound held) (fun _ => True) s.
Proof. intros H. unfold ShutdownComponent. sound_run. Qed.
#[local] Hint Resolve sound_ShutdownComponent : sound_db.

Lemma sound_Destructor held s :
  sound held s -> wp (Destructor) (fun _ => sound held) (fun _ => True) s.
Proof. intros H. unfold Destructor. sound_run. Qed.
#[local] Hint Resolve sound_Destructor : sound_db.

Lemma sound_Constructor held s :
  sound held s -> wp (Constructor) (fun _ => sound held) (fun _ => True) s.
Proof. intros H. unfold Constructor, PostSandboxInitialization. sound_run. Qed.
#[local] Hint Resolve sound_Constructor : sound_db.

Lemma sound_CreateComponent held s :
  sound held s -> wp (CreateComponent) (fun _ => sound held) (fun _ => True) s.
Proof. intros H. unfold CreateComponent. sound_run. Qed.
#[local] Hint Resolve sound_CreateComponent : sound_db.

Lemma sound_new_header call held s :
  sound held s -> wp (new_header call) (fun _ => sound held) (fun _ => True) s.
Proof. intros H. unfold new_header. sound_run. Qed.
#[local] Hint Resolve sound_new_header : sound_db.

Lemma sound_free_header port buffer held s :
  sound held s -> wp (free_header port buffer) (fun _ => sound held) (fun _ => True) s.
Proof. intros H. unfold free_header. sound_run. Qed.
#[local] Hint Resolve sound_free_header : sound_db.

Lemma sound_AllocateInputBuffers held s :
  sound held s -> wp (AllocateInputBuffers) (fun _ => sound held) (fun _ => True) s.
Proof. intros H. unfold AllocateInputBuffers. sound_run. Qed.
#[local] Hint Resolve sound_AllocateInputBuffers : sound_db.

Lemma sound_AllocateFakeOutputBuffers held s :
  sound held s -> wp (AllocateFakeOutputBuffers) (fun _ => sound held) (fun _ => True) s.
Proof. intros H. unfold AllocateFakeOutputBuffers. sound_run. Qed.
#[local] Hint Resolve sound_AllocateFakeOutputBuffers : sound_db.

Lemma sound_Initialize_profile profile held s :
  sound held s -> wp (Initialize_profile profile) (fun _ => sound held) (fun _ => True) s.
Proof. intros H. unfold Initialize_profile, MapH264ProfileToOMXAVCProfile. sound_run. Qed.
#[local] Hint Resolve sound_Initialize_profile : sound_db.

Lemma sound_Initialize profile client held s :
  sound held s -> wp (Initialize profile client) (fun _ => sound held) (fun _ => True) s.
Proof. intros H. unfold Initialize, Initialize_rest, Initialize_component. sound_run. Qed.
#[local] Hint Resolve sound_Initialize : sound_db.

Lemma sound_Decode b held s :
  sound held s -> wp (Decode b) (fun _ => sound held) (fun _ => True) s.
Proof. intros H. unfold Decode. sound_run. Qed.
#[local] Hint Resolve sound_Decode : sound_db.

Lemma sound_Flush held s :
  sound held s -> wp (Flush) (fun _ => sound held) (fun _ => True) s.
Proof. intros H. unfold Flush. sound_run. Qed.
#[local] Hint Resolve sound_Flush : sound_db.

Lemma sound_OnReachedEOSInFlushing held s :
  sound held s -> wp (OnReachedEOSInFlushing) (fun _ => sound held) (fun _ => True) s.
Proof. intros H. unfold OnReachedEOSInFlushing. sound_run. Qed.
#[local] Hint Resolve sound_OnReachedEOSInFlushing : sound_db.

Lemma sound_DecodeQueuedBitstreamBuffers held s :
  sound held s -> wp (DecodeQueuedBitstreamBuffers) (fun _ => sound held) (fun _ => True) s.
Proof. intros H. unfold DecodeQueuedBitstreamBuffers. sound_run. Qed.
#[local] Hint Resolve sound_DecodeQueuedBitstreamBuffers : sound_db.

Lemma sound_AllocateOutputBuffers held s :
  sound held s -> wp (AllocateOutputBuffers) (fun _ => sound held) (fun _ => True) s.
Proof. intros H. unfold AllocateOutputBuffers. sound_run. Qed.
#[local] Hint Resolve sound_AllocateOutputBuffers : sound_db.

Lemma sound_AssignPictureBuffers buffers held s :
  sound held s -> wp (AssignPictureBuffers buffers) (fun _ => sound held) (fun _ => True) s.
Proof. intros H. unfold AssignPictureBuffers, CanFillBuffer. sound_run. Qed.
#[local] Hint Resolve sound_AssignPictureBuffers : sound_db.

Lemma sound_QueuePictureBuffer id held s :
  sound held s -> wp (QueuePictureBuffer id) (fun _ => sound held) (fun _ => True) s.
Proof. intros H. unfold QueuePictureBuffer, CanFillBuffer. sound_run. Qed.
#[local] Hint Resolve sound_QueuePictureBuffer : sound_db.

(** [CheckPictureStatus] is entered with the sync object of its caller, and
    destroys it or passes it on to the poll it posts. *)
Lemma sound_CheckPictureStatus id held s :
  sound (S held) s -> wp (CheckPictureStatus id) (fun _ => sound held) (fun _ => True) s.
Proof. intros H. unfold CheckPictureStatus, IsSynced. sound_run. Qed.

Ltac check_call :=
  idtac;
  lazymatch goal with
  | H : sound ?k _ |- wp (CheckPictureStatus _) _ _ _ =>
      eapply wp_mono;
      [ apply sound_CheckPictureStatus with (held := k); sound_leaf
      | let H' := fresh "H" in intros ? ? H'; cbv beta in H'
      | intros ? ? ]
  end.

Lemma sound_ReusePictureBuffer id held s :
  sound held s -> wp (ReusePictureBuffer id) (fun _ => sound held) (fun _ => True) s.
Proof. intros H. unfold ReusePictureBuffer. sound_run_with check_call. Qed.
#[local] Hint Resolve sound_ReusePictureBuffer : sound_db.

Lemma sound_FlushIOPorts held s :
  sound held s -> wp (FlushIOPorts) (fun _ => sound held) (fun _ => True) s.
Proof. intros H. unfold FlushIOPorts. sound_run. Qed.
#[local] Hint Resolve sound_FlushIOPorts : sound_db.

Lemma sound_InputPortFlushDone held s :
  sound held s -> wp (InputPortFlushDone) (fun _ => sound held) (fun _ => True) s.
Proof. intros H. unfold InputPortFlushDone. sound_run. Qed.
#[local] Hint Resolve sound_InputPortFlushDone : sound_db.

Lemma sound_OutputPortFlushDone held s :
  sound held s -> wp (OutputPortFlushDone) (fun _ => sound held) (fun _ => True) s.
Proof. intros H. unfold OutputPortFlushDone. sound_run. Qed.
#[local] Hint Resolve sound_OutputPortFlushDone : sound_db.

Lemma sound_Reset held s :
  sound held s -> wp (Reset) (fun _ => sound held) (fun _ => True) s.
Proof. intros H. unfold Reset. sound_run. Qed.
#[local] Hint Resolve sound_Reset : sound_db.

Lemma sound_FreeOMXBuffers held s :
  sound held s -> wp (FreeOMXBuffers) (fun _ => sound held) (fun _ => True) s.
Proof. intros H. unfold FreeOMXBuffers. sound_run. Qed.
#[local] Hint Resolve sound_FreeOMXBuffers : sound_db.

Lemma sound_BusyLoopInDestroying held s :
  sound held s -> wp (BusyLoopInDestroying) (fun _ => sound held) (fun _ => True) s.
Proof. intros H. unfold BusyLoopInDestroying. sound_run. Qed.
#[local] Hint Resolve sound_BusyLoopInDestroying : sound_db.

Lemma sound_Destroy held s :
  sound held s -> wp (Destroy) (fun _ => sound held) (fun _ => True) s.
Proof. intros H. unfold Destroy. sound_run. Qed.
#[local] Hint Resolve sound_Destroy : sound_db.

Lemma sound_OnReachedIdleInInitializing held s :
  sound held s -> wp (OnReachedIdleInInitializing) (fun _ => sound held) (fun _ => True) s.
Proof. intros H. unfold OnReachedIdleInInitializing. sound_run. Qed.
#[local] Hint Resolve sound_OnReachedIdleInInitializing : sound_db.

Lemma sound_OnReachedExecutingInInitializing held s :
  sound held s -> wp (OnReachedExecutingInInitializing) (fun _ => sound held) (fun _ => True) s.
Proof. intros H. unfold OnReachedExecutingInInitializing. sound_run. Qed.
#[local] Hint Resolve sound_OnReachedExecutingInInitializing : sound_db.

Lemma sound_OnReachedPauseInResetting held s :
  sound held s -> wp (OnReachedPauseInResetting) (fun _ => sound held) (fun _ => True) s.
Proof. intros H. unfold OnReachedPauseInResetting. sound_run. Qed.
#[local] Hint Resolve sound_OnReachedPauseInResetting : sound_db.

Lemma sound_reuse_queued_from turns held :
  forall i s, sound held s ->
    wp (reuse_queued_from turns i) (fun _ => sound held) (fun _ => True) s.
Proof.
  induction turns as [|turns IH]; intros i s H; cbn [reuse_queued_from].
  - sound_run.
  - sound_run_with ltac:(idtac;
      lazymatch goal with
      | H : sound ?k _ |- wp (reuse_queued_from _ _) _ _ _ =>
          eapply wp_mono; [apply IH; sound_leaf | intros ? ? ? | intros ? ?]
      end).
Qed.
#[local] Hint Resolve sound_reuse_queued_from : sound_db.

Lemma sound_OnReachedExecutingInResetting held s :
  sound held s -> wp (OnReachedExecutingInResetting) (fun _ => sound held) (fun _ => True) s.
Proof. intros H. unfold OnReachedExecutingInResetting. sound_run. Qed.
#[local] Hint Resolve sound_OnReachedExecutingInResetting : sound_db.

Lemma sound_OnReachedIdleInDestroying held s :
  sound held s -> wp (OnReachedIdleInDestroying) (fun _ => sound held) (fun _ => True) s.
Proof. intros H. unfold OnReachedIdleInDestroying. sound_run. Qed.
#[local] Hint Resolve sound_OnReachedIdleInDestroying : sound_db.

Lemma sound_OnReachedLoadedInDestroying held s :
  sound held s -> wp (OnReachedLoadedInDestroying) (fun _ => sound held) (fun _ => True) s.
Proof. intros H. unfold OnReachedLoadedInDestroying. sound_run. Qed.
#[local] Hint Resolve sound_OnReachedLoadedInDestroying : sound_db.

Lemma sound_OnReachedInvalidInErroring held s :
  sound held s -> wp (OnReachedInvalidInErroring) (fun _ => sound held) (fun _ => True) s.
Proof. intros H. unfold OnReachedInvalidInErroring. sound_run. Qed.
#[local] Hint Resolve sound_OnReachedInvalidInErroring : sound_db.

Lemma sound_OnOutputPortDisabled held s :
  sound held s -> wp (OnOutputPortDisabled) (fun _ => sound held) (fun _ => True) s.
Proof. intros H. unfold OnOutputPortDisabled. sound_run. Qed.
#[local] Hint Resolve sound_OnOutputPortDisabled : sound_db.

Lemma sound_OnOutputPortEnabled held s :
  sound held s -> wp (OnOutputPortEnabled) (fun _ => sound held) (fun _ => True) s.
Proof. intros H. unfold OnOutputPortEnabled, CanFillBuffer. sound_run. Qed.
#[local] Hint Resolve sound_OnOutputPortEnabled : sound_db.

Lemma sound_FillBufferDoneTask buffer held s :
  sound held s -> wp (FillBufferDoneTask buffer) (fun _ => sound held) (fun _ => True) s.
Proof. intros H. unfold FillBufferDoneTask, FillBufferDoneTask_on. sound_run. Qed.
#[local] Hint Resolve sound_FillBufferDoneTask : sound_db.

Lemma sound_EmptyBufferDoneTask buffer held s :
  sound held s -> wp (EmptyBufferDoneTask buffer) (fun _ => sound held) (fun _ => True) s.
Proof. intros H. unfold EmptyBufferDoneTask. sound_run. Qed.
#[local] Hint Resolve sound_EmptyBufferDoneTask : sound_db.

Lemma sound_DispatchStateReached reached held s :
  sound held s -> wp (DispatchStateReached reached) (fun _ => sound held) (fun _ => True) s.
Proof. intros H. unfold DispatchStateReached. sound_run. Qed.
#[local] Hint Resolve sound_DispatchStateReached : sound_db.

Lemma sound_EventHandlerCompleteTask event data1 data2 held s :
  sound held s -> wp (EventHandlerCompleteTask event data1 data2) (fun _ => sound held) (fun _ => True) s.
Proof. intros H. unfold EventHandlerCompleteTask. sound_run. Qed.
#[local] Hint Resolve sound_EventHandlerCompleteTask : sound_db.

Lemma sound_step op s :
  sound 0 s -> wp (step op) (fun _ => sound 0) (fun _ => True) s.
Proof.
  intros H. unfold step, run_op, engine_fills. destruct op; sound_run_with check_call.
Qed.

Lemma sound_initial dcheck answers eng egl_display pre :
  sound 0 (initial_state dcheck answers eng egl_display pre).
Proof.
  unfold sound, unbound, syncs_balanced, initial_state. simpl.
  repeat split; [|constructor]. intros b h p Hl. rewrite lookup_empty in Hl. discriminate.
Qed.

Lemma wp_result {A} (m : M A) (Q : A -> State -> Prop) C s a s' :
  wp m Q C s -> m s = Ok a s' -> Q a s'.
Proof. unfold wp. intros H E. rewrite E in H. exact H. Qed.

Lemma reachable_sound s : reachable s -> sound 0 s.
Proof.
  induction 1 as [dcheck answers eng egl pre s HC
                 |dcheck answers eng egl pre profile client s0 b s HC HI
                 |s op s' Hr IH Hs].
  - exact (wp_result _ _ _ _ _ _ (sound_Constructor _ _ (sound_initial _ _ _ _ _)) HC).
  - pose proof (wp_result _ _ _ _ _ _
                  (sound_Constructor _ _ (sound_initial dcheck answers eng egl pre)) HC) as H0.
    exact (wp_result _ _ _ _ _ _ (sound_Initialize profile client _ _ H0) HI).
  - exact (wp_result _ _ _ _ _ _ (sound_step op s IH) Hs).
Qed.

Lemma reachable_demo_polling : reachable demo_polling.
Proof.
  apply reachable_after; [|vm_compute; reflexivity].
  reach_demo_executing true demo_unsignalled.
Qed.

(** X21: No run of the adapter binds a picture buffer or delivers a picture:
    [AssignPictureBuffers] never fills [pictures_], so no header carries a
    [media::Picture] and [FillBufferDoneTask] never gets to [PictureReady]. *)
Theorem no_picture_delivered s :
  reachable s ->
  pictures_ s = [] /\
  (forall b h p, headers s !! b = Some h -> pAppPrivate h <> AppPicture p) /\
  (forall p, EvClient (PictureReady p) ∉ trace s).
Proof.
  intros Hr. destruct (reachable_sound s Hr) as [[Hp Hh] [_ Ht]].
  split; [exact Hp|]. split; [exact Hh|].
  intros p Hin. rewrite Forall_forall in Ht. exact (Ht _ Hin p eq_refl).
Qed.

Lemma no_picture_delivered_witness :
  reachable (demo_decoding true) /\
  pictures_ (demo_decoding true) = [] /\
  (forall b h p, headers (demo_decoding true) !! b = Some h -> pAppPrivate h <> AppPicture p) /\
  (forall p, EvClient (PictureReady p) ∉ trace (demo_decoding true)).
Proof.
  split; [exact reachable_demo_decoding|].
  exact (no_picture_delivered (demo_decoding true) reachable_demo_decoding).
Defined.

(** X22: In every state the adapter reaches, each sync object
    [ReusePictureBuffer] has created has been destroyed or belongs to a poll
    of [CheckPictureStatus] that waits on the task runner. *)
Theorem sync_objects_accounted s :
  reachable s ->
  syncs_created (trace s) =
  (syncs_destroyed (trace s) + length (posted_picture_checks_ s))%nat.
Proof.
  intros Hr. destruct (reachable_sound s Hr) as [_ [Hb _]].
  unfold syncs_balanced in Hb. rewrite Hb. lia.
Qed.

Lemma sync_objects_accounted_witness :
  reachable demo_polling /\
  posted_picture_checks_ demo_polling = [5] /\
  syncs_created (trace demo_polling) =
  (syncs_destroyed (trace demo_polling) + length (posted_picture_checks_ demo_polling))%nat.
Proof.
  split; [exact reachable_demo_polling|]. split; [vm_compute; reflexivity|].
  exact (sync_objects_accounted demo_polling reachable_demo_polling).
Defined.

